(** * Verification of the question-bank tools

    A shallow embedding of the tool classes of
    [gset_question_bank/src/notes/tools] (file, LaTeX and OCR tools), of
    [run], [run_single] and [run_batch] from [notes/src/notes/main.py] and
    of [_ensure_directories] and [prepare_inputs] from
    [notes/src/notes/crew.py], with the properties the specification states
    about them and further properties that the code shows.

    The model:
    - Text is the Standard Library's [string]; the Python methods the
      tools call ([str.strip], [str.split], [str.upper], [json.dumps],
      [pathlib], [os.path]) are modelled on ASCII text.
    - [re.sub] is modelled for the patterns the converter uses: anchors,
      literal characters and one-or-more repetitions, matched by
      backtracking as [re] does.
    - The file system is a finite map from [str(path)] to the text of the
      regular files and a finite set of directories; [Path.exists] is a
      total test on it.  Paths are as [pathlib] normalises them; [..] and
      links are not resolved, permissions are not modelled.
    - A computation of a tool reads and changes a world (the file system
      and the log of what was printed and invoked) and returns or raises;
      every exception is an instance of [Exception], with its class and
      [str(e)].
    - The collaborators (the external compiler, [json.loads], the
      recognition library and service, the crew) are the fields of an
      environment; nothing is assumed about what they answer.
    - A dictionary is the list of its entries in insertion order;
      [prepare_inputs] returns the dictionary it has updated, and a
      [ValueError] is an exception of the class of all other errors. *)

From Stdlib Require Import Strings.String Strings.Ascii Lists.List Arith.PeanoNat Bool.Bool.
From Stdlib Require Import Sorting.Permutation micromega.Lia.
From stdpp Require Import base gmap strings.

Import ListNotations.
Local Open Scope string_scope.
Local Open Scope list_scope.

(* [simpl] unfolds string concatenation on a constructor. *)
#[local] Arguments String.append : simpl nomatch.

(** ** Characters and strings *)

Definition nl : ascii := "010"%char.

Definition is_digit (c : ascii) : bool :=
  (48 <=? nat_of_ascii c)%nat && (nat_of_ascii c <=? 57)%nat.

(** [c in s] for a one-character [c]. *)
Fixpoint has_char (c : ascii) (s : string) : bool :=
  match s with
  | EmptyString => false
  | String d s' => Ascii.eqb c d || has_char c s'
  end.

(** ** Regular expressions ([re], flag [MULTILINE])

    The nine patterns of [MarkdownToLaTeXTool._run] are built from line
    anchors, literal characters and one-or-more repetitions of a character
    class, greedy or lazy, with at most one capturing group.  A pattern is
    the sequence of these items; [mt] is the backtracking matcher of [re]
    on them. *)
Module Re.

Inductive cls : Type :=
  | Dot      (* [.]  : any character except a newline *)
  | Digit.   (* [\d] *)

Definition in_cls (k : cls) (c : ascii) : bool :=
  match k with
  | Dot => negb (Ascii.eqb c nl)
  | Digit => is_digit c
  end.

Inductive item : Type :=
  | Bol                                       (* [^] under MULTILINE *)
  | Eol                                       (* [$] under MULTILINE *)
  | Lit (c : ascii)                           (* a literal character *)
  | Plus (k : cls) (lazy capture : bool).     (* [k+], [k+?], [(k+)], [(k+?)] *)

Definition pattern := list item.

(** [^] holds at the start of the text and after a newline; [prev] is the
    character before the current position. *)
Definition at_bol (prev : option ascii) : bool :=
  match prev with
  | None => true
  | Some c => Ascii.eqb c nl
  end.

(** [$] holds at the end of the text and before a newline. *)
Definition at_eol (s : string) : bool :=
  match s with
  | EmptyString => true
  | String c _ => Ascii.eqb c nl
  end.

(** One-or-more repetition with backtracking.  [taken] is what the
    repetition has consumed so far, [cont] the rest of the pattern.  The
    greedy form tries the longer repetition first, the lazy form tries the
    rest of the pattern first. *)
Fixpoint plus_run {R : Type} (k : cls) (lazy : bool)
    (cont : string -> option ascii -> string -> option R)
    (taken s : string) {struct s} : option R :=
  match s with
  | EmptyString => None
  | String d s' =>
      if in_cls k d then
        let taken' := taken +:+ String d EmptyString in
        if lazy then
          match cont taken' (Some d) s' with
          | Some r => Some r
          | None => plus_run k lazy cont taken' s'
          end
        else
          match plus_run k lazy cont taken' s' with
          | Some r => Some r
          | None => cont taken' (Some d) s'
          end
      else None
  end.

(** [mt p prev s]: match [p] at the start of [s], [prev] being the character
    before it.  The result is the text of group 1 (if the pattern has one)
    and the text left after the match. *)
Fixpoint mt (p : pattern) (prev : option ascii) (s : string) {struct p}
    : option (option string * string) :=
  match p with
  | [] => Some (None, s)
  | Bol :: q => if at_bol prev then mt q prev s else None
  | Eol :: q => if at_eol s then mt q prev s else None
  | Lit c :: q =>
      match s with
      | String d s' => if Ascii.eqb c d then mt q (Some d) s' else None
      | EmptyString => None
      end
  | Plus k lazy capture :: q =>
      plus_run k lazy
        (fun taken prev' s' =>
           match mt q prev' s' with
           | Some (g, r) => Some (if capture then Some taken else g, r)
           | None => None
           end)
        EmptyString s
  end.

(** Replacement templates: literal text and the back-reference [\1]. *)
Inductive piece : Type :=
  | Text (s : string)
  | Group1.

Definition template := list piece.

Fixpoint expand (t : template) (g : option string) : string :=
  match t with
  | [] => EmptyString
  | Text s :: t' => s +:+ expand t' g
  | Group1 :: t' =>
      match g with Some x => x | None => EmptyString end +:+ expand t' g
  end.

(** [re.sub]: scan the text from the left; at each position try the pattern;
    a match is replaced by the expanded template and the scan resumes after
    it; otherwise the character is copied.  [skip] counts the characters of
    the current match that are still to be passed over.  An empty match
    inserts the replacement and copies the character. *)
Fixpoint sub_aux (p : pattern) (t : template) (prev : option ascii)
    (s : string) (skip : nat) {struct s} : string :=
  match s with
  | EmptyString =>
      match skip with
      | O => match mt p prev EmptyString with
             | Some (g, _) => expand t g
             | None => EmptyString
             end
      | S _ => EmptyString
      end
  | String c s' =>
      match skip with
      | S n => sub_aux p t (Some c) s' n
      | O =>
          match mt p prev s with
          | Some (g, r) =>
              match String.length s - String.length r with
              | O => expand t g +:+ String c (sub_aux p t (Some c) s' 0)
              | S n => expand t g +:+ sub_aux p t (Some c) s' n
              end
          | None => String c (sub_aux p t (Some c) s' 0)
          end
      end
  end.

Definition sub (p : pattern) (t : template) (s : string) : string :=
  sub_aux p t None s 0.

End Re.

(** ** [MarkdownToLaTeXTool] (latex_tool.py) *)
Module MarkdownToLaTeXTool.
Import Re.

Definition lits (s : string) : pattern := map Lit (list_ascii_of_string s).

(** [(.+)], [(.+?)] and [\d+]. *)
Definition group_greedy : item := Plus Dot false true.
Definition group_lazy : item := Plus Dot true true.
Definition digits : item := Plus Digit false false.

Definition command (name : string) : template :=
  [Text ("\" +:+ name +:+ "{"); Group1; Text "}"].
Definition item_cmd : template := [Text "\item "; Group1].

(** [^prefix(.+)$] and [marker(.+?)marker]. *)
Definition anchored (prefix : string) : pattern :=
  Bol :: lits prefix ++ [group_greedy; Eol].
Definition inline (marker : string) : pattern :=
  lits marker ++ [group_lazy] ++ lits marker.

(** The list [conversions] of [_run], in the order of the source. *)
Definition conversions : list (pattern * template) :=
  [ (anchored "# ", command "chapter");
    (anchored "## ", command "section");
    (anchored "### ", command "subsection");
    (anchored "#### ", command "subsubsection");
    (inline "**", command "textbf");
    (inline "*", command "textit");
    (inline "`", command "texttt");
    (anchored "- ", item_cmd);
    (Bol :: digits :: lits ". " ++ [group_greedy; Eol], item_cmd) ].

(** The loop [for pattern, replacement in conversions: latex_content =
    re.sub(...)], for any list of conversions. *)
Definition apply_all (cs : list (pattern * template)) (s : string) : string :=
  fold_left (fun acc c => sub (fst c) (snd c) acc) cs s.

Definition _run (markdown_content : string) : string :=
  apply_all conversions markdown_content.

End MarkdownToLaTeXTool.

(** ** Python text methods *)
Module Py.

(** [str.isspace] on the ASCII range. *)
Definition is_space (c : ascii) : bool :=
  let n := nat_of_ascii c in
  ((9 <=? n)%nat && (n <=? 13)%nat) || ((28 <=? n)%nat && (n <=? 32)%nat).

Fixpoint lstrip (s : string) : string :=
  match s with
  | EmptyString => EmptyString
  | String c s' => if is_space c then lstrip s' else s
  end.

Fixpoint rstrip (s : string) : string :=
  match s with
  | EmptyString => EmptyString
  | String c s' =>
      match rstrip s' with
      | EmptyString => if is_space c then EmptyString else String c EmptyString
      | r => String c r
      end
  end.

(** [s.strip()] *)
Definition strip (s : string) : string := rstrip (lstrip s).

Definition upper_char (c : ascii) : ascii :=
  let n := nat_of_ascii c in
  if (97 <=? n)%nat && (n <=? 122)%nat then ascii_of_nat (n - 32) else c.

(** [s.upper()] on ASCII text. *)
Fixpoint upper (s : string) : string :=
  match s with
  | EmptyString => EmptyString
  | String c s' => String (upper_char c) (upper s')
  end.

Definition lower_char (c : ascii) : ascii :=
  let n := nat_of_ascii c in
  if (65 <=? n)%nat && (n <=? 90)%nat then ascii_of_nat (n + 32) else c.

(** [s.lower()] on ASCII text. *)
Fixpoint lower (s : string) : string :=
  match s with
  | EmptyString => EmptyString
  | String c s' => String (lower_char c) (lower s')
  end.

(** [s.split(sep)] for a one-character separator. *)
Fixpoint split (sep : ascii) (s : string) : list string :=
  match s with
  | EmptyString => [EmptyString]
  | String c s' =>
      if Ascii.eqb c sep then EmptyString :: split sep s'
      else match split sep s' with
           | x :: xs => String c x :: xs
           | [] => [String c EmptyString]
           end
  end.

(** [s.split(sep, 1)] *)
Fixpoint split1 (sep : ascii) (s : string) : list string :=
  match s with
  | EmptyString => [EmptyString]
  | String c s' =>
      if Ascii.eqb c sep then [EmptyString; s']
      else match split1 sep s' with
           | x :: xs => String c x :: xs
           | [] => [String c EmptyString]
           end
  end.

(** [sep.join(xs)] *)
Fixpoint join (sep : string) (xs : list string) : string :=
  match xs with
  | [] => EmptyString
  | [x] => x
  | x :: xs' => x +:+ sep +:+ join sep xs'
  end.

(** [s.startswith(p)] *)
Definition startswith (s p : string) : bool := String.prefix p s.

(** Decimal text of a natural number, as [str(n)] and [f"{n}"] give it. *)
Fixpoint decimal_aux (fuel n : nat) (acc : string) : string :=
  match fuel with
  | O => acc
  | S fuel' =>
      let acc' := String (ascii_of_nat (48 + n mod 10)%nat) acc in
      if (n <? 10)%nat then acc' else decimal_aux fuel' (n / 10)%nat acc'
  end.
Definition decimal (n : nat) : string := decimal_aux (S n) n EmptyString.

End Py.

(** ** Exceptions *)

(** The classes the handlers of the tools tell apart; every one of them is
    a subclass of [Exception]. *)
Inductive exn_class : Type :=
  | FileNotFoundError
  | TimeoutExpired
  | ImportError
  | OtherError.

(** An exception: its class and [str(e)]. *)
Record exn : Type := Exn { exn_cls : exn_class; exn_msg : string }.

Inductive outcome (A : Type) : Type :=
  | Ret (a : A)
  | Raise (e : exn).
Arguments Ret {A} a.
Arguments Raise {A} e.

(** ** JSON values and [json.dumps] *)
Module Json.

#[local] Set Warnings "-register-all".

(** A parsed JSON document.  A number carries the text Python prints for
    it; objects keep the order of their keys, as [dict] does. *)
Inductive json : Type :=
  | JNull
  | JBool (b : bool)
  | JNum (text : string)
  | JStr (s : string)
  | JList (items : list json)
  | JDict (fields : list (string * json)).

(** A [dict] with string keys, in insertion order. *)
Definition dict := list (string * json).

(** [k in d] and [d.get(k)] *)
Fixpoint dict_get (d : dict) (k : string) : option json :=
  match d with
  | [] => None
  | (k', v) :: d' => if String.eqb k k' then Some v else dict_get d' k
  end.

(** [d[k] = v]: an existing key keeps its place, a new key goes last. *)
Fixpoint dict_set (d : dict) (k : string) (v : json) : dict :=
  match d with
  | [] => [(k, v)]
  | (k', v') :: d' =>
      if String.eqb k k' then (k, v) :: d' else (k', v') :: dict_set d' k v
  end.

(** [{**a, **b}] *)
Definition dict_merge (a b : dict) : dict :=
  fold_left (fun d kv => dict_set d (fst kv) (snd kv)) b a.

Definition dquote : ascii := "034"%char.

Definition hex_digit (n : nat) : ascii :=
  nth n (list_ascii_of_string "0123456789abcdef") "0"%char.

(** The escape of one character in a JSON string ([ensure_ascii] also
    escapes what lies outside the printable ASCII range). *)
Definition escape_char (ensure_ascii : bool) (c : ascii) : string :=
  let n := nat_of_ascii c in
  if Ascii.eqb c dquote then String "\" (String dquote EmptyString)
  else if Ascii.eqb c "\" then "\\"
  else if (n =? 10)%nat then "\n"
  else if (n =? 13)%nat then "\r"
  else if (n =? 9)%nat then "\t"
  else if (n =? 8)%nat then "\b"
  else if (n =? 12)%nat then "\f"
  else if (n <? 32)%nat || (ensure_ascii && (126 <? n)%nat) then
    "\u00" +:+ String (hex_digit (n / 16)) (String (hex_digit (n mod 16)) EmptyString)
  else String c EmptyString.

Fixpoint escape (ensure_ascii : bool) (s : string) : string :=
  match s with
  | EmptyString => EmptyString
  | String c s' => escape_char ensure_ascii c +:+ escape ensure_ascii s'
  end.

Definition quoted (ensure_ascii : bool) (s : string) : string :=
  String dquote (escape ensure_ascii s +:+ String dquote EmptyString).

Fixpoint spaces (n : nat) : string :=
  match n with
  | O => EmptyString
  | S k => String " " (spaces k)
  end.

Definition newline_indent (level : nat) : string :=
  String nl (spaces (2 * level)).

(** [json.dumps(v, indent=2, ensure_ascii=...)] at nesting depth [level]. *)
Fixpoint dumps_at (ensure_ascii : bool) (level : nat) (v : json) : string :=
  match v with
  | JNull => "null"
  | JBool true => "true"
  | JBool false => "false"
  | JNum text => text
  | JStr s => quoted ensure_ascii s
  | JList [] => "[]"
  | JList (x :: xs) =>
      "[" +:+ newline_indent (S level) +:+ dumps_at ensure_ascii (S level) x
      +:+ (fix rest (l : list json) : string :=
             match l with
             | [] => EmptyString
             | y :: l' =>
                 "," +:+ newline_indent (S level)
                 +:+ dumps_at ensure_ascii (S level) y +:+ rest l'
             end) xs
      +:+ newline_indent level +:+ "]"
  | JDict [] => "{}"
  | JDict ((k, x) :: xs) =>
      "{" +:+ newline_indent (S level) +:+ quoted ensure_ascii k +:+ ": "
      +:+ dumps_at ensure_ascii (S level) x
      +:+ (fix rest (l : list (string * json)) : string :=
             match l with
             | [] => EmptyString
             | (k', y) :: l' =>
                 "," +:+ newline_indent (S level) +:+ quoted ensure_ascii k' +:+ ": "
                 +:+ dumps_at ensure_ascii (S level) y +:+ rest l'
             end) xs
      +:+ newline_indent level +:+ "}"
  end.

Definition dumps (ensure_ascii : bool) (v : json) : string :=
  dumps_at ensure_ascii 0 v.

End Json.

(** ** Paths ([pathlib], [os.path]) *)
Module Paths.

(** A [PurePosixPath]: whether it is absolute, and its components. *)
Record path : Type := MkPath { absolute : bool; parts : list string }.

Definition is_part (x : string) : bool :=
  negb (String.eqb x EmptyString) && negb (String.eqb x ".").

(** [Path(s)]: empty and [.] components are dropped. *)
Definition Path (s : string) : path :=
  {| absolute := Py.startswith s "/";
     parts := List.filter is_part (Py.split "/" s) |}.

(** [str(p)] *)
Definition path_str (p : path) : string :=
  match absolute p, parts p with
  | false, [] => "."
  | a, ps => (if a then "/" else EmptyString) +:+ Py.join "/" ps
  end.

(** [p.parent] *)
Definition parent (p : path) : path :=
  {| absolute := absolute p; parts := removelast (parts p) |}.

(** [p / s] *)
Definition joinpath (p : path) (s : string) : path :=
  let q := Path s in
  if absolute q then q
  else {| absolute := absolute p; parts := parts p ++ parts q |}.

(** The position of the last [.] of a name. *)
Fixpoint rfind_dot (s : string) : option nat :=
  match s with
  | EmptyString => None
  | String c s' =>
      match rfind_dot s' with
      | Some i => Some (S i)
      | None => if Ascii.eqb c "." then Some 0 else None
      end
  end.

(** [p.name] *)
Definition name (p : path) : string := List.last (parts p) EmptyString.

(** [p.suffix]: the name from its last dot on, unless that dot starts or
    ends the name. *)
Definition suffix (p : path) : string :=
  let n := name p in
  match rfind_dot n with
  | Some i =>
      if (0 <? i)%nat && (i <? String.length n - 1)%nat
      then String.substring i (String.length n - i) n
      else EmptyString
  | None => EmptyString
  end.

(** [os.path.basename(s)]: what follows the last slash. *)
Definition basename (s : string) : string := List.last (Py.split "/" s) EmptyString.

(** [os.path.splitext(s)[0]], for a name without directory part: the name
    without its extension; leading dots are not an extension. *)
Fixpoint lstrip_dots (s : string) : string * string :=
  match s with
  | String "." s' => let (d, r) := lstrip_dots s' in (String "." d, r)
  | _ => (EmptyString, s)
  end.

Definition splitext_root (s : string) : string :=
  let (d, r) := lstrip_dots s in
  match rfind_dot r with
  | Some i => d +:+ String.substring 0 i r
  | None => s
  end.

(** [os.path.join(a, b)] *)
Definition os_join (a b : string) : string :=
  if Py.startswith b "/" then b
  else if String.eqb a EmptyString then b
  else if Ascii.eqb (List.last (list_ascii_of_string a) " "%char) "/" then a +:+ b
  else a +:+ "/" +:+ b.

End Paths.

(** ** The world outside the tools *)
Module Os.
Import Paths Json.

(** The file system: the regular files with their text and the
    directories, both under [str(path)].  The current directory and the
    root always exist. *)
Record fs : Type := MkFs { files : gmap string string; dirs : gset string }.

Definition is_file (f : fs) (p : path) : bool :=
  bool_decide (is_Some (files f !! path_str p)).

Definition is_dir (f : fs) (p : path) : bool :=
  match parts p with
  | [] => true
  | _ => bool_decide (path_str p ∈ dirs f)
  end.

(** [p.exists()] *)
Definition path_exists (f : fs) (p : path) : bool := is_file f p || is_dir f p.

(** What the tools do to the outside, in order of occurrence. *)
Inductive event : Type :=
  | Printed (text : string)
  | Spawned (argv : list string) (timeout : nat)
  | ClientCreated (api_key : option string)
  | ContentRequested (model data mime_type prompt : string)
  | KickedOff (inputs : dict) (result : outcome string).

Record world : Type := MkWorld { w_fs : fs; w_log : list event }.

(** How a child process ends.  A missing executable raises
    [FileNotFoundError] before any process exists; in the other cases the
    process ran and may have changed the files. *)
Inductive proc_result : Type :=
  | Completed (returncode : Z) (stderr : string) (after : fs)
  | TimedOut (after : fs)
  | NoExecutable
  | SpawnError (msg : string) (after : fs).

(** The collaborators of the tools: the external compiler, the [json]
    parser, the recognition service and the crew. *)
Record Env : Type := MkEnv {
  spawn : list string -> nat -> world -> proc_result;
  json_loads : string -> outcome json;
  py_repr : json -> string;
  genai_import : option string;
  getenv : string -> option string;
  genai_client : option string -> option exn;
  generate_content : string -> string -> string -> string -> world -> outcome string;
  kickoff : dict -> world -> outcome string * fs;
  today : world -> string;
  banner : string
}.

(** *** Computations that read and change the world and may raise *)
Definition M (A : Type) : Type := world -> outcome A * world.

Definition ret {A : Type} (a : A) : M A := fun w => (Ret a, w).

Definition raise {A : Type} (e : exn) : M A := fun w => (Raise e, w).

Definition bind {A B : Type} (m : M A) (k : A -> M B) : M B :=
  fun w =>
    match m w with
    | (Ret a, w') => k a w'
    | (Raise e, w') => (Raise e, w')
    end.

(** [try: m except ... : h e] *)
Definition try_except {A : Type} (m : M A) (h : exn -> M A) : M A :=
  fun w =>
    match m w with
    | (Ret a, w') => (Ret a, w')
    | (Raise e, w') => h e w'
    end.

Definition lift {A : Type} (o : outcome A) : M A := fun w => (o, w).

Definition get_fs : M fs := fun w => (Ret (w_fs w), w).

Definition put_fs (f : fs) : M unit :=
  fun w => (Ret tt, {| w_fs := f; w_log := w_log w |}).

Definition emit (e : event) : M unit :=
  fun w => (Ret tt, {| w_fs := w_fs w; w_log := w_log w ++ [e] |}).

(** [print(text)] *)
Definition print (text : string) : M unit := emit (Printed text).

End Os.

Declare Scope py_scope.
Delimit Scope py_scope with py.
Notation "'let*' x ':=' m 'in' k" := (Os.bind m (fun x => k))
  (at level 10, x name, m at level 100, k at level 200) : py_scope.

Module OsOps.
Import Paths Json Os.
Local Open Scope py_scope.

Definition os_error (cls : exn_class) (what : string) (p : path) : exn :=
  Exn cls (what +:+ ": '" +:+ path_str p +:+ "'").

(** [open(p, 'r').read()] *)
Definition read_text (p : path) : M string :=
  let* f := get_fs in
  match files f !! path_str p with
  | Some content => ret content
  | None =>
      if is_dir f p then raise (os_error OtherError "[Errno 21] Is a directory" p)
      else raise (os_error FileNotFoundError "[Errno 2] No such file or directory" p)
  end.

(** [open(p, 'w').write(content)] *)
Definition write_text (p : path) (content : string) : M unit :=
  let* f := get_fs in
  if is_dir f p then raise (os_error OtherError "[Errno 21] Is a directory" p)
  else if is_dir f (parent p) then
    put_fs {| files := <[path_str p := content]> (files f); dirs := dirs f |}
  else raise (os_error FileNotFoundError "[Errno 2] No such file or directory" p).

(** [os.mkdir(p)] *)
Definition os_mkdir (p : path) : M unit :=
  let* f := get_fs in
  if path_exists f p then raise (os_error OtherError "[Errno 17] File exists" p)
  else if is_dir f (parent p) then
    put_fs {| files := files f; dirs := {[ path_str p ]} ∪ dirs f |}
  else if is_file f (parent p) then
    raise (os_error OtherError "[Errno 20] Not a directory" p)
  else raise (os_error FileNotFoundError "[Errno 2] No such file or directory" p).

(** [p.mkdir(parents=True, exist_ok=True)]: [os.mkdir(p)]; when the parent
    is missing, the parent first and then [p]; an existing directory is
    accepted.  [n] bounds the number of ancestors. *)
Fixpoint mkdir_p (n : nat) (p : path) : M unit :=
  try_except (os_mkdir p)
    (fun e =>
       match exn_cls e with
       | FileNotFoundError =>
           match n with
           | O => raise e
           | S n' => let* _ := mkdir_p n' (parent p) in os_mkdir p
           end
       | _ =>
           let* f := get_fs in
           if is_dir f p then ret tt else raise e
       end).

Definition mkdir_parents (p : path) : M unit :=
  mkdir_p (List.length (parts p)) p.

(** [os.makedirs(name, exist_ok=True)] *)
Definition makedirs (name : string) : M unit :=
  if String.eqb name EmptyString
  then raise (os_error FileNotFoundError "[Errno 2] No such file or directory" (Path name))
  else mkdir_parents (Path name).

(** [os.path.exists(name)] *)
Definition os_path_exists (name : string) : M bool :=
  let* f := get_fs in
  ret (negb (String.eqb name EmptyString) && path_exists f (Path name)).

(** [subprocess.run(argv, capture_output=True, text=True, timeout=...)]:
    the return code and the captured standard error. *)
Definition subprocess_run (E : Env) (argv : list string) (timeout : nat)
    : M (Z * string) :=
  let* _ := emit (Spawned argv timeout) in
  (fun w =>
     match spawn E argv timeout w with
     | Completed rc err after => (Ret (rc, err), {| w_fs := after; w_log := w_log w |})
     | TimedOut after =>
         (Raise (Exn TimeoutExpired
                   ("Command timed out after " +:+ Py.decimal timeout +:+ " seconds")),
          {| w_fs := after; w_log := w_log w |})
     | NoExecutable =>
         (Raise (Exn FileNotFoundError
                   ("[Errno 2] No such file or directory: '" +:+ hd EmptyString argv +:+ "'")),
          w)
     | SpawnError msg after =>
         (Raise (Exn OtherError msg), {| w_fs := after; w_log := w_log w |})
     end).

End OsOps.

(** ** [FileReaderTool] (file_tool.py) *)
Module FileReaderTool.
Import Paths Json Os OsOps.
Local Open Scope py_scope.

Definition _run (E : Env) (file_path : string) : M string :=
  let path := Path file_path in
  let* f := get_fs in
  if negb (path_exists f path) then ret ("Error: File not found at " +:+ file_path)
  else
    try_except
      (let* content := read_text path in
       if String.eqb (suffix path) ".json" then
         let* data := lift (json_loads E content) in
         ret (dumps false data)
       else ret content)
      (fun e => ret ("Error reading file: " +:+ exn_msg e)).

End FileReaderTool.

(** ** [FileWriterTool] (file_tool.py) *)
Module FileWriterTool.
Import Paths Json Os OsOps.
Local Open Scope py_scope.

(** The "smart path handling" of [_run]: [file_path]. *)
Definition target (filename : string) (directory : option string) : string :=
  match directory with
  | Some d =>
      if negb (String.eqb d EmptyString) && negb (String.eqb d "./") then
        if Py.startswith filename d then filename
        else if Py.startswith filename "output/" || Py.startswith filename "input/"
                || Py.startswith filename "./" then filename
        else path_str (joinpath (Path d) filename)
      else filename
  | None => filename
  end.

Definition _run (filename content : string) (directory : option string)
    (overwrite : bool) : M string :=
  try_except
    (let file_path := target filename directory in
     let path := Path file_path in
     let* _ := mkdir_parents (parent path) in
     let* f := get_fs in
     if path_exists f path && negb overwrite then
       ret ("File already exists at " +:+ file_path
            +:+ ". Set overwrite=true to replace it.")
     else
       let* _ := write_text path content in
       ret ("Successfully wrote " +:+ Py.decimal (String.length content)
            +:+ " characters to " +:+ file_path))
    (fun e => ret ("An error occurred while writing to the file: " +:+ exn_msg e)).

End FileWriterTool.

(** ** [AnswerKeyParserTool] (file_tool.py) *)
Module AnswerKeyParserTool.
Import Paths Json Os OsOps.
Local Open Scope py_scope.

(** [str(v)] of a parsed JSON value. *)
Definition py_str (E : Env) (v : json) : string :=
  match v with
  | JStr s => s
  | JNum text => text
  | JBool true => "True"
  | JBool false => "False"
  | JNull => "None"
  | _ => py_repr E v
  end.

(** The JSON branch: an object is taken as it is; of a list, the items
    that are objects with the keys [question] and [answer] are entered. *)
Definition from_json (E : Env) (data : json) : dict :=
  match data with
  | JDict d => d
  | JList items =>
      fold_left
        (fun answers item =>
           match item with
           | JDict fields =>
               match dict_get fields "question", dict_get fields "answer" with
               | Some q, Some a => dict_set answers (py_str E q) a
               | _, _ => answers
               end
           | _ => answers
           end)
        items []
  | _ => []
  end.

Definition separators : list ascii := ["."; ","; ":"; "009"; " "]%char.

Definition labels : list string := ["A"; "B"; "C"; "D"].

(** The loop [for sep in ...] on one stripped line: the entry that the
    first separator with a valid answer gives. *)
Fixpoint try_separators (seps : list ascii) (line : string) : option (string * string) :=
  match seps with
  | [] => None
  | sep :: seps' =>
      if has_char sep line then
        match Py.split1 sep line with
        | [p0; p1] =>
            let q_num := Py.strip p0 in
            let answer := Py.upper (Py.strip p1) in
            if existsb (String.eqb answer) labels then Some (q_num, answer)
            else try_separators seps' line
        | _ => try_separators seps' line
        end
      else try_separators seps' line
  end.

(** The body of [for line in ...]. *)
Definition parse_line (answers : dict) (line : string) : dict :=
  let line := Py.strip line in
  if String.eqb line EmptyString then answers
  else
    match try_separators separators line with
    | Some (q_num, answer) => dict_set answers q_num (JStr answer)
    | None => answers
    end.

(** The line-by-line branch. *)
Definition parse_lines (content : string) : dict :=
  fold_left parse_line (Py.split nl (Py.strip content)) [].

(** The [try] block up to the value of [answers]. *)
Definition parse (E : Env) (path : path) : M dict :=
  let* content := read_text path in
  if String.eqb (suffix path) ".json" then
    let* data := lift (json_loads E content) in
    ret (from_json E data)
  else ret (parse_lines content).

Definition _run (E : Env) (answer_key_path : string) : M string :=
  let path := Path answer_key_path in
  let* f := get_fs in
  if negb (path_exists f path) then
    ret ("Error: Answer key not found at " +:+ answer_key_path)
  else
    try_except
      (let* answers := parse E path in
       ret (dumps true (JDict answers)))
      (fun e => ret ("Error parsing answer key: " +:+ exn_msg e)).

End AnswerKeyParserTool.

(** ** [OCRTool] (ocr_tool.py) *)
Module OCRTool.
Import Paths Json Os OsOps.
Local Open Scope py_scope.

Definition mime_type_of (file_ext : string) : string :=
  if String.eqb file_ext ".pdf" then "application/pdf"
  else if String.eqb file_ext ".png" then "image/png"
  else if String.eqb file_ext ".jpg" || String.eqb file_ext ".jpeg" then "image/jpeg"
  else if String.eqb file_ext ".webp" then "image/webp"
  else if String.eqb file_ext ".gif" then "image/gif"
  else "application/octet-stream".

Definition prompt : string :=
"Extract ALL text from this document exactly as it appears. 
This is a GSET (Gujarat State Eligibility Test) question paper.

For each question, extract:
1. Question number
2. Complete question text (preserve exact wording)
3. All options (A), (B), (C), (D) with their full text
4. Any mathematical expressions (convert to readable format)

Important:
- Extract ALL questions visible in the document
- Preserve the original numbering
- Do NOT summarize or paraphrase - extract verbatim
- If text is unclear, mark as [UNCLEAR]
- Include page numbers if visible

Output the extracted text in a structured format.".

(** [from google import genai] *)
Definition import_genai (E : Env) : M unit :=
  match genai_import E with
  | Some msg => raise (Exn ImportError msg)
  | None => ret tt
  end.

(** [genai.Client(api_key=api_key)] *)
Definition new_client (E : Env) (api_key : option string) : M unit :=
  let* _ := emit (ClientCreated api_key) in
  match genai_client E api_key with
  | Some e => raise e
  | None => ret tt
  end.

(** [client.models.generate_content(...).text]: the call to the
    recognition service. *)
Definition request_content (E : Env) (model data mime_type text : string) : M string :=
  let* _ := emit (ContentRequested model data mime_type text) in
  (fun w => (generate_content E model data mime_type text w, w)).

Definition _run (E : Env) (file_path : string) : M string :=
  try_except
    (let* _ := import_genai E in
     let api_key := getenv E "GOOGLE_API_KEY" in
     let* _ := new_client E api_key in
     let filepath := Path file_path in
     let* f := get_fs in
     if negb (path_exists f filepath) then
       ret ("[OCR Tool] File not found: " +:+ file_path)
     else
       let* file_data := read_text filepath in
       let file_ext := Py.lower (suffix filepath) in
       let mime_type := mime_type_of file_ext in
       request_content E "gemini-2.0-flash" file_data mime_type prompt)
    (fun e =>
       match exn_cls e with
       | ImportError =>
           ret ("[OCR Tool] Google GenAI not installed. Run: pip install google-genai. Error: "
                +:+ exn_msg e)
       | _ => ret ("[OCR Tool] Error processing file with Gemini: " +:+ exn_msg e)
       end).

End OCRTool.

(** ** [LaTeXCompilerTool] (latex_tool.py) *)
Module LaTeXCompilerTool.
Import Paths Json Os OsOps.
Local Open Scope py_scope.

Definition timeout : nat := 120.

Definition command_line (output_dir tex_file_path : string) : list string :=
  ["pdflatex"; "-output-directory"; output_dir; tex_file_path].

Definition _run (E : Env) (tex_file_path output_dir : string) : M string :=
  try_except
    (let* _ := makedirs output_dir in
     let* result := subprocess_run E (command_line output_dir tex_file_path) timeout in
     let (returncode, stderr) := result in
     if (returncode =? 0)%Z then
       let pdf_name := splitext_root (basename tex_file_path) +:+ ".pdf" in
       let pdf_path := os_join output_dir pdf_name in
       ret ("Successfully compiled LaTeX to PDF: " +:+ pdf_path)
     else ret ("LaTeX compilation failed: " +:+ stderr))
    (fun e =>
       match exn_cls e with
       | FileNotFoundError =>
           ret "[LaTeX Compiler] pdflatex not found. Please install a LaTeX distribution."
       | TimeoutExpired =>
           ret "[LaTeX Compiler] Compilation timed out after 120 seconds."
       | _ => ret ("[LaTeX Compiler] Error: " +:+ exn_msg e)
       end).

End LaTeXCompilerTool.

(** ** [run_batch] (main.py) *)
Module Main.
Import Paths Json Os OsOps.
Local Open Scope py_scope.

Definition DEFAULT_CONFIG : dict :=
  [ ("exam_name", JStr "GSET");
    ("author", JStr "Yash Kavaiya");
    ("website", JStr "https://gsetexam.blogspot.com/");
    ("youtube", JStr "https://youtube.com/playlist?list=PL6gpvClXEwJXRbutffBm0bjAwKfoaNlMw");
    ("telegram", JStr "t.me/gset_exam");
    ("facebook", JStr "https://www.facebook.com/GSETEXAM/") ].

(** The pictographs that start some messages, as the bytes of the source. *)
Definition glyph (codes : list nat) : string :=
  string_of_list_ascii (map ascii_of_nat codes).
Definition glyph_clipboard : string := glyph [239; 163; 191; 195; 188; 195; 172; 195; 163].
Definition glyph_books : string := glyph [239; 163; 191; 195; 188; 195; 172; 195; 182].
Definition glyph_chart : string := glyph [239; 163; 191; 195; 188; 195; 172; 195; 164].
Definition glyph_check : string := glyph [226; 128; 154; 195; 186; 195; 150].
Definition glyph_cross : string := glyph [226; 128; 154; 195; 185; 195; 165].

Fixpoint repeat_str (s : string) (n : nat) : string :=
  match n with
  | O => EmptyString
  | S k => s +:+ repeat_str s k
  end.

Definition rule : string := repeat_str "=" 60.

Definition print_banner (E : Env) : M unit := print (banner E).

Definition print_error (message : string) : M unit :=
  print (String nl (glyph_cross +:+ " ERROR: " +:+ message +:+ String nl EmptyString)).

(** One entry of [results]. *)
Record job_result : Type := MkJobResult {
  jr_chapter : json;
  jr_result : option string;
  jr_status : string;
  jr_error : option string
}.

(** [x.get(key, default)]; only an object has [get]. *)
Definition json_get (x : json) (key : string) (default : json) : M json :=
  match x with
  | JDict d =>
      ret (match dict_get d key with Some v => v | None => default end)
  | _ => raise (Exn OtherError "object has no attribute 'get'")
  end.

(** [{**x, ...}]; only a mapping can be unpacked. *)
Definition unpack (x : json) : M dict :=
  match x with
  | JDict d => ret d
  | _ => raise (Exn OtherError "object is not a mapping")
  end.

(** The items [for ... in enumerate(chapters, 1)] goes through; [len] and
    iteration need a sized, iterable value. *)
Definition items_of (x : json) : M (list json) :=
  match x with
  | JList items => ret items
  | JDict d => ret (map (fun kv => JStr (fst kv)) d)
  | JStr s => ret (map (fun c => JStr (String c EmptyString)) (list_ascii_of_string s))
  | _ => raise (Exn OtherError "object has no len()")
  end.

(** [GsetQuestionBank().crew().kickoff(inputs=inputs)] *)
Definition crew_kickoff (E : Env) (inputs : dict) : M string :=
  fun w =>
    let (result, after) := kickoff E inputs w in
    (result, {| w_fs := after; w_log := w_log w ++ [KickedOff inputs result] |}).

(** The body of the [for] loop for the chapter number [idx]. *)
Definition process_chapter (E : Env) (config : json) (total idx : nat)
    (chapter : json) : M job_result :=
  let* _ := print (String nl rule) in
  let* chapter_name := json_get chapter "chapter_name" (JStr "Unknown") in
  let* _ := print ("Processing Chapter " +:+ Py.decimal idx +:+ "/" +:+ Py.decimal total
                   +:+ ": " +:+ AnswerKeyParserTool.py_str E chapter_name) in
  let* _ := print rule in
  let* fields := unpack chapter in
  let* exam_name := json_get config "exam_name" (JStr "GSET") in
  let* current_date := (fun w => (Ret (today E w), w)) in
  let inputs :=
    dict_merge
      (dict_set (dict_set fields "exam_name" exam_name) "current_date" (JStr current_date))
      DEFAULT_CONFIG in
  try_except
    (let* result := crew_kickoff E inputs in
     let* _ := print (glyph_check +:+ " Chapter " +:+ Py.decimal idx
                      +:+ " completed successfully") in
     ret (MkJobResult chapter (Some result) "success" None))
    (fun e =>
       let* _ := print_error ("Chapter " +:+ Py.decimal idx +:+ " failed: " +:+ exn_msg e) in
       ret (MkJobResult chapter None "error" (Some (exn_msg e)))).

(** The [for] loop: [results] grows by one entry per chapter. *)
Fixpoint process_chapters (E : Env) (config : json) (total idx : nat)
    (chapters : list json) (results : list job_result) : M (list job_result) :=
  match chapters with
  | [] => ret results
  | chapter :: rest =>
      let* r := process_chapter E config total idx chapter in
      process_chapters E config total (S idx) rest (results ++ [r])
  end.

(** [sum(1 for r in results if r['status'] == 'success')] *)
Definition count_successful (results : list job_result) : nat :=
  List.length (List.filter (fun r => String.eqb (jr_status r) "success") results).

Definition run_batch (E : Env) (config_file : string) : M (option (list job_result)) :=
  let* _ := print_banner E in
  let* _ := print (glyph_clipboard +:+ " Loading batch configuration from: " +:+ config_file) in
  let* found := os_path_exists config_file in
  if negb found then
    let* _ := print_error ("Config file not found: " +:+ config_file) in
    ret None
  else
    let* text := read_text (Path config_file) in
    let* config := lift (json_loads E text) in
    let* chapters_value := json_get config "chapters" (JList []) in
    let* chapters := items_of chapters_value in
    let total := List.length chapters in
    let* _ := print (glyph_books +:+ " Found " +:+ Py.decimal total
                     +:+ " chapters to process" +:+ String nl EmptyString) in
    let* results := process_chapters E config total 1 chapters [] in
    let* _ := print (String nl rule) in
    let* _ := print (glyph_chart +:+ " BATCH PROCESSING SUMMARY") in
    let* _ := print rule in
    let successful := count_successful results in
    let* _ := print (glyph_check +:+ " Successful: " +:+ Py.decimal successful
                     +:+ "/" +:+ Py.decimal total) in
    let* _ := print (glyph_cross +:+ " Failed: " +:+ Py.decimal (total - successful)
                     +:+ "/" +:+ Py.decimal total) in
    ret (Some results).

End Main.

(** ** [run_single] and [run] (main.py) *)
Module MainRun.
Import Paths Json Os OsOps Main.
Local Open Scope py_scope.

(** [str(n)] for an [int]. *)
Definition int_text (n : Z) : string :=
  match n with
  | Z0 => "0"
  | Zpos p => Py.decimal (Pos.to_nat p)
  | Zneg p => "-" +:+ Py.decimal (Pos.to_nat p)
  end.

Definition glyph_party : string := glyph [239; 163; 191; 195; 188; 195; 169; 195; 162].
Definition glyph_folder : string := glyph [239; 163; 191; 195; 188; 195; 172; 195; 133].
Definition glyph_bullet : string := glyph [226; 128; 154; 195; 132; 194; 162].
Definition glyph_book : string := glyph [239; 163; 191; 195; 188; 195; 172; 195; 177].

Definition print_success (result : string) : M unit :=
  let* _ := print (String nl rule) in
  let* _ := print (glyph_party +:+ " SUCCESS!") in
  let* _ := print rule in
  let* _ := print (String nl (glyph_folder +:+ " Generated Files:")) in
  let* _ := print ("   " +:+ glyph_bullet +:+ " JSON: output/extracted_questions/") in
  let* _ := print ("   " +:+ glyph_bullet +:+ " Markdown: output/chapters/") in
  let* _ := print ("   " +:+ glyph_bullet +:+ " LaTeX: output/book/") in
  let* _ := print (String nl (glyph_book +:+ " To generate PDF:")) in
  let* _ := print "   cd output/book && pdflatex main.tex && pdflatex main.tex" in
  print (String nl (rule +:+ String nl EmptyString)).

(** [DEFAULT_CONFIG['exam_name']] *)
Definition default_exam_name : json :=
  match dict_get DEFAULT_CONFIG "exam_name" with Some v => v | None => JNull end.

(** The dictionary display [{'image_path': ..., **DEFAULT_CONFIG}]. *)
Definition inputs_of (image_path answer_key_file : string) (chapter_number : Z)
    (chapter_name subject current_date : string) : dict :=
  dict_merge
    (dict_merge []
       [ ("image_path", JStr image_path);
         ("answer_key_file", JStr answer_key_file);
         ("chapter_number", JNum (int_text chapter_number));
         ("chapter_name", JStr chapter_name);
         ("subject", JStr subject);
         ("exam_name", default_exam_name);
         ("current_date", JStr current_date) ])
    DEFAULT_CONFIG.

Definition run_single (E : Env) (image_path answer_key_file : string)
    (chapter_number : Z) (chapter_name subject : string) : M string :=
  let* current_date := (fun w => (Ret (today E w), w)) in
  let inputs :=
    inputs_of image_path answer_key_file chapter_number chapter_name subject
      current_date in
  let* _ := print_banner E in
  try_except
    (let* result := crew_kickoff E inputs in
     let* _ := print_success result in
     ret result)
    (fun e =>
       let* _ := print_error ("An error occurred: " +:+ exn_msg e) in
       raise e).

Definition run (E : Env) : M string :=
  let* current_date := (fun w => (Ret (today E w), w)) in
  let inputs :=
    inputs_of "input/question_sheets/sample_question_paper.png"
      "input/answer_keys/sample_answer_key.txt" 1 "Sample Chapter" "General Studies"
      current_date in
  let* _ := print_banner E in
  try_except
    (let* result := crew_kickoff E inputs in
     let* _ := print_success result in
     ret result)
    (fun e =>
       let* _ := print_error ("An error occurred while running the crew: "
                              +:+ exn_msg e) in
       raise e).

End MainRun.

(** ** [GsetQuestionBank] (crew.py): the directories and the inputs *)
Module Crew.
Import Paths Json Os OsOps.
Local Open Scope py_scope.

Definition directories : list string :=
  [ "input/question_sheets";
    "input/answer_keys";
    "output/extracted_questions";
    "output/chapters";
    "output/book" ].

(** [for x in xs: f(x)] *)
Fixpoint for_each {A : Type} (f : A -> M unit) (xs : list A) : M unit :=
  match xs with
  | [] => ret tt
  | x :: rest => let* _ := f x in for_each f rest
  end.

Definition _ensure_directories : M unit := for_each makedirs directories.

(** [k in d] *)
Definition contains (d : dict) (k : string) : bool :=
  match dict_get d k with Some _ => true | None => false end.

(** [d.setdefault(k, v)] *)
Definition setdefault (d : dict) (k : string) (v : json) : dict :=
  if contains d k then d else dict_set d k v.

Definition required_fields : list string :=
  ["image_path"; "chapter_number"; "chapter_name"; "subject"].

(** [str(xs)] for a list of plain names. *)
Definition list_repr (xs : list string) : string :=
  "[" +:+ Py.join ", " (map (fun x => "'" +:+ x +:+ "'") xs) +:+ "]".

(** What [os.path.basename] accepts: a text. *)
Definition path_text (v : json) : M string :=
  match v with
  | JStr s => ret s
  | _ => raise (Exn OtherError "expected str, bytes or os.PathLike object")
  end.

(** [f"{d.get(k)}"] *)
Definition get_text (E : Env) (d : dict) (k : string) : string :=
  match dict_get d k with
  | Some v => AnswerKeyParserTool.py_str E v
  | None => "None"
  end.

Definition glyph_rocket : string := Main.glyph [240; 159; 154; 128].
Definition glyph_page : string := Main.glyph [240; 159; 147; 132].
Definition glyph_stack : string := Main.glyph [240; 159; 147; 154].
Definition glyph_open_book : string := Main.glyph [240; 159; 147; 150].

(** The [ValueError] of [prepare_inputs]. *)
Definition missing_inputs (missing : list string) : exn :=
  Exn OtherError ("Missing required inputs: " +:+ list_repr missing).

Definition prepare_inputs (E : Env) (inputs : dict) : M dict :=
  let inputs := setdefault inputs "exam_name" (JStr "GSET") in
  let* current_date := (fun w => (Ret (today E w), w)) in
  let inputs := setdefault inputs "current_date" (JStr current_date) in
  let inputs := setdefault inputs "author" (JStr "Yash Kavaiya") in
  let* inputs :=
    match dict_get inputs "image_path" with
    | Some v =>
        let* image_path := path_text v in
        ret (dict_set inputs "filename" (JStr (splitext_root (basename image_path))))
    | None => ret inputs
    end in
  let missing := List.filter (fun f => negb (contains inputs f)) required_fields in
  match missing with
  | _ :: _ => raise (missing_inputs missing)
  | [] =>
      let* _ := print (String nl Main.rule) in
      let* _ := print (glyph_rocket +:+ " GSET Question Bank Generator") in
      let* _ := print Main.rule in
      let* _ := print (glyph_page +:+ " Processing: " +:+ get_text E inputs "image_path") in
      let* _ := print (glyph_stack +:+ " Chapter: " +:+ get_text E inputs "chapter_number"
                       +:+ " - " +:+ get_text E inputs "chapter_name") in
      let* _ := print (glyph_open_book +:+ " Subject: " +:+ get_text E inputs "subject") in
      let* _ := print (Main.rule +:+ String nl EmptyString) in
      ret inputs
  end.

End Crew.

(** ** Sample worlds *)
Module Examples.
Import Paths Json Os OsOps.

(** An environment given by its compiler, its [json] parser, the import
    of the recognition library and its crew. *)
Definition env_of (compiler : list string -> nat -> world -> proc_result)
    (loads : string -> outcome json) (import : option string)
    (crew : dict -> world -> outcome string * fs) : Env :=
  {| spawn := compiler;
     json_loads := loads;
     py_repr := fun _ => "<object>";
     genai_import := import;
     getenv := fun _ => None;
     genai_client := fun _ => None;
     generate_content := fun _ _ _ _ _ => Ret "1. What is 2 + 2? (A) 3 (B) 4";
     kickoff := crew;
     today := fun _ => "2025-01-01";
     banner := "GSET Question Bank Generator" |}.

(** An answer key as a JSON object whose key and value are not
    normalised, and a batch of three chapters. *)
Definition raw_key : json := JDict [(" 1 ", JStr "e")].

Definition chapter (number name : string) : json :=
  JDict [ ("image_path", JStr ("input/question_sheets/ch" +:+ number +:+ ".png"));
          ("answer_key_file", JStr ("input/answer_keys/ch" +:+ number +:+ ".txt"));
          ("chapter_number", JNum number);
          ("chapter_name", JStr name);
          ("subject", JStr "General Studies") ].

Definition three_chapters : list json :=
  [chapter "1" "One"; chapter "2" "Two"; chapter "3" "Three"].

Definition batch_config : dict := [("chapters", JList three_chapters)].

(** [json.loads] on the two JSON files of the sample world. *)
Definition loads (text : string) : outcome json :=
  if String.eqb text (dumps true raw_key) then Ret raw_key
  else if String.eqb text (dumps true (JDict batch_config)) then Ret (JDict batch_config)
  else Raise (Exn OtherError "Expecting value: line 1 column 1 (char 0)").

(** A crew that fails on the chapter named [Two]. *)
Definition crew (inputs : dict) (w : world) : outcome string * fs :=
  match dict_get inputs "chapter_name" with
  | Some (JStr "Two") => (Raise (Exn OtherError "recognition failed"), w_fs w)
  | _ => (Ret "chapter written", w_fs w)
  end.

Definition no_compiler : list string -> nat -> world -> proc_result :=
  fun _ _ _ => NoExecutable.
Definition hanging_compiler : list string -> nat -> world -> proc_result :=
  fun _ _ w => TimedOut (w_fs w).

Definition env : Env := env_of no_compiler loads None crew.
Definition env_hanging : Env := env_of hanging_compiler loads None crew.

Definition abc_lines : string := "1. A" +:+ String nl "2,B" +:+ String nl "3:C".

Definition sample_fs : fs :=
  {| files := list_to_map
                [ ("keys/ch1.txt", abc_lines);
                  ("keys/ch1.json", dumps true raw_key);
                  ("batch_config.json", dumps true (JDict batch_config)) ];
     dirs := list_to_set ["keys"; "output"] |}.

Definition sample_world : world := {| w_fs := sample_fs; w_log := [] |}.

End Examples.

(** ** Vocabulary of the properties *)

(** The character before the position reached after reading [a]. *)
Fixpoint last_char (prev : option ascii) (a : string) : option ascii :=
  match a with
  | EmptyString => prev
  | String c a' => last_char (Some c) a'
  end.

Module ReSpec.
Import Re.

(** A pattern is line-local when none of its literal characters is a
    newline: no match of it contains a newline. *)
Definition line_local (p : pattern) : bool :=
  forallb (fun i => match i with Lit c => negb (Ascii.eqb c nl) | _ => true end) p.

(** A match result with [x] added to the text left after the match. *)
Definition extend (x : string) (o : option (option string * string))
    : option (option string * string) :=
  match o with
  | Some (g, y) => Some (g, y +:+ x)
  | None => None
  end.

(** Every character of [s] is in the class [k]. *)
Fixpoint all_cls (k : cls) (s : string) : bool :=
  match s with
  | EmptyString => true
  | String c s' => in_cls k c && all_cls k s'
  end.

(** A repetition of [k] cannot go on into [x]. *)
Definition stops (k : cls) (x : string) : bool :=
  match x with
  | EmptyString => true
  | String c _ => negb (in_cls k c)
  end.

(** A character absent from the text is absent from the captured group and
    from the text left after the match. *)
Definition lacks (c : ascii) (res : option string * string) : Prop :=
  has_char c (snd res) = false /\
  forall x, fst res = Some x -> has_char c x = false.

(** The literal text of a template does not have the character [c]. *)
Fixpoint template_lacks (c : ascii) (t : template) : bool :=
  match t with
  | [] => true
  | Text s :: t' => negb (has_char c s) && template_lacks c t'
  | Group1 :: t' => template_lacks c t'
  end.

End ReSpec.

Module MarkdownSpec.
Import Re ReSpec MarkdownToLaTeXTool.

(** A pattern with a literal or a repetition matches no empty text. *)
Definition consuming (p : pattern) : bool :=
  existsb (fun i => match i with Lit _ | Plus _ _ _ => true | _ => false end) p.

(** Text without a newline and without the markers [*] and [`]. *)
Definition unmarked (s : string) : bool :=
  negb (has_char nl s) && negb (has_char "*" s) && negb (has_char "`" s).

(** A non-empty text without newline and markers. *)
Definition plain (T : string) : bool :=
  negb (String.eqb T EmptyString) && unmarked T.

(** A number: a non-empty sequence of digits. *)
Definition number (n : string) : bool :=
  negb (String.eqb n EmptyString) && all_cls Digit n.

(** A line of a document: the text before it (if any) ends with a newline,
    the text after it (if any) starts with one. *)
Definition own_line (before : option string) (line : string) (after : option string)
    : string :=
  match before with Some b => b +:+ String nl EmptyString | None => EmptyString end
  +:+ line +:+
  match after with Some a => String nl a | None => EmptyString end.

(** What the six anchored conversions (headings and list items) have in
    common: the pattern starts with [^], its replacement starts with a
    backslash, and no text that starts with a backslash matches it. *)
Record line_anchored (c : pattern * template) : Prop := {
  la_bol : exists q, fst c = Bol :: q;
  la_local : line_local (fst c) = true;
  la_template : template_lacks nl (snd c) = true;
  la_output : forall g, exists o, expand (snd c) g = String "\" o;
  la_settled : forall x, mt (fst c) None (String "\" x) = None
}.


(** The headings and list items, and the emphasis and code markers. *)
Definition anchored_conversions : list (pattern * template) :=
  firstn 4 conversions ++ skipn 7 conversions.
Definition inline_conversions : list (pattern * template) :=
  firstn 3 (skipn 4 conversions).

(** Patterns and templates can be compared. *)
#[export] Instance cls_eq_dec : EqDecision cls.
Proof. solve_decision. Defined.
#[export] Instance item_eq_dec : EqDecision item.
Proof. solve_decision. Defined.
#[export] Instance piece_eq_dec : EqDecision piece.
Proof. solve_decision. Defined.

(** Text without the emphasis marker [*] and the code marker [`]. *)
Definition marker_free (s : string) : Prop :=
  has_char "*" s = false /\ has_char "`" s = false.


End MarkdownSpec.

Module AnswerKeySpec.
Import Paths Json Os OsOps AnswerKeyParserTool.




End AnswerKeySpec.

Module OsSpec.
Import Paths Json Os OsOps.

(** What a computation leaves alone: the regular files and the log. *)
Definition keeps_files {A : Type} (m : M A) : Prop :=
  forall w, files (w_fs (snd (m w))) = files (w_fs w) /\ w_log (snd (m w)) = w_log w.

End OsSpec.

Module LaTeXCompilerSpec.
Import Paths Json Os OsOps OsSpec LaTeXCompilerTool.

(** The world in which the compiler is invoked: the output directory has
    been created and the invocation is on the log. *)
Definition invocation_world (tex_file_path output_dir : string) (w : world) : world :=
  let w1 := snd (makedirs output_dir w) in
  {| w_fs := w_fs w1;
     w_log := w_log w1 ++ [Spawned (command_line output_dir tex_file_path) timeout] |}.

(** The answers for a missing compiler and for a timeout. *)
Definition not_found_message : string :=
  "[LaTeX Compiler] pdflatex not found. Please install a LaTeX distribution.".
Definition timeout_message : string :=
  "[LaTeX Compiler] Compilation timed out after 120 seconds.".

End LaTeXCompilerSpec.

Module FileWriterSpec.
Import Paths Json Os OsOps OsSpec FileWriterTool.

(** The answer for an existing target. *)
Definition exists_message (file_path : string) : string :=
  "File already exists at " +:+ file_path +:+ ". Set overwrite=true to replace it.".

End FileWriterSpec.

Module OCRSpec.
Import Paths Json Os OsOps OCRTool.

(** The answer for a missing file. *)
Definition missing_message (file_path : string) : string :=
  "[OCR Tool] File not found: " +:+ file_path.

(** The requests sent to the recognition service. *)
Definition is_request (ev : event) : bool :=
  match ev with
  | ContentRequested _ _ _ _ => true
  | _ => false
  end.

Definition requests (log : list event) : list event :=
  List.filter is_request log.

End OCRSpec.

Module TotalSpec.
Import Paths Json Os OsOps.


End TotalSpec.

Module BatchSpec.
Import Paths Json Os OsOps Main.

(** The runs of the crew on the log: the inputs and how each run ended. *)
Definition kickoffs (log : list event) : list (dict * outcome string) :=
  flat_map (fun ev => match ev with KickedOff i o => [(i, o)] | _ => [] end) log.

(** The entry of [results] for a chapter whose run ended with [o]. *)
Definition result_of (chapter : json) (o : outcome string) : job_result :=
  match o with
  | Ret x => MkJobResult chapter (Some x) "success" None
  | Raise e => MkJobResult chapter None "error" (Some (exn_msg e))
  end.


(** The inputs of the run for a chapter: its fields, the exam name, the
    date, and the defaults over them. *)
Definition inputs_for (cfg fields : dict) (date : string) : dict :=
  dict_merge
    (dict_set
       (dict_set fields "exam_name"
          (match dict_get cfg "exam_name" with Some v => v | None => JStr "GSET" end))
       "current_date" (JStr date))
    DEFAULT_CONFIG.

(** A run that belongs to a chapter. *)
Definition run_of (cfg : dict) (chapter : json) (k : dict * outcome string) : Prop :=
  exists fields date, chapter = JDict fields /\ fst k = inputs_for cfg fields date.

(** A JSON object. *)
Definition is_dict (x : json) : bool :=
  match x with JDict _ => true | _ => false end.



End BatchSpec.

(** ** Vocabulary of the further properties *)
Module MoreSpec.
Import Re ReSpec MarkdownToLaTeXTool MarkdownSpec.



(** The newline as a text. *)
Definition newline : string := String nl EmptyString.

End MoreSpec.

(** ** Vocabulary of the answer keys, further *)
Module AnswerKeyMoreSpec.
Import Json AnswerKeyParserTool.

(** The entry that a line of an answer key contributes, if any. *)
Definition line_entry (line : string) : option (string * string) :=
  let line := Py.strip line in
  if String.eqb line EmptyString then None else try_separators separators line.

(** The label of the last line that has an entry for the question [q]. *)
Fixpoint last_answer (lines : list string) (q : string) : option string :=
  match lines with
  | [] => None
  | line :: rest =>
      match last_answer rest q with
      | Some a => Some a
      | None =>
          match line_entry line with
          | Some (q', a) => if String.eqb q q' then Some a else None
          | None => None
          end
      end
  end.



End AnswerKeyMoreSpec.

(** ** Vocabulary of the recognition tool, further *)
Module OCRMoreSpec.
Import Paths Json Os OsOps OCRTool.

(** The request that [OCRTool._run] sends for a file with the given
    content. *)
Definition request_for (file_path data : string) : event :=
  ContentRequested "gemini-2.0-flash" data
    (mime_type_of (Py.lower (suffix (Path file_path)))) prompt.

(** The world in which the request is answered: the client has been
    created and the request sent. *)
Definition request_world (E : Env) (file_path data : string) (w : world) : world :=
  {| w_fs := w_fs w;
     w_log := (w_log w ++ [ClientCreated (getenv E "GOOGLE_API_KEY")])
              ++ [request_for file_path data] |}.

(** The answer of the tool to an exception. *)
Definition error_answer (e : exn) : string :=
  match exn_cls e with
  | ImportError =>
      "[OCR Tool] Google GenAI not installed. Run: pip install google-genai. Error: "
      +:+ exn_msg e
  | _ => "[OCR Tool] Error processing file with Gemini: " +:+ exn_msg e
  end.

End OCRMoreSpec.

(** ** Vocabulary of the inputs of the crew *)
Module CrewSpec.
Import Paths Json Os OsOps Crew.

(** The required fields that the inputs lack, in the order of
    [required_fields]. *)
Definition missing_of (inputs : dict) : list string :=
  List.filter (fun f => negb (contains inputs f)) required_fields.

(** The value that [prepare_inputs] gives a key that the caller left
    out. *)
Definition default_of (date key : string) : option json :=
  if String.eqb key "exam_name" then Some (JStr "GSET")
  else if String.eqb key "current_date" then Some (JStr date)
  else if String.eqb key "author" then Some (JStr "Yash Kavaiya")
  else None.

(** The image path is absent or a text. *)
Definition image_path_ok (inputs : dict) : Prop :=
  forall v, dict_get inputs "image_path" = Some v -> exists p, v = JStr p.

(** No regular file stands where the directory [name] or its parent
    should be. *)
Definition clear_of_files (f : fs) (name : string) : bool :=
  negb (is_file f (Path name)) && negb (is_file f (parent (Path name))).

End CrewSpec.

(** ** Further examples *)
Module MoreExamples.
Import Paths Json Os OsOps Examples.

(** A compiler that stops on an error, and one that writes the PDF it is
    asked for into the output directory. *)
Definition failing_compiler : list string -> nat -> world -> proc_result :=
  fun _ _ w => Completed 1 "! Undefined control sequence." (w_fs w).

Definition working_compiler : list string -> nat -> world -> proc_result :=
  fun argv _ w =>
    let out := nth 2 argv EmptyString in
    let pdf := os_join out (splitext_root (basename (nth 3 argv EmptyString)) +:+ ".pdf") in
    Completed 0 EmptyString
      {| files := <[path_str (Path pdf) := "%PDF"]> (files (w_fs w));
         dirs := dirs (w_fs w) |}.

Definition env_failing : Env := env_of failing_compiler loads None crew.
Definition env_working : Env := env_of working_compiler loads None crew.

(** A batch with an exam name of its own, whose second chapter is a text
    instead of an object. *)
Definition mixed_config : dict :=
  [ ("exam_name", JStr "NET");
    ("chapters", JList [chapter "1" "One"; JStr "chapter two"; chapter "3" "Three"]) ].

Definition loads_mixed (text : string) : outcome json :=
  if String.eqb text (dumps true (JDict mixed_config)) then Ret (JDict mixed_config)
  else loads text.

Definition env_mixed : Env := env_of no_compiler loads_mixed None crew.

Definition mixed_world : world :=
  {| w_fs := {| files := <["mixed.json" := dumps true (JDict mixed_config)]>
                           (files sample_fs);
                dirs := dirs sample_fs |};
     w_log := [] |}.

End MoreExamples.

(* ================================================================= *)
(** * Properties *)
(* ================================================================= *)

(** ** Strings *)

Lemma app_nil_r_s (s : string) : s +:+ EmptyString = s.
Proof. induction s as [|c s IH]; simpl; [reflexivity | now rewrite IH]. Qed.

Lemma app_assoc_s (a b c : string) : (a +:+ b) +:+ c = a +:+ (b +:+ c).
Proof. induction a as [|x a IH]; simpl; [reflexivity | now rewrite IH]. Qed.

Lemma length_app_s (a b : string) :
  String.length (a +:+ b) = String.length a + String.length b.
Proof. induction a as [|x a IH]; simpl; [reflexivity | now rewrite IH]. Qed.

Lemma has_char_app (c : ascii) (a b : string) :
  has_char c (a +:+ b) = has_char c a || has_char c b.
Proof.
  induction a as [|x a IH]; simpl; [reflexivity |].
  now rewrite IH, orb_assoc.
Qed.

Lemma app_snoc_s (a : string) (c : ascii) (b : string) :
  (a +:+ String c EmptyString) +:+ b = a +:+ String c b.
Proof. now rewrite app_assoc_s. Qed.

Lemma last_char_nl_free (prev : option ascii) (a : string) :
  has_char nl a = false -> Re.at_bol prev = false ->
  Re.at_bol (last_char prev a) = false.
Proof.
  revert prev; induction a as [|c a IH]; intros prev Ha Hp; simpl in *; [assumption|].
  apply orb_false_elim in Ha as [Hc Ha].
  apply IH; [assumption|]. simpl. now rewrite Ascii.eqb_sym.
Qed.

(** ** The matcher *)
Module ReFacts.
Import Re ReSpec.

Lemma in_cls_nl (k : cls) : in_cls k nl = false.
Proof. destruct k; reflexivity. Qed.

(** The matcher looks at the previous character only to decide [^]. *)
Lemma mt_prev_bol (p : pattern) : forall prev1 prev2 s,
  at_bol prev1 = at_bol prev2 -> mt p prev1 s = mt p prev2 s.
Proof.
  induction p as [|i q IH]; intros prev1 prev2 s H; [reflexivity|].
  destruct i; simpl; try reflexivity.
  - rewrite H. destruct (at_bol prev2) eqn:E; [apply IH; congruence | reflexivity].
  - destruct (at_eol s); [now apply IH | reflexivity].
Qed.

Lemma plus_run_before_newline (k : cls) (lazy : bool)
    (cont : string -> option ascii -> string -> option (option string * string))
    (r : string) :
  (forall tk pv b, cont tk pv (b +:+ String nl r) = extend (String nl r) (cont tk pv b)) ->
  forall b tk,
    plus_run k lazy cont tk (b +:+ String nl r)
    = extend (String nl r) (plus_run k lazy cont tk b).
Proof.
  intros Hc b; induction b as [|d b IH]; intros tk; simpl.
  - now rewrite in_cls_nl.
  - destruct (in_cls k d); [|reflexivity].
    destruct lazy.
    + rewrite Hc. destruct (cont _ (Some d) b) as [[g y]|]; [reflexivity | apply IH].
    + rewrite IH. destruct (plus_run k false cont _ b) as [[g y]|]; [reflexivity | apply Hc].
Qed.

(** Matching in front of a newline is matching in the text before it. *)
Lemma mt_before_newline (p : pattern) : line_local p = true ->
  forall prev b r,
    mt p prev (b +:+ String nl r) = extend (String nl r) (mt p prev b).
Proof.
  induction p as [|i q IH]; intros Hp prev b r; [reflexivity|].
  simpl in Hp. apply andb_prop in Hp as [Hi Hq]. specialize (IH Hq).
  destruct i as [| |c|k lazy capture]; simpl.
  - destruct (at_bol prev); [apply IH | reflexivity].
  - replace (at_eol (b +:+ String nl r)) with (at_eol b) by (destruct b; reflexivity).
    destruct (at_eol b); [apply IH | reflexivity].
  - destruct b as [|d b]; simpl.
    + apply negb_true_iff in Hi. now rewrite Hi.
    + destruct (Ascii.eqb c d); [apply IH | reflexivity].
  - apply plus_run_before_newline. intros tk pv b'. rewrite IH.
    destruct (mt q pv b') as [[g y]|]; reflexivity.
Qed.

Lemma sub_aux_prev_bol (p : pattern) (t : template) prev1 prev2 s k :
  at_bol prev1 = at_bol prev2 -> sub_aux p t prev1 s k = sub_aux p t prev2 s k.
Proof.
  intros H. destruct s as [|c s], k as [|k]; simpl; try reflexivity;
    now rewrite (mt_prev_bol p prev1 prev2 _ H).
Qed.

Lemma sub_aux_newline (p : pattern) (t : template) (r : string) :
  line_local p = true ->
  forall b prev k, k <= String.length b ->
    sub_aux p t prev (b +:+ String nl r) k
    = sub_aux p t prev b k +:+ String nl (sub_aux p t None r 0).
Proof.
  intros Hp b; induction b as [|c b IH]; intros prev k Hk.
  - assert (k = 0) as -> by (simpl in Hk; lia).
    pose proof (mt_before_newline p Hp prev EmptyString r) as Hm.
    simpl in Hm. simpl. rewrite Hm.
    rewrite (sub_aux_prev_bol p t (Some nl) None r 0 eq_refl).
    destruct (mt p prev EmptyString) as [[g y]|]; simpl; [|reflexivity].
    replace (S (String.length r) - String.length (y +:+ String nl r)) with 0
      by (rewrite length_app_s; simpl; lia).
    reflexivity.
  - destruct k as [|k]; simpl.
    + pose proof (mt_before_newline p Hp prev (String c b) r) as Hm.
      simpl in Hm. rewrite Hm.
      destruct (mt p prev (String c b)) as [[g y]|]; simpl.
      * replace (S (String.length (b +:+ String nl r)) - String.length (y +:+ String nl r))
          with (S (String.length b) - String.length y)
          by (rewrite !length_app_s; simpl; lia).
        destruct (S (String.length b) - String.length y) as [|m] eqn:E.
        -- rewrite IH by lia. now rewrite app_assoc_s.
        -- rewrite IH by lia. now rewrite app_assoc_s.
      * now rewrite IH by lia.
    + apply IH. simpl in Hk. lia.
Qed.

(** [re.sub] with a line-local pattern works on each side of a newline
    separately. *)
Lemma sub_newline (p : pattern) (t : template) (b r : string) :
  line_local p = true ->
  sub p t (b +:+ String nl r) = sub p t b +:+ String nl (sub p t r).
Proof. intros Hp. unfold sub. apply sub_aux_newline; [assumption | lia]. Qed.

(** *** Scanning over text that cannot start a match *)

Lemma sub_aux_lit_absent (c : ascii) (q : pattern) (t : template) (x : string) :
  forall a prev, has_char c a = false ->
    sub_aux (Lit c :: q) t prev (a +:+ x) 0
    = a +:+ sub_aux (Lit c :: q) t (last_char prev a) x 0.
Proof.
  induction a as [|d a IH]; intros prev Ha; [reflexivity|].
  simpl in Ha. apply orb_false_elim in Ha as [Hd Ha].
  simpl. rewrite Hd. now rewrite IH.
Qed.

Lemma sub_aux_bol_inside (q : pattern) (t : template) (x : string) :
  forall a prev, at_bol prev = false -> has_char nl a = false ->
    sub_aux (Bol :: q) t prev (a +:+ x) 0
    = a +:+ sub_aux (Bol :: q) t (last_char prev a) x 0.
Proof.
  induction a as [|d a IH]; intros prev Hp Ha; [reflexivity|].
  simpl in Ha. apply orb_false_elim in Ha as [Hd Ha].
  simpl. rewrite Hp. rewrite IH; [reflexivity | | assumption].
  simpl. now rewrite Ascii.eqb_sym.
Qed.

Lemma sub_lit_absent (c : ascii) (q : pattern) (t : template) (s : string) :
  has_char c s = false -> sub (Lit c :: q) t s = s.
Proof.
  intros H. unfold sub. rewrite <- (app_nil_r_s s) at 1.
  rewrite sub_aux_lit_absent by assumption. simpl. apply app_nil_r_s.
Qed.

(** *** Replacing a match *)

Lemma sub_aux_skip (p : pattern) (t : template) (r : string) :
  forall m prev,
    sub_aux p t prev (m +:+ r) (String.length m) = sub_aux p t (last_char prev m) r 0.
Proof.
  induction m as [|c m IH]; intros prev; simpl.
  - destruct r; reflexivity.
  - apply IH.
Qed.

Lemma sub_aux_match (p : pattern) (t : template) prev (c : ascii) (m r : string) g :
  mt p prev (String c m +:+ r) = Some (g, r) ->
  sub_aux p t prev (String c m +:+ r) 0
  = expand t g +:+ sub_aux p t (last_char (Some c) m) r 0.
Proof.
  intros H. simpl in *. rewrite H.
  replace (S (String.length (m +:+ r)) - String.length r) with (S (String.length m))
    by (rewrite length_app_s; lia).
  now rewrite sub_aux_skip.
Qed.

(** An anchored pattern on a text without newline: the only possible match
    is at the start. *)
Lemma sub_bol_no_match (q : pattern) (t : template) (s : string) :
  has_char nl s = false -> mt (Bol :: q) None s = None ->
  sub (Bol :: q) t s = s.
Proof.
  intros Hs Hm. unfold sub. destruct s as [|c s]; simpl in *.
  - now rewrite Hm.
  - rewrite Hm. apply orb_false_elim in Hs as [Hc Hs].
    rewrite <- (app_nil_r_s s) at 1.
    rewrite sub_aux_bol_inside; [| simpl; now rewrite Ascii.eqb_sym | assumption].
    simpl. rewrite (last_char_nl_free (Some c) s); [| assumption | simpl; now rewrite Ascii.eqb_sym].
    now rewrite app_nil_r_s.
Qed.

(** *** Repetitions *)

Lemma all_cls_dot (s : string) : all_cls Dot s = negb (has_char nl s).
Proof.
  induction s as [|c s IH]; [reflexivity|].
  cbn [all_cls has_char in_cls].
  now rewrite IH, negb_orb, (Ascii.eqb_sym nl c).
Qed.

Lemma plus_run_stop {R : Type} (k : cls) (lazy : bool)
    (cont : string -> option ascii -> string -> option R) tk x :
  stops k x = true -> plus_run k lazy cont tk x = None.
Proof.
  destruct x as [|c x]; simpl; [reflexivity|].
  intros H. apply negb_true_iff in H. now rewrite H.
Qed.

Lemma plus_run_cons {R : Type} (k : cls) (lazy : bool)
    (cont : string -> option ascii -> string -> option R) tk d s :
  plus_run k lazy cont tk (String d s)
  = if in_cls k d then
      if lazy then
        match cont (tk +:+ String d EmptyString) (Some d) s with
        | Some r => Some r
        | None => plus_run k lazy cont (tk +:+ String d EmptyString) s
        end
      else
        match plus_run k lazy cont (tk +:+ String d EmptyString) s with
        | Some r => Some r
        | None => cont (tk +:+ String d EmptyString) (Some d) s
        end
    else None.
Proof. reflexivity. Qed.

(** The greedy repetition takes the whole run of characters of its class
    when the rest of the pattern matches after it. *)
Lemma plus_run_greedy_all {R : Type} (k : cls)
    (cont : string -> option ascii -> string -> option R) (x : string) (res : R) :
  stops k x = true ->
  forall (d : ascii) (T tk : string),
    all_cls k (String d T) = true ->
    cont (tk +:+ String d T) (last_char (Some d) T) x = Some res ->
    plus_run k false cont tk (String d T +:+ x) = Some res.
Proof.
  intros Hx d T; revert d; induction T as [|e T IH]; intros d tk Hall Hc;
    cbn [all_cls] in Hall; apply andb_prop in Hall as [Hd Hall];
    cbn [String.append]; rewrite plus_run_cons, Hd.
  - cbn [String.append]. rewrite (plus_run_stop k false cont _ x Hx). exact Hc.
  - change (String e (T +:+ x)) with (String e T +:+ x).
    erewrite (IH e); [reflexivity | assumption |].
    now rewrite app_snoc_s.
Qed.

(** The lazy repetition stops at the first place where the rest of the
    pattern matches. *)
Lemma plus_run_lazy_first {R : Type} (k : cls)
    (cont : string -> option ascii -> string -> option R) (x : string) (res : R) :
  forall (d : ascii) (T tk : string),
    all_cls k (String d T) = true ->
    (forall tk' pv e s', has_char e T = true -> cont tk' pv (String e s') = None) ->
    cont (tk +:+ String d T) (last_char (Some d) T) x = Some res ->
    plus_run k true cont tk (String d T +:+ x) = Some res.
Proof.
  intros d T; revert d; induction T as [|e T IH]; intros d tk Hall Hfail Hc;
    cbn [all_cls] in Hall; apply andb_prop in Hall as [Hd Hall];
    cbn [String.append]; rewrite plus_run_cons, Hd.
  - cbn [last_char String.append] in *. now rewrite Hc.
  - rewrite (Hfail _ _ e) by (simpl; now rewrite Ascii.eqb_refl).
    change (String e (T +:+ x)) with (String e T +:+ x).
    apply (IH e); [assumption | |].
    + intros tk' pv e' s' He. apply Hfail. simpl. rewrite He. apply orb_true_r.
    + now rewrite app_snoc_s.
Qed.

(** *** What a match is made of *)

(** The text left after a match is a suffix of the text matched against. *)
Lemma plus_run_suffix (k : cls) (lazy : bool)
    (cont : string -> option ascii -> string -> option (option string * string)) :
  (forall tk pv s g r, cont tk pv s = Some (g, r) -> exists m, s = m +:+ r) ->
  forall s tk g r, plus_run k lazy cont tk s = Some (g, r) -> exists m, s = m +:+ r.
Proof.
  intros Hc s; induction s as [|d s IH]; intros tk g r H; [discriminate|].
  rewrite plus_run_cons in H. destruct (in_cls k d); [|discriminate].
  assert (Hs : forall o, o = Some (g, r) ->
            (o = plus_run k lazy cont (tk +:+ String d EmptyString) s
             \/ o = cont (tk +:+ String d EmptyString) (Some d) s) ->
            exists m, String d s = m +:+ r).
  { intros o Ho [E | E]; rewrite Ho in E; symmetry in E.
    - destruct (IH _ _ _ E) as [m ->]. now exists (String d m).
    - destruct (Hc _ _ _ _ _ E) as [m ->]. now exists (String d m). }
  destruct lazy.
  - destruct (cont _ (Some d) s) as [res|] eqn:E1.
    + apply (Hs (Some res)); [assumption | now right].
    + apply (Hs (plus_run k true cont (tk +:+ String d EmptyString) s));
        [assumption | now left].
  - destruct (plus_run k false cont _ s) as [res|] eqn:E1.
    + apply (Hs (Some res)); [assumption | now left].
    + apply (Hs (cont (tk +:+ String d EmptyString) (Some d) s));
        [assumption | now right].
Qed.

Lemma mt_suffix (p : pattern) : forall prev s g r,
  mt p prev s = Some (g, r) -> exists m, s = m +:+ r.
Proof.
  induction p as [|i q IH]; intros prev s g r H.
  - injection H as _ <-. now exists EmptyString.
  - destruct i as [| |c|k lazy capture]; cbn [mt] in H.
    + destruct (at_bol prev); [now apply IH in H | discriminate].
    + destruct (at_eol s); [now apply IH in H | discriminate].
    + destruct s as [|d s]; [discriminate|].
      destruct (Ascii.eqb c d); [|discriminate].
      apply IH in H as [m ->]. now exists (String d m).
    + apply plus_run_suffix in H; [assumption|].
      intros tk pv s' g' r' Hc.
      destruct (mt q pv s') as [[g0 r0]|] eqn:E; [|discriminate].
      injection Hc as _ <-. now apply IH in E.
Qed.

Lemma plus_run_lacks (c : ascii) (k : cls) (lazy : bool)
    (cont : string -> option ascii -> string -> option (option string * string)) :
  (forall tk pv s res, has_char c tk = false -> has_char c s = false ->
     cont tk pv s = Some res -> lacks c res) ->
  forall s tk res, has_char c tk = false -> has_char c s = false ->
    plus_run k lazy cont tk s = Some res -> lacks c res.
Proof.
  intros Hc s; induction s as [|d s IH]; intros tk res Htk Hs H; [discriminate|].
  rewrite plus_run_cons in H. destruct (in_cls k d); [|discriminate].
  cbn [has_char] in Hs. apply orb_false_elim in Hs as [Hd Hs].
  assert (Htk' : has_char c (tk +:+ String d EmptyString) = false).
  { rewrite has_char_app, Htk. cbn [has_char]. now rewrite Hd. }
  destruct lazy.
  - destruct (cont _ (Some d) s) as [res'|] eqn:E1.
    + injection H as <-. exact (Hc _ _ _ _ Htk' Hs E1).
    + exact (IH _ _ Htk' Hs H).
  - destruct (plus_run k false cont _ s) as [res'|] eqn:E1.
    + injection H as <-. exact (IH _ _ Htk' Hs E1).
    + exact (Hc _ _ _ _ Htk' Hs H).
Qed.

Lemma mt_lacks (c : ascii) (p : pattern) : forall prev s res,
  has_char c s = false -> mt p prev s = Some res -> lacks c res.
Proof.
  induction p as [|i q IH]; intros prev s res Hs H.
  - injection H as <-. split; [assumption | discriminate].
  - destruct i as [| |e|k lazy capture]; cbn [mt] in H.
    + destruct (at_bol prev); [now apply IH in H | discriminate].
    + destruct (at_eol s); [now apply IH in H | discriminate].
    + destruct s as [|d s]; [discriminate|].
      destruct (Ascii.eqb e d); [|discriminate].
      cbn [has_char] in Hs. apply orb_false_elim in Hs as [_ Hs].
      now apply IH in H.
    + eapply plus_run_lacks in H; [exact H | | reflexivity | assumption].
      intros tk pv s' res' Htk Hs' Hc.
      destruct (mt q pv s') as [[g0 r0]|] eqn:E; [|discriminate].
      injection Hc as <-. apply IH in E as [Hr Hg]; [|assumption].
      split; [exact Hr|]. cbn [fst snd] in *.
      destruct capture; [intros x [= <-]; assumption | exact Hg].
Qed.

Lemma expand_lacks (c : ascii) (t : template) (g : option string) :
  template_lacks c t = true ->
  (forall x, g = Some x -> has_char c x = false) ->
  has_char c (expand t g) = false.
Proof.
  intros Ht Hg. induction t as [|[s|] t IH]; cbn [expand template_lacks] in *.
  - reflexivity.
  - apply andb_prop in Ht as [Hs Ht]. apply negb_true_iff in Hs.
    now rewrite has_char_app, Hs, IH.
  - rewrite has_char_app, IH by assumption.
    destruct g as [x|]; [now rewrite (Hg x) | reflexivity].
Qed.

(** [re.sub] does not introduce a character that neither the text nor the
    replacement template has. *)
Lemma sub_aux_lacks (c : ascii) (p : pattern) (t : template) :
  template_lacks c t = true ->
  forall s prev k, has_char c s = false -> has_char c (sub_aux p t prev s k) = false.
Proof.
  intros Ht s; induction s as [|d s IH]; intros prev k Hs.
  - destruct k; cbn [sub_aux]; [|reflexivity].
    destruct (mt p prev EmptyString) as [[g r]|] eqn:E; [|reflexivity].
    apply expand_lacks; [assumption|]. now apply (mt_lacks c) in E as [_ Hg].
  - pose proof Hs as Hs'. cbn [has_char] in Hs'.
    apply orb_false_elim in Hs' as [Hd Hs'].
    destruct k; cbn [sub_aux]; [|now apply IH].
    destruct (mt p prev (String d s)) as [[g r]|] eqn:E.
    + apply (mt_lacks c) in E as [_ Hg]; [|assumption]. cbn [fst] in Hg.
      destruct (String.length (String d s) - String.length r);
        rewrite has_char_app, (expand_lacks c t g Ht Hg); cbn [has_char orb];
        rewrite ?Hd; now apply IH.
    + cbn [has_char]. rewrite Hd. now apply IH.
Qed.

Lemma sub_lacks (c : ascii) (p : pattern) (t : template) (s : string) :
  template_lacks c t = true -> has_char c s = false ->
  has_char c (sub p t s) = false.
Proof. intros Ht Hs. now apply sub_aux_lacks. Qed.

(** *** Anchored patterns on one line *)

Lemma sub_aux_bol_rest (q : pattern) (t : template) (a : string) prev :
  at_bol prev = false -> has_char nl a = false ->
  sub_aux (Bol :: q) t prev a 0 = a.
Proof.
  intros Hp Ha. rewrite <- (app_nil_r_s a) at 1.
  rewrite sub_aux_bol_inside by assumption.
  cbn [sub_aux mt]. rewrite (last_char_nl_free prev a Ha Hp). apply app_nil_r_s.
Qed.

(** On a text without newline an anchored pattern matches at most once, at
    the start. *)
Lemma sub_bol_line (q : pattern) (t : template) (l : string) :
  has_char nl l = false ->
  sub (Bol :: q) t l
  = match mt (Bol :: q) None l with
    | Some (g, r) => expand t g +:+ r
    | None => l
    end.
Proof.
  intros Hl. destruct (mt (Bol :: q) None l) as [[g r]|] eqn:E;
    [| now apply sub_bol_no_match].
  destruct (mt_suffix _ _ _ _ _ E) as [m Em].
  unfold sub. destruct l as [|c l].
  - cbn [sub_aux]. rewrite E.
    destruct m; [|discriminate]. cbn [String.append] in Em. subst r.
    symmetry. apply app_nil_r_s.
  - cbn [has_char] in Hl. apply orb_false_elim in Hl as [Hc Hl].
    assert (Hb : at_bol (Some c) = false) by (cbn; now rewrite Ascii.eqb_sym).
    cbn [sub_aux]. rewrite E. destruct m as [|c' m].
    + cbn [String.append] in Em. subst r. rewrite Nat.sub_diag.
      now rewrite sub_aux_bol_rest.
    + cbn [String.append] in Em. injection Em as <- ->.
      rewrite has_char_app in Hl. apply orb_false_elim in Hl as [Hm Hr].
      replace (String.length (String c (m +:+ r)) - String.length r)
        with (S (String.length m)) by (cbn [String.length]; rewrite length_app_s; lia).
      rewrite sub_aux_skip, sub_aux_bol_rest;
        [reflexivity | now apply last_char_nl_free | assumption].
Qed.

End ReFacts.

(** ** The Markdown conversion *)
Module MarkdownFacts.
Import Re ReFacts MarkdownToLaTeXTool ReSpec MarkdownSpec.

Lemma mt_consuming_empty (p : pattern) : consuming p = true ->
  forall prev, mt p prev EmptyString = None.
Proof.
  induction p as [|i q IH]; intros H prev; [discriminate|].
  destruct i; simpl in *; try reflexivity.
  - destruct (at_bol prev); [now apply IH | reflexivity].
  - now apply IH.
Qed.

(** A match that takes the whole text. *)
Lemma sub_whole (p : pattern) (t : template) (c : ascii) (m : string) g :
  consuming p = true ->
  mt p None (String c m) = Some (g, EmptyString) ->
  sub p t (String c m) = expand t g.
Proof.
  intros Hp Hm. unfold sub. rewrite <- (app_nil_r_s (String c m)) in Hm |- *.
  rewrite (sub_aux_match p t None c m EmptyString g Hm).
  simpl. rewrite (mt_consuming_empty p Hp). apply app_nil_r_s.
Qed.

Lemma mt_lits (pre : string) (q : pattern) : forall prev s,
  mt (lits pre ++ q) prev (pre +:+ s) = mt q (last_char prev pre) s.
Proof.
  induction pre as [|c pre IH]; intros prev s; [reflexivity|].
  cbn [lits list_ascii_of_string map app mt String.append last_char].
  rewrite Ascii.eqb_refl. apply IH.
Qed.

Lemma has_char_neq (c e : ascii) (s : string) :
  has_char c s = false -> has_char e s = true -> Ascii.eqb c e = false.
Proof.
  induction s as [|d s IH]; simpl; [discriminate|].
  intros Hc He. apply orb_false_elim in Hc as [Hcd Hc].
  apply orb_prop in He as [Hed | He]; [| now apply IH].
  apply Ascii.eqb_eq in Hed. now subst.
Qed.

(** [(.+)$] on a non-empty text without newline takes all of it. *)
Lemma mt_greedy_eol (d : ascii) (T : string) prev :
  has_char nl (String d T) = false ->
  mt [group_greedy; Eol] prev (String d T) = Some (Some (String d T), EmptyString).
Proof.
  intros H. unfold group_greedy. cbn [mt].
  rewrite <- (app_nil_r_s (String d T)) at 1.
  apply plus_run_greedy_all; [reflexivity | | reflexivity].
  rewrite all_cls_dot, H. reflexivity.
Qed.

Lemma mt_anchored (prefix : string) (d : ascii) (T : string) :
  has_char nl (String d T) = false ->
  mt (anchored prefix) None (prefix +:+ String d T)
  = Some (Some (String d T), EmptyString).
Proof.
  intros H. unfold anchored. cbn [mt at_bol].
  rewrite mt_lits. now apply mt_greedy_eol.
Qed.

(** [marker(.+?)marker] around a text that has neither a newline nor the
    marker's first character. *)
Lemma mt_inline (c : ascii) (mk : string) (d : ascii) (T r : string) prev :
  has_char nl (String d T) = false ->
  has_char c (String d T) = false ->
  mt (inline (String c mk)) prev (String c mk +:+ String d T +:+ String c mk +:+ r)
  = Some (Some (String d T), r).
Proof.
  intros Hnl Hc. unfold inline. rewrite mt_lits.
  unfold group_lazy. cbn [app mt].
  apply plus_run_lazy_first.
  - rewrite all_cls_dot, Hnl. reflexivity.
  - intros tk' pv e s' He.
    cbn [lits list_ascii_of_string map mt].
    rewrite (has_char_neq c e (String d T)); [reflexivity | assumption |].
    simpl. rewrite He. apply orb_true_r.
  - rewrite <- (app_nil_r (lits (String c mk))), mt_lits. reflexivity.
Qed.

(** *** Single lines *)

Lemma unmarked_inv (s : string) : unmarked s = true ->
  has_char nl s = false /\ has_char "*" s = false /\ has_char "`" s = false.
Proof.
  unfold unmarked. intros H.
  apply andb_prop in H as [H H3]. apply andb_prop in H as [H1 H2].
  now rewrite negb_true_iff in H1, H2, H3.
Qed.

Lemma plain_inv (T : string) : plain T = true ->
  exists d T', T = String d T' /\ unmarked T = true.
Proof.
  unfold plain. intros H. apply andb_prop in H as [H0 H].
  destruct T as [|d T']; [discriminate|]. now exists d, T'.
Qed.

Lemma apply_all_cons c cs s :
  apply_all (c :: cs) s = apply_all cs (sub (fst c) (snd c) s).
Proof. reflexivity. Qed.

Lemma apply_all_id cs s :
  (forall c, In c cs -> sub (fst c) (snd c) s = s) -> apply_all cs s = s.
Proof.
  induction cs as [|c cs IH]; intros H; [reflexivity|].
  rewrite apply_all_cons, (H c) by now left.
  apply IH. intros c' Hc'. apply H. now right.
Qed.

Lemma sub_anchored_line (prefix : string) (t : template) (T : string) :
  plain T = true ->
  sub (anchored prefix) t (prefix +:+ T) = expand t (Some T).
Proof.
  intros HT. destruct (plain_inv T HT) as (d & T' & -> & HU).
  destruct (unmarked_inv _ HU) as (Hnl & _ & _).
  pose proof (mt_anchored prefix d T' Hnl) as Hm.
  destruct prefix as [|c pre]; cbn [String.append] in *;
    (apply sub_whole; [reflexivity | exact Hm]).
Qed.

Lemma sub_inline_line (c : ascii) (mk : string) (t : template) (T : string) :
  plain T = true -> has_char c T = false ->
  sub (inline (String c mk)) t (String c mk +:+ T +:+ String c mk) = expand t (Some T).
Proof.
  intros HT Hc. destruct (plain_inv T HT) as (d & T' & -> & HU).
  destruct (unmarked_inv _ HU) as (Hnl & _ & _).
  pose proof (mt_inline c mk d T' EmptyString None Hnl Hc) as Hm.
  rewrite app_nil_r_s in Hm.
  apply sub_whole; [| exact Hm].
  unfold inline. simpl. reflexivity.
Qed.

Lemma sub_inline_absent (c : ascii) (mk : string) (t : template) (s : string) :
  has_char c s = false -> sub (inline (String c mk)) t s = s.
Proof. intros H. unfold inline. now apply sub_lit_absent. Qed.

(** A text that starts with a backslash and has no newline and no marker
    is left alone by every conversion. *)
Lemma settled (o : string) (c : pattern * template) :
  unmarked (String "\" o) = true -> In c conversions ->
  sub (fst c) (snd c) (String "\" o) = String "\" o.
Proof.
  intros HU Hin. destruct (unmarked_inv _ HU) as (Hnl & Hst & Hbt).
  unfold conversions in Hin. cbn [In] in Hin.
  repeat (destruct Hin as [<- | Hin]); try contradiction; cbn [fst snd];
    first [ now apply sub_inline_absent
          | apply sub_bol_no_match; [assumption | reflexivity] ].
Qed.

Lemma unmarked_app (a b : string) : unmarked (a +:+ b) = unmarked a && unmarked b.
Proof.
  unfold unmarked. rewrite !has_char_app.
  destruct (has_char nl a), (has_char nl b), (has_char "*" a), (has_char "*" b),
    (has_char "`" a), (has_char "`" b); reflexivity.
Qed.

Lemma apply_all_app cs1 cs2 s :
  apply_all (cs1 ++ cs2) s = apply_all cs2 (apply_all cs1 s).
Proof. unfold apply_all. apply fold_left_app. Qed.

(** The shape of every single-line result: the conversions before the one
    that applies leave the line alone, that one rewrites it to a text that
    starts with a backslash, and the later ones leave that text alone. *)
Lemma run_step (pre post : list (pattern * template)) (c : pattern * template)
    (s o : string) :
  conversions = pre ++ c :: post ->
  (forall c', In c' pre -> sub (fst c') (snd c') s = s) ->
  sub (fst c) (snd c) s = String "\" o ->
  unmarked (String "\" o) = true ->
  _run s = String "\" o.
Proof.
  intros E Hpre Hc HU. unfold _run. rewrite E, apply_all_app.
  rewrite (apply_all_id pre s Hpre), apply_all_cons, Hc.
  apply apply_all_id. intros c' Hin. apply settled; [assumption|].
  rewrite E. apply in_or_app. right. now right.
Qed.

Ltac has_char_solve :=
  rewrite ?has_char_app; simpl;
  repeat match goal with
         | H : has_char _ _ = false |- _ => rewrite H
         end;
  reflexivity.

Ltac unmarked_solve :=
  unfold unmarked; simpl; rewrite ?has_char_app; simpl;
  repeat match goal with
         | H : has_char _ _ = false |- _ => rewrite H
         end;
  reflexivity.

(** [**(.+?)**] finds nothing in [*T*]. *)
Lemma bold_skips_italic (t : template) (T : string) :
  plain T = true -> has_char "*" T = false ->
  sub (inline "**") t ("*" +:+ T +:+ "*") = "*" +:+ T +:+ "*".
Proof.
  intros HT Hst. destruct (plain_inv T HT) as (d & T' & -> & _).
  pose proof Hst as Hst'. cbn [has_char] in Hst'.
  apply orb_false_elim in Hst' as [Hd HT'].
  unfold sub, inline. cbn [lits list_ascii_of_string map app String.append].
  cbn [sub_aux mt]. rewrite Ascii.eqb_refl, Hd. do 2 f_equal.
  rewrite (sub_aux_lit_absent "*" _ t "*" T') by exact HT'.
  reflexivity.
Qed.

(** Conversions that come before the applicable one: an anchored pattern
    whose prefix differs from the line's, or an inline pattern whose marker
    is absent. *)
Ltac earlier_id :=
  let c := fresh "c" in let Hin := fresh "Hin" in
  intros c Hin; cbn [firstn conversions In] in Hin;
  repeat (destruct Hin as [<- | Hin]); try contradiction; cbn [fst snd];
  first [ apply sub_inline_absent; has_char_solve
        | apply sub_bol_no_match; [has_char_solve | reflexivity]
        | now apply bold_skips_italic ].

Ltac single_line k c o :=
  apply (run_step (firstn k conversions) (skipn (S k) conversions) c _ o);
  [ reflexivity
  | earlier_id
  | cbn [fst snd]
  | unmarked_solve ].

Lemma run_chapter (T : string) : plain T = true ->
  _run ("# " +:+ T) = "\chapter{" +:+ T +:+ "}".
Proof.
  intros HT. destruct (plain_inv T HT) as (d & T' & E & HU).
  destruct (unmarked_inv _ HU) as (Hnl & Hst & Hbt).
  single_line 0 (anchored "# ", command "chapter") ("chapter{" +:+ T +:+ "}").
  now rewrite sub_anchored_line.
Qed.

Lemma run_section (T : string) : plain T = true ->
  _run ("## " +:+ T) = "\section{" +:+ T +:+ "}".
Proof.
  intros HT. destruct (plain_inv T HT) as (d & T' & E & HU).
  destruct (unmarked_inv _ HU) as (Hnl & Hst & Hbt).
  single_line 1 (anchored "## ", command "section") ("section{" +:+ T +:+ "}").
  now rewrite sub_anchored_line.
Qed.

Lemma run_subsection (T : string) : plain T = true ->
  _run ("### " +:+ T) = "\subsection{" +:+ T +:+ "}".
Proof.
  intros HT. destruct (plain_inv T HT) as (d & T' & E & HU).
  destruct (unmarked_inv _ HU) as (Hnl & Hst & Hbt).
  single_line 2 (anchored "### ", command "subsection") ("subsection{" +:+ T +:+ "}").
  now rewrite sub_anchored_line.
Qed.

Lemma run_subsubsection (T : string) : plain T = true ->
  _run ("#### " +:+ T) = "\subsubsection{" +:+ T +:+ "}".
Proof.
  intros HT. destruct (plain_inv T HT) as (d & T' & E & HU).
  destruct (unmarked_inv _ HU) as (Hnl & Hst & Hbt).
  single_line 3 (anchored "#### ", command "subsubsection")
    ("subsubsection{" +:+ T +:+ "}").
  now rewrite sub_anchored_line.
Qed.

Lemma run_code (T : string) : plain T = true ->
  _run ("`" +:+ T +:+ "`") = "\texttt{" +:+ T +:+ "}".
Proof.
  intros HT. destruct (plain_inv T HT) as (d & T' & E & HU).
  destruct (unmarked_inv _ HU) as (Hnl & Hst & Hbt).
  single_line 6 (inline "`", command "texttt") ("texttt{" +:+ T +:+ "}").
  now rewrite sub_inline_line.
Qed.

Lemma run_dash_item (T : string) : plain T = true ->
  _run ("- " +:+ T) = "\item " +:+ T.
Proof.
  intros HT. destruct (plain_inv T HT) as (d & T' & E & HU).
  destruct (unmarked_inv _ HU) as (Hnl & Hst & Hbt).
  single_line 7 (anchored "- ", item_cmd) ("item " +:+ T).
  rewrite sub_anchored_line by assumption. simpl. now rewrite app_nil_r_s.
Qed.

Lemma run_bold (T : string) : plain T = true ->
  _run ("**" +:+ T +:+ "**") = "\textbf{" +:+ T +:+ "}".
Proof.
  intros HT. destruct (plain_inv T HT) as (d & T' & E & HU).
  destruct (unmarked_inv _ HU) as (Hnl & Hst & Hbt).
  single_line 4 (inline "**", command "textbf") ("textbf{" +:+ T +:+ "}").
  now rewrite sub_inline_line.
Qed.

Lemma run_italic (T : string) : plain T = true ->
  _run ("*" +:+ T +:+ "*") = "\textit{" +:+ T +:+ "}".
Proof.
  intros HT. destruct (plain_inv T HT) as (d & T' & E & HU).
  destruct (unmarked_inv _ HU) as (Hnl & Hst & Hbt).
  single_line 5 (inline "*", command "textit") ("textit{" +:+ T +:+ "}").
  now rewrite sub_inline_line.
Qed.

Lemma digit_neq (c d : ascii) :
  is_digit c = false -> is_digit d = true -> Ascii.eqb c d = false.
Proof.
  intros Hc Hd. destruct (Ascii.eqb_spec c d) as [->|]; [congruence | reflexivity].
Qed.

Lemma digits_has_char (c : ascii) (n : string) :
  is_digit c = false -> all_cls Digit n = true -> has_char c n = false.
Proof.
  intros Hc. induction n as [|d n IH]; [reflexivity|].
  cbn [all_cls has_char in_cls]. intros H. apply andb_prop in H as [Hd Hn].
  now rewrite (digit_neq c d Hc Hd), IH.
Qed.

Lemma mt_anchored_digit_none (c : ascii) (pre : string) (d : ascii) (x : string) :
  is_digit c = false -> is_digit d = true ->
  mt (anchored (String c pre)) None (String d x) = None.
Proof.
  intros Hc Hd. unfold anchored.
  cbn [lits list_ascii_of_string map app mt at_bol].
  now rewrite (digit_neq c d Hc Hd).
Qed.

Lemma mt_numbered (d0 : ascii) (n' T : string) :
  all_cls Digit (String d0 n') = true -> plain T = true ->
  mt (Bol :: digits :: lits ". " ++ [group_greedy; Eol]) None
     (String d0 n' +:+ ". " +:+ T)
  = Some (Some T, EmptyString).
Proof.
  intros Hn HT. destruct (plain_inv T HT) as (d & T' & -> & HU).
  destruct (unmarked_inv _ HU) as (Hnl & _ & _).
  cbn [mt at_bol]. unfold digits. cbn [mt].
  apply plus_run_greedy_all; [reflexivity | assumption |].
  cbv beta. rewrite mt_lits, (mt_greedy_eol d T' _ Hnl). reflexivity.
Qed.

Lemma run_numbered_item (n T : string) : number n = true -> plain T = true ->
  _run (n +:+ ". " +:+ T) = "\item " +:+ T.
Proof.
  intros Hn HT. unfold number in Hn. apply andb_prop in Hn as [Hne Hds].
  destruct n as [|d0 n'] eqn:E; [discriminate|]. rewrite <- E in *.
  assert (Hd0 : is_digit d0 = true).
  { rewrite E in Hds. cbn [all_cls in_cls] in Hds. now apply andb_prop in Hds. }
  pose proof (digits_has_char nl n eq_refl Hds) as Hn1.
  pose proof (digits_has_char "*" n eq_refl Hds) as Hn2.
  pose proof (digits_has_char "`" n eq_refl Hds) as Hn3.
  destruct (plain_inv T HT) as (d & T' & ET & HU).
  destruct (unmarked_inv _ HU) as (Hnl & Hst & Hbt).
  apply (run_step (firstn 8 conversions) (skipn 9 conversions)
           (Bol :: digits :: lits ". " ++ [group_greedy; Eol], item_cmd) _
           ("item " +:+ T)).
  - reflexivity.
  - intros c Hin. cbn [firstn conversions In] in Hin.
    repeat (destruct Hin as [<- | Hin]); try contradiction; cbn [fst snd];
      first [ apply sub_inline_absent; has_char_solve
            | apply sub_bol_no_match;
              [ has_char_solve
              | rewrite E; now apply mt_anchored_digit_none ] ].
  - cbn [fst snd]. rewrite E in Hds |- *.
    pose proof (mt_numbered d0 n' T Hds HT) as Hm.
    cbn [String.append] in Hm |- *.
    rewrite (sub_whole (Bol :: digits :: lits ". " ++ [group_greedy; Eol])
               item_cmd _ _ _ eq_refl Hm).
    simpl. now rewrite app_nil_r_s.
  - unmarked_solve.
Qed.

(** *** Lines of a document *)

Lemma conversions_line_local (c : pattern * template) :
  In c conversions -> line_local (fst c) = true.
Proof.
  revert c. apply forallb_forall. reflexivity.
Qed.

Lemma apply_all_newline (cs : list (pattern * template)) :
  (forall c, In c cs -> line_local (fst c) = true) ->
  forall b r,
    apply_all cs (b +:+ String nl r) = apply_all cs b +:+ String nl (apply_all cs r).
Proof.
  induction cs as [|c cs IH]; intros H b r; [reflexivity|].
  rewrite !apply_all_cons, sub_newline by (apply H; now left).
  apply IH. intros c' Hc'. apply H. now right.
Qed.

(** The conversion works on each side of a newline separately. *)
Lemma run_newline (b r : string) :
  _run (b +:+ String nl r) = _run b +:+ String nl (_run r).
Proof. apply apply_all_newline, conversions_line_local. Qed.

Lemma run_own_line (before after : option string) (line : string) :
  _run (own_line before line after)
  = own_line (option_map _run before) (_run line) (option_map _run after).
Proof.
  unfold own_line.
  destruct before as [b|], after as [a|]; cbn [option_map String.append];
    rewrite ?app_assoc_s; cbn [String.append];
    rewrite ?run_newline, ?app_nil_r_s; try reflexivity.
Qed.

(** *** Order of the conversions *)

(** Induction on a text line by line. *)
Lemma by_lines (P : string -> Prop) :
  (forall l, has_char nl l = false -> P l) ->
  (forall l r, has_char nl l = false -> P r -> P (l +:+ String nl r)) ->
  forall s, P s.
Proof.
  intros Hbase Hstep.
  assert (H : forall s a, has_char nl a = false -> P (a +:+ s)).
  { induction s as [|c s IH]; intros a Ha.
    - rewrite app_nil_r_s. now apply Hbase.
    - destruct (Ascii.eqb_spec nl c) as [<-|Hc].
      + apply Hstep; [assumption|]. now apply (IH EmptyString).
      + rewrite <- app_snoc_s. apply IH.
        rewrite has_char_app, Ha. cbn [has_char].
        apply Ascii.eqb_neq in Hc. now rewrite Hc. }
  intros s. now apply (H s EmptyString).
Qed.



Lemma conversions_cases (c : pattern * template) :
  In c conversions -> In c anchored_conversions \/ In c inline_conversions.
Proof.
  intros H. cbn in H. cbn.
  repeat (destruct H as [<- | H]; [tauto|]). contradiction.
Qed.

Lemma anchored_line_anchored (c : pattern * template) :
  In c anchored_conversions -> line_anchored c.
Proof.
  intros H. cbn in H.
  repeat (destruct H as [<- | H];
          [ split; [ eexists; reflexivity | reflexivity | reflexivity
                   | intros g; eexists; reflexivity | reflexivity ] |]).
  contradiction.
Qed.



Ltac each_in H tac :=
  cbn [anchored_conversions inline_conversions conversions firstn skipn app In] in H;
  repeat (destruct H as [<- | H]; [tac |]); try contradiction.



Lemma inline_marker_free (c : pattern * template) (s : string) :
  In c inline_conversions -> marker_free s -> sub (fst c) (snd c) s = s.
Proof.
  intros Hc [H1 H2].
  each_in Hc ltac:(cbn [fst snd]; now apply sub_inline_absent).
Qed.



End MarkdownFacts.

(** ** The answer-key parser *)
Module AnswerKeyFacts.
Import Paths Json Os OsOps AnswerKeyParserTool AnswerKeySpec.

(** *** [strip] *)







(** *** The line format *)







End AnswerKeyFacts.

Module AnswerKeyToolFacts.
Import Paths Json Os OsOps AnswerKeyParserTool AnswerKeyFacts AnswerKeySpec.

Lemma file_exists (f : fs) (p : path) (content : string) :
  files f !! path_str p = Some content -> path_exists f p = true.
Proof.
  intros H. unfold path_exists, is_file. rewrite H.
  rewrite bool_decide_eq_true_2 by eauto. reflexivity.
Qed.

(** On a file that is not a [.json] file the tool parses line by line and
    returns the mapping as JSON text; the world is left as it is. *)
Lemma run_lines (E : Env) (w : world) (answer_key_path content : string) :
  files (w_fs w) !! path_str (Path answer_key_path) = Some content ->
  suffix (Path answer_key_path) <> ".json" ->
  parse E (Path answer_key_path) w = (Ret (parse_lines content), w) /\
  _run E answer_key_path w = (Ret (dumps true (JDict (parse_lines content))), w).
Proof.
  intros Hf Hs. apply String.eqb_neq in Hs.
  assert (Hp : parse E (Path answer_key_path) w = (Ret (parse_lines content), w)).
  { unfold parse, read_text, bind, get_fs. cbn beta iota. rewrite Hf.
    unfold ret at 1. cbn beta iota. now rewrite Hs. }
  split; [exact Hp|].
  unfold _run, bind, get_fs, try_except. cbn beta iota.
  rewrite (file_exists _ _ _ Hf). cbn [negb].
  fold (bind (parse E (Path answer_key_path))
          (fun answers => ret (dumps true (JDict answers))) w).
  unfold bind. now rewrite Hp.
Qed.

End AnswerKeyToolFacts.

(** ** Directories *)
Module OsFacts.
Import Paths Json Os OsOps OsSpec.

Lemma keeps_ret {A : Type} (a : A) : keeps_files (ret a).
Proof. intros w. now split. Qed.

Lemma keeps_raise {A : Type} (e : exn) : keeps_files (@raise A e).
Proof. intros w. now split. Qed.

Lemma keeps_bind {A B : Type} (m : M A) (k : A -> M B) :
  keeps_files m -> (forall a, keeps_files (k a)) -> keeps_files (bind m k).
Proof.
  intros Hm Hk w. unfold bind. specialize (Hm w).
  destruct (m w) as [[a|e] w1]; cbn [snd] in *; [|exact Hm].
  destruct (Hk a w1) as [H1 H2], Hm as [H3 H4]. split; congruence.
Qed.

Lemma keeps_try {A : Type} (m : M A) (h : exn -> M A) :
  keeps_files m -> (forall e, keeps_files (h e)) -> keeps_files (try_except m h).
Proof.
  intros Hm Hh w. unfold try_except. specialize (Hm w).
  destruct (m w) as [[a|e] w1]; cbn [snd] in *; [exact Hm|].
  destruct (Hh e w1) as [H1 H2], Hm as [H3 H4]. split; congruence.
Qed.

Lemma keeps_get_fs_bind {A : Type} (k : fs -> M A) :
  (forall f, keeps_files (k f)) -> keeps_files (bind get_fs k).
Proof. intros Hk w. unfold bind, get_fs. apply Hk. Qed.

Lemma keeps_os_mkdir (p : path) : keeps_files (os_mkdir p).
Proof.
  intros w. unfold os_mkdir, bind, get_fs. cbn beta iota.
  destruct (path_exists (w_fs w) p); [now split|].
  destruct (is_dir (w_fs w) (parent p)); [now split|].
  destruct (is_file (w_fs w) (parent p)); now split.
Qed.

Lemma keeps_mkdir_p (n : nat) : forall p, keeps_files (mkdir_p n p).
Proof.
  induction n as [|n IH]; intros p; cbn [mkdir_p]; apply keeps_try;
    try apply keeps_os_mkdir; intros e; destruct (exn_cls e);
    try apply keeps_raise;
    try (apply keeps_get_fs_bind; intros f; destruct (is_dir f p);
         [apply keeps_ret | apply keeps_raise]).
  apply keeps_bind; [apply IH | intros _; apply keeps_os_mkdir].
Qed.

(** Creating directories changes no regular file and makes no call to the
    outside. *)
Lemma keeps_makedirs (name : string) : keeps_files (makedirs name).
Proof.
  unfold makedirs. destruct (String.eqb name EmptyString);
    [apply keeps_raise | apply keeps_mkdir_p].
Qed.

(** An existing directory is accepted as it is. *)
Lemma mkdir_parents_existing (p : path) (w : world) :
  is_dir (w_fs w) p = true -> mkdir_parents p w = (Ret tt, w).
Proof.
  intros H. unfold mkdir_parents.
  assert (Hos : exists e, os_mkdir p w = (Raise e, w) /\ exn_cls e = OtherError).
  { unfold os_mkdir, bind, get_fs, path_exists. cbn beta iota. rewrite H, orb_true_r.
    eexists. split; reflexivity. }
  destruct Hos as (e & Hos & He).
  destruct (List.length (parts p)); cbn [mkdir_p]; unfold try_except;
    rewrite Hos, He; unfold bind, get_fs; cbn beta iota; now rewrite H.
Qed.

End OsFacts.

(** ** The LaTeX compiler tool *)
Module LaTeXCompilerFacts.
Import Paths Json Os OsOps OsFacts LaTeXCompilerTool OsSpec LaTeXCompilerSpec.

(** When the output directory cannot be created the compiler is not
    invoked. *)
Lemma run_no_directory (E : Env) (tex_file_path output_dir : string) (w : world) e :
  fst (makedirs output_dir w) = Raise e ->
  w_log (snd (_run E tex_file_path output_dir w)) = w_log w /\
  files (w_fs (snd (_run E tex_file_path output_dir w))) = files (w_fs w).
Proof.
  intros H. destruct (keeps_makedirs output_dir w) as [Hf Hl].
  unfold _run, try_except, bind.
  destruct (makedirs output_dir w) as [[[]|e'] w1]; cbn [fst snd] in *; [discriminate|].
  destruct (exn_cls e'); cbn; now split.
Qed.

(** When the output directory is there, the compiler is invoked once, with
    the timeout of 120 seconds, and the answer depends on how the
    invocation ends. *)
Lemma run_invocation (E : Env) (tex_file_path output_dir : string) (w : world) :
  fst (makedirs output_dir w) = Ret tt ->
  let w2 := invocation_world tex_file_path output_dir w in
  _run E tex_file_path output_dir w
  = match spawn E (command_line output_dir tex_file_path) timeout w2 with
    | Completed rc stderr after =>
        (Ret (if (rc =? 0)%Z
              then "Successfully compiled LaTeX to PDF: "
                   +:+ os_join output_dir (splitext_root (basename tex_file_path) +:+ ".pdf")
              else "LaTeX compilation failed: " +:+ stderr),
         {| w_fs := after; w_log := w_log w2 |})
    | TimedOut after => (Ret timeout_message, {| w_fs := after; w_log := w_log w2 |})
    | NoExecutable => (Ret not_found_message, w2)
    | SpawnError msg after =>
        (Ret ("[LaTeX Compiler] Error: " +:+ msg), {| w_fs := after; w_log := w_log w2 |})
    end.
Proof.
  intros H w2. subst w2. unfold invocation_world, _run, try_except, bind.
  destruct (makedirs output_dir w) as [[[]|e'] w1]; cbn [fst snd] in *; [|discriminate].
  unfold subprocess_run, bind, emit. cbn beta iota.
  destruct (spawn E _ timeout _) as [rc stderr after|after| |msg after]; cbn; try reflexivity.
  destruct (rc =? 0)%Z; reflexivity.
Qed.

Lemma invocation_world_log (tex_file_path output_dir : string) (w : world) :
  w_log (invocation_world tex_file_path output_dir w)
  = w_log w ++ [Spawned (command_line output_dir tex_file_path) timeout].
Proof.
  unfold invocation_world. cbn [w_log].
  now destruct (keeps_makedirs output_dir w) as [_ ->].
Qed.

Lemma invocation_world_files (tex_file_path output_dir : string) (w : world) :
  files (w_fs (invocation_world tex_file_path output_dir w)) = files (w_fs w).
Proof.
  unfold invocation_world. cbn [w_fs].
  now destruct (keeps_makedirs output_dir w) as [-> _].
Qed.

(** Every run invokes the compiler at most once, and with the timeout of
    120 seconds. *)
Lemma run_log (E : Env) (tex_file_path output_dir : string) (w : world) :
  w_log (snd (_run E tex_file_path output_dir w)) = w_log w \/
  w_log (snd (_run E tex_file_path output_dir w))
  = w_log w ++ [Spawned (command_line output_dir tex_file_path) 120].
Proof.
  destruct (fst (makedirs output_dir w)) as [[]|e] eqn:Em.
  - right. rewrite (run_invocation E _ _ _ Em). cbv zeta.
    rewrite <- invocation_world_log.
    destruct (spawn E _ timeout _); reflexivity.
  - left. now apply (run_no_directory E tex_file_path output_dir w e).
Qed.

End LaTeXCompilerFacts.

(** ** The file writer *)
Module FileWriterFacts.
Import Paths Json Os OsOps OsFacts FileWriterTool OsSpec FileWriterSpec.

(** With [overwrite] false an existing target is reported and nothing in
    the world changes. *)
Lemma run_existing (filename content : string) (directory : option string) (w : world) :
  path_exists (w_fs w) (Path (target filename directory)) = true ->
  is_dir (w_fs w) (parent (Path (target filename directory))) = true ->
  _run filename content directory false w
  = (Ret (exists_message (target filename directory)), w).
Proof.
  intros Hex Hdir. unfold _run, try_except, bind. cbv zeta.
  rewrite (mkdir_parents_existing _ w Hdir).
  unfold get_fs. cbn beta iota. rewrite Hex. reflexivity.
Qed.

End FileWriterFacts.

(** ** The OCR tool *)
Module OCRFacts.
Import Paths Json Os OsOps OCRTool OCRSpec.

(** On a missing file the run ends before the request: the log grows by
    the creation of the client at most, and the answer is the
    file-not-found message once the library is imported and the client
    created. *)
Lemma run_missing (E : Env) (file_path : string) (w : world) :
  path_exists (w_fs w) (Path file_path) = false ->
  let r := _run E file_path w in
  w_fs (snd r) = w_fs w /\
  (w_log (snd r) = w_log w \/
   w_log (snd r) = w_log w ++ [ClientCreated (getenv E "GOOGLE_API_KEY")]) /\
  (genai_import E = None -> genai_client E (getenv E "GOOGLE_API_KEY") = None ->
   fst r = Ret (missing_message file_path)).
Proof.
  intros Hex. unfold _run, try_except, bind, import_genai, new_client, bind, emit.
  cbv zeta.
  destruct (genai_import E) as [msg|]; cbn.
  - split; [reflexivity|]. split; [now left | discriminate].
  - destruct (genai_client E (getenv E "GOOGLE_API_KEY")) as [e|]; cbn.
    + destruct (exn_cls e); cbn; (split; [reflexivity|]; split; [now right | discriminate]).
    + rewrite Hex. cbn. split; [reflexivity|]. split; [now right | reflexivity].
Qed.

Lemma requests_app (l1 l2 : list event) : requests (l1 ++ l2) = requests l1 ++ requests l2.
Proof. unfold requests. apply List.filter_app. Qed.

(** No request is sent for a missing file. *)
Lemma run_missing_no_request (E : Env) (file_path : string) (w : world) :
  path_exists (w_fs w) (Path file_path) = false ->
  requests (w_log (snd (_run E file_path w))) = requests (w_log w).
Proof.
  intros Hex. destruct (run_missing E file_path w Hex) as (_ & [-> | ->] & _);
    [reflexivity|].
  rewrite requests_app. cbn. apply app_nil_r.
Qed.

End OCRFacts.

(** ** Every tool answers with a text *)
Module TotalFacts.
Import Paths Json Os OsOps TotalSpec.








End TotalFacts.

(** ** Batch processing *)
Module BatchFacts.
Import Paths Json Os OsOps Main BatchSpec.

Lemma kickoffs_app (l1 l2 : list event) : kickoffs (l1 ++ l2) = kickoffs l1 ++ kickoffs l2.
Proof. unfold kickoffs. apply flat_map_app. Qed.

(** One chapter: the crew runs once, and the entry records how the run
    ended; an exception of the run does not leave the loop body. *)
Lemma process_chapter_spec (E : Env) (cfg fields : dict) (total idx : nat) (w : world) :
  exists k w',
    process_chapter E (JDict cfg) total idx (JDict fields) w
    = (Ret (result_of (JDict fields) (snd k)), w') /\
    kickoffs (w_log w') = kickoffs (w_log w) ++ [k] /\
    run_of cfg (JDict fields) k.
Proof.
  unfold process_chapter, bind, print, emit, json_get, unpack, ret, try_except,
    crew_kickoff, print_error, print, emit, bind.
  cbn beta iota delta [w_log w_fs].
  match goal with
  | |- context [kickoff E ?i ?w0] =>
      destruct (kickoff E i w0) as [[x|e] after] eqn:Ek; exists (i, Ret x) || exists (i, Raise e)
  end; cbn beta iota delta [w_log w_fs fst snd];
    eexists; (split; [reflexivity|]); cbn [w_log];
    (split; [ rewrite !kickoffs_app; cbn; now rewrite !app_nil_r
            | eexists fields, _; split; reflexivity ]).
Qed.







End BatchFacts.

(* ================================================================= *)
(** * The claims of the specification *)
(* ================================================================= *)

Import Re Json Paths Os OsOps.

(** ** C1: order of the Markdown substitutions *)




(** ** C8: the structural mapping *)

(** C8, counterexample.  The mapping does not hold for every text [T]:
    markers inside [T] are converted as well, and an empty [T] makes no
    heading. *)
Lemma markdown_structural_mapping_counterexample :
  MarkdownToLaTeXTool._run ("# " +:+ "a*b*c") = "\chapter{a\textit{b}c}" /\
  MarkdownToLaTeXTool._run ("# " +:+ "a*b*c") <> "\chapter{" +:+ "a*b*c" +:+ "}" /\
  MarkdownToLaTeXTool._run ("# " +:+ "") = "# " /\
  MarkdownToLaTeXTool._run ("# " +:+ "") <> "\chapter{" +:+ "" +:+ "}".
Proof. repeat split; try reflexivity; discriminate. Qed.

(** C8, as amended.  For every non-empty text [T] without newline and
    without the markers [*] and [`], on a line of its own in any document:
    [# T], [## T], [### T] and [#### T] become [\chapter{T}],
    [\section{T}], [\subsection{T}] and [\subsubsection{T}]; [**T**],
    [*T*] and [`T`] become [\textbf{T}], [\textit{T}] and [\texttt{T}];
    [- T] and [n. T] for a number [n] become [\item T].  The rest of the
    document is converted on its own. *)
Theorem markdown_structural_mapping
    (before after : option string) (T : string) :
  MarkdownSpec.plain T = true ->
  let converts line result :=
    MarkdownToLaTeXTool._run (MarkdownSpec.own_line before line after)
    = MarkdownSpec.own_line (option_map MarkdownToLaTeXTool._run before) result
        (option_map MarkdownToLaTeXTool._run after) in
  converts ("# " +:+ T) ("\chapter{" +:+ T +:+ "}") /\
  converts ("## " +:+ T) ("\section{" +:+ T +:+ "}") /\
  converts ("### " +:+ T) ("\subsection{" +:+ T +:+ "}") /\
  converts ("#### " +:+ T) ("\subsubsection{" +:+ T +:+ "}") /\
  converts ("**" +:+ T +:+ "**") ("\textbf{" +:+ T +:+ "}") /\
  converts ("*" +:+ T +:+ "*") ("\textit{" +:+ T +:+ "}") /\
  converts ("`" +:+ T +:+ "`") ("\texttt{" +:+ T +:+ "}") /\
  converts ("- " +:+ T) ("\item " +:+ T) /\
  (forall n, MarkdownSpec.number n = true ->
     converts (n +:+ ". " +:+ T) ("\item " +:+ T)).
Proof.
  intros HT converts. subst converts. cbv beta.
  repeat split; try intros n Hn; rewrite MarkdownFacts.run_own_line; f_equal.
  - now apply MarkdownFacts.run_chapter.
  - now apply MarkdownFacts.run_section.
  - now apply MarkdownFacts.run_subsection.
  - now apply MarkdownFacts.run_subsubsection.
  - now apply MarkdownFacts.run_bold.
  - now apply MarkdownFacts.run_italic.
  - now apply MarkdownFacts.run_code.
  - now apply MarkdownFacts.run_dash_item.
  - now apply MarkdownFacts.run_numbered_item.
Qed.

Lemma markdown_structural_mapping_witness :
  MarkdownToLaTeXTool._run
    (MarkdownSpec.own_line (Some "Intro") ("## " +:+ "Limits") (Some "- first"))
  = MarkdownSpec.own_line (Some "Intro") ("\section{" +:+ "Limits" +:+ "}")
      (Some "\item first").
Proof.
  exact (proj1 (proj2 (markdown_structural_mapping
                         (Some "Intro") (Some "- first") "Limits" eq_refl))).
Defined.

(** ** C2 and C3: the answer key *)




(** C3.  An answer key that is not a [.json] file and holds the three
    lines [1. A], [2,B], [3:C] gives the mapping of [1], [2], [3] to [A],
    [B], [C], returned as JSON text. *)
Theorem answer_key_example (E : Env) (w : world) (answer_key_path : string) :
  files (w_fs w) !! path_str (Path answer_key_path)
  = Some ("1. A" +:+ String nl "2,B" +:+ String nl "3:C") ->
  suffix (Path answer_key_path) <> ".json" ->
  AnswerKeyParserTool.parse E (Path answer_key_path) w
  = (Ret [("1", JStr "A"); ("2", JStr "B"); ("3", JStr "C")], w) /\
  AnswerKeyParserTool._run E answer_key_path w
  = (Ret (dumps true (JDict [("1", JStr "A"); ("2", JStr "B"); ("3", JStr "C")])), w).
Proof.
  intros Hf Hs. exact (AnswerKeyToolFacts.run_lines E w answer_key_path _ Hf Hs).
Qed.

Lemma answer_key_example_witness :
  AnswerKeyParserTool.parse Examples.env (Path "keys/ch1.txt") Examples.sample_world
  = (Ret [("1", JStr "A"); ("2", JStr "B"); ("3", JStr "C")], Examples.sample_world) /\
  AnswerKeyParserTool._run Examples.env "keys/ch1.txt" Examples.sample_world
  = (Ret (dumps true (JDict [("1", JStr "A"); ("2", JStr "B"); ("3", JStr "C")])),
     Examples.sample_world).
Proof.
  apply (answer_key_example Examples.env Examples.sample_world "keys/ch1.txt").
  - vm_compute. reflexivity.
  - vm_compute. discriminate.
Defined.

(** ** C5: the OCR tool on a missing file *)




(** ** C6 and C7: the LaTeX compiler tool *)

(** C6.  When the compiler executable is missing, that is when the
    invocation raises [FileNotFoundError], the tool returns the
    compiler-not-found message and the regular files are the ones there
    were before: no output file is created. *)
Theorem compiler_missing_no_output
    (E : Env) (tex_file_path output_dir : string) (w : world) :
  fst (makedirs output_dir w) = Ret tt ->
  spawn E (LaTeXCompilerTool.command_line output_dir tex_file_path) 120
    (LaTeXCompilerSpec.invocation_world tex_file_path output_dir w)
  = NoExecutable ->
  fst (LaTeXCompilerTool._run E tex_file_path output_dir w)
  = Ret "[LaTeX Compiler] pdflatex not found. Please install a LaTeX distribution." /\
  files (w_fs (snd (LaTeXCompilerTool._run E tex_file_path output_dir w)))
  = files (w_fs w).
Proof.
  intros Hm Hs.
  rewrite (LaTeXCompilerFacts.run_invocation E _ _ _ Hm). cbv zeta.
  change LaTeXCompilerTool.timeout with 120. rewrite Hs. cbn [fst snd].
  split; [reflexivity | apply LaTeXCompilerFacts.invocation_world_files].
Qed.

Lemma compiler_missing_no_output_witness :
  fst (LaTeXCompilerTool._run Examples.env "output/book/main.tex" "output/book"
         Examples.sample_world)
  = Ret "[LaTeX Compiler] pdflatex not found. Please install a LaTeX distribution." /\
  files (w_fs (snd (LaTeXCompilerTool._run Examples.env "output/book/main.tex"
                      "output/book" Examples.sample_world)))
  = files (w_fs Examples.sample_world).
Proof.
  apply compiler_missing_no_output; vm_compute; reflexivity.
Defined.

(** C7.  The compiler is invoked with a timeout of 120 seconds; when the
    invocation times out the tool returns the timeout message, and the
    log of the run holds that one invocation only: it is not tried
    again. *)
Theorem compiler_timeout
    (E : Env) (tex_file_path output_dir : string) (w : world) (after : fs) :
  fst (makedirs output_dir w) = Ret tt ->
  spawn E (LaTeXCompilerTool.command_line output_dir tex_file_path) 120
    (LaTeXCompilerSpec.invocation_world tex_file_path output_dir w)
  = TimedOut after ->
  fst (LaTeXCompilerTool._run E tex_file_path output_dir w)
  = Ret "[LaTeX Compiler] Compilation timed out after 120 seconds." /\
  w_log (snd (LaTeXCompilerTool._run E tex_file_path output_dir w))
  = w_log w ++ [Spawned (LaTeXCompilerTool.command_line output_dir tex_file_path) 120].
Proof.
  intros Hm Hs.
  rewrite (LaTeXCompilerFacts.run_invocation E _ _ _ Hm). cbv zeta.
  change LaTeXCompilerTool.timeout with 120. rewrite Hs. cbn [fst snd w_log].
  split; [reflexivity | apply LaTeXCompilerFacts.invocation_world_log].
Qed.

Lemma compiler_timeout_witness :
  fst (LaTeXCompilerTool._run Examples.env_hanging "output/book/main.tex" "output/book"
         Examples.sample_world)
  = Ret "[LaTeX Compiler] Compilation timed out after 120 seconds." /\
  w_log (snd (LaTeXCompilerTool._run Examples.env_hanging "output/book/main.tex"
                "output/book" Examples.sample_world))
  = w_log Examples.sample_world
    ++ [Spawned (LaTeXCompilerTool.command_line "output/book" "output/book/main.tex") 120].
Proof.
  apply (compiler_timeout Examples.env_hanging "output/book/main.tex" "output/book"
           Examples.sample_world
           (w_fs (LaTeXCompilerSpec.invocation_world "output/book/main.tex"
                    "output/book" Examples.sample_world)));
    vm_compute; reflexivity.
Defined.

(** ** C9: the file writer on an existing file *)

(** C9.  When the target exists (in a directory) and [overwrite] is
    false, [FileWriterTool._run] returns the file-already-exists message
    and the world, and with it the content of the file, is as before. *)
Theorem file_writer_keeps_existing
    (filename content : string) (directory : option string) (w : world) :
  path_exists (w_fs w) (Path (FileWriterTool.target filename directory)) = true ->
  is_dir (w_fs w) (parent (Path (FileWriterTool.target filename directory))) = true ->
  FileWriterTool._run filename content directory false w
  = (Ret ("File already exists at " +:+ FileWriterTool.target filename directory
          +:+ ". Set overwrite=true to replace it."),
     w).
Proof. apply FileWriterFacts.run_existing. Qed.

Lemma file_writer_keeps_existing_witness :
  FileWriterTool._run "ch1.txt" "4. D" (Some "keys") false Examples.sample_world
  = (Ret ("File already exists at " +:+ "keys/ch1.txt"
          +:+ ". Set overwrite=true to replace it."),
     Examples.sample_world).
Proof.
  apply (file_writer_keeps_existing "ch1.txt" "4. D" (Some "keys") Examples.sample_world);
    vm_compute; reflexivity.
Defined.

(** ** C10: every tool returns a text *)


(** ** C4: a failing job in a batch *)



(* ================================================================= *)
(** * Further properties of the code *)
(* ================================================================= *)

(** ** The Markdown converter, line by line *)
Module MarkdownMore.
Import Re ReSpec ReFacts MarkdownToLaTeXTool MarkdownSpec MarkdownFacts MoreSpec.

Lemma run_empty : _run EmptyString = EmptyString.
Proof. reflexivity. Qed.

(** The conversion of the lines joined by newlines. *)
Lemma run_join (lines : list string) :
  _run (Py.join newline lines) = Py.join newline (map _run lines).
Proof.
  induction lines as [|l [|l' lines] IH]; [reflexivity | reflexivity |].
  change (Py.join newline (l :: l' :: lines))
    with (l +:+ newline +:+ Py.join newline (l' :: lines)).
  change (Py.join newline (map _run (l :: l' :: lines)))
    with (_run l +:+ newline +:+ Py.join newline (map _run (l' :: lines))).
  unfold newline at 1 3. cbn [String.append].
  now rewrite run_newline, IH.
Qed.



(** One conversion on a line without markers: the line is kept, or the
    result starts with a backslash; no marker appears. *)
Lemma line_step (c : pattern * template) (l : string) :
  In c conversions -> unmarked l = true ->
  unmarked (sub (fst c) (snd c) l) = true
  /\ (sub (fst c) (snd c) l = l \/ exists o, sub (fst c) (snd c) l = String "\" o).
Proof.
  intros Hc HU. destruct (unmarked_inv _ HU) as (Hnl & Hst & Hbt).
  assert (Ht : forall ch, ch = nl \/ ch = "*"%char \/ ch = "`"%char ->
                 template_lacks ch (snd c) = true).
  { intros ch Hch. revert c Hc. apply forallb_forall.
    destruct Hch as [-> | [-> | ->]]; reflexivity. }
  split.
  - unfold unmarked. rewrite !sub_lacks; auto.
  - destruct (conversions_cases _ Hc) as [Ha | Hi].
    + destruct (anchored_line_anchored _ Ha) as [[q Hq] _ _ Ho _].
      rewrite Hq, sub_bol_line by assumption.
      destruct (mt (Bol :: q) None l) as [[g r]|]; [right | now left].
      destruct (Ho g) as [o ->]. now exists (o +:+ r).
    + left. now apply inline_marker_free.
Qed.

Lemma apply_all_line (cs : list (pattern * template)) :
  (forall c, In c cs -> In c conversions) ->
  forall l, unmarked l = true ->
    apply_all cs l = l
    \/ exists o, apply_all cs l = String "\" o /\ unmarked (String "\" o) = true.
Proof.
  induction cs as [|c cs IH]; intros Hcs l HU; [now left|].
  rewrite apply_all_cons.
  destruct (line_step c l) as [HU' [E | [o E]]]; [apply Hcs; now left | assumption | |].
  - rewrite E. apply IH; [|assumption]. intros c' Hc'. apply Hcs. now right.
  - right. exists o. rewrite E in *. split; [|assumption].
    apply apply_all_id. intros c' Hc'. apply settled; [assumption|].
    apply Hcs. now right.
Qed.

Lemma run_line_twice (l : string) : unmarked l = true -> _run (_run l) = _run l.
Proof.
  intros HU. destruct (apply_all_line conversions (fun c H => H) l HU) as [E | [o [E HU']]];
    unfold _run in *; rewrite E.
  - exact E.
  - apply apply_all_id. intros c Hc. now apply settled.
Qed.

(** The conversion of a line is a line. *)
Lemma run_line_is_line (l : string) : has_char nl l = false -> has_char nl (_run l) = false.
Proof.
  intros H. unfold _run.
  assert (Hall : forall cs, (forall c, In c cs -> In c conversions) ->
                   forall x, has_char nl x = false -> has_char nl (apply_all cs x) = false).
  { induction cs as [|c cs IH]; intros Hcs x Hx; [exact Hx|].
    rewrite apply_all_cons. apply IH; [intros c' Hc'; apply Hcs; now right|].
    apply sub_lacks; [|exact Hx].
    assert (Hc : In c conversions) by (apply Hcs; now left).
    clear - Hc. revert c Hc. apply forallb_forall. reflexivity. }
  now apply Hall.
Qed.

Lemma split_line (l r : string) : has_char nl l = false ->
  Py.split nl (l +:+ String nl r) = l :: Py.split nl r.
Proof.
  induction l as [|c l IH]; cbn [String.append Py.split has_char].
  - now rewrite Ascii.eqb_refl.
  - intros H. apply orb_false_elim in H as [Hc Hl].
    rewrite Ascii.eqb_sym in Hc. now rewrite Hc, IH.
Qed.

Lemma split_single (l : string) : has_char nl l = false -> Py.split nl l = [l].
Proof.
  induction l as [|c l IH]; [reflexivity|]. cbn [has_char Py.split].
  intros H. apply orb_false_elim in H as [Hc Hl].
  rewrite Ascii.eqb_sym in Hc. now rewrite Hc, IH.
Qed.

(** The lines of the result are the results of the lines. *)
Lemma run_split (s : string) : Py.split nl (_run s) = map _run (Py.split nl s).
Proof.
  revert s. apply by_lines.
  - intros l Hl. rewrite (split_single l Hl). cbn [map].
    apply split_single. now apply run_line_is_line.
  - intros l r Hl IH. rewrite run_newline, (split_line l r Hl). cbn [map].
    rewrite split_line by now apply run_line_is_line. now rewrite IH.
Qed.

End MarkdownMore.

(** ** Names of files *)
Module PathFacts.
Import Paths.

Lemma split_no_sep (sep : ascii) (n : string) :
  has_char sep n = false -> Py.split sep n = [n].
Proof.
  induction n as [|c n IH]; [reflexivity|]. cbn [has_char Py.split].
  intros H. apply orb_false_elim in H as [Hc Hn].
  rewrite Ascii.eqb_sym in Hc. now rewrite Hc, IH.
Qed.

Lemma split_app_sep (sep : ascii) (n : string) : has_char sep n = false ->
  forall a, exists x pre, Py.split sep (a +:+ String sep n) = x :: pre ++ [n].
Proof.
  intros Hn. induction a as [|c a (x & pre & IH)]; cbn [String.append Py.split].
  - rewrite Ascii.eqb_refl, (split_no_sep _ _ Hn). now exists EmptyString, [].
  - rewrite IH. destruct (Ascii.eqb c sep).
    + now exists EmptyString, (x :: pre).
    + now exists (String c x), pre.
Qed.

Lemma last_snoc {A : Type} (x : A) (pre : list A) (n d : A) :
  List.last (x :: pre ++ [n]) d = n.
Proof.
  change (x :: pre ++ [n]) with ((x :: pre) ++ [n]). apply List.last_last.
Qed.

(** [os.path.basename]: what follows the last slash. *)
Lemma basename_plain (n : string) : has_char "/" n = false -> basename n = n.
Proof. intros H. unfold basename. now rewrite split_no_sep. Qed.

Lemma basename_in_directory (d n : string) : has_char "/" n = false ->
  basename (d +:+ String "/" n) = n.
Proof.
  intros H. unfold basename.
  destruct (split_app_sep "/" n H d) as (x & pre & ->). apply last_snoc.
Qed.

Lemma lstrip_dots_cons (c : ascii) (s : string) : c <> "."%char ->
  lstrip_dots (String c s) = (EmptyString, String c s).
Proof.
  intros H. destruct c as [[] [] [] [] [] [] [] []]; try reflexivity.
  now contradiction H.
Qed.

Lemma rfind_dot_none (e : string) : has_char "." e = false -> rfind_dot e = None.
Proof.
  induction e as [|c e IH]; [reflexivity|]. cbn [has_char rfind_dot].
  intros H. apply orb_false_elim in H as [Hc He].
  rewrite Ascii.eqb_sym in Hc. now rewrite IH, Hc.
Qed.

Lemma rfind_dot_ext (n e : string) : has_char "." e = false ->
  rfind_dot (n +:+ String "." e) = Some (String.length n).
Proof.
  intros He. induction n as [|c n IH]; cbn [String.append rfind_dot String.length].
  - now rewrite (rfind_dot_none _ He).
  - now rewrite IH.
Qed.

Lemma substring_prefix (n r : string) :
  String.substring 0 (String.length n) (n +:+ r) = n.
Proof.
  induction n as [|c n IH]; cbn [String.append String.length String.substring].
  - now destruct r.
  - now rewrite IH.
Qed.

(** [os.path.splitext]: the extension goes, the name stays. *)
Lemma splitext_root_ext (c : ascii) (n e : string) :
  c <> "."%char -> has_char "." e = false ->
  splitext_root (String c n +:+ String "." e) = String c n.
Proof.
  intros Hc He. unfold splitext_root. cbn [String.append].
  rewrite (lstrip_dots_cons c _ Hc).
  change (String c (n +:+ String "." e)) with (String c n +:+ String "." e).
  now rewrite (rfind_dot_ext _ _ He), substring_prefix.
Qed.

Lemma splitext_root_none (c : ascii) (n : string) :
  c <> "."%char -> has_char "." n = false -> splitext_root (String c n) = String c n.
Proof.
  intros Hc Hn. unfold splitext_root. rewrite (lstrip_dots_cons c _ Hc).
  rewrite rfind_dot_none; [reflexivity|].
  cbn [has_char]. apply Ascii.eqb_neq in Hc. rewrite Ascii.eqb_sym in Hc.
  now rewrite Hc.
Qed.

End PathFacts.

(** ** The LaTeX compiler, further *)
Module LaTeXCompilerMore.
Import Paths Json Os OsOps OsFacts LaTeXCompilerTool OsSpec LaTeXCompilerSpec.

(** The answer when the output directory cannot be created. *)
Lemma run_no_directory_answer (E : Env) (tex_file_path output_dir : string)
    (w : world) (e : exn) :
  fst (makedirs output_dir w) = Raise e ->
  fst (_run E tex_file_path output_dir w)
  = Ret (match exn_cls e with
         | FileNotFoundError => not_found_message
         | TimeoutExpired => timeout_message
         | _ => "[LaTeX Compiler] Error: " +:+ exn_msg e
         end).
Proof.
  intros H. unfold _run, try_except, bind.
  destruct (makedirs output_dir w) as [[[]|e'] w1]; cbn [fst snd] in *; [discriminate|].
  injection H as ->. now destruct (exn_cls e).
Qed.

Lemma makedirs_empty (w : world) :
  exists e, makedirs EmptyString w = (Raise e, w) /\ exn_cls e = FileNotFoundError.
Proof. eexists. split; reflexivity. Qed.

End LaTeXCompilerMore.

(** ** The file tools, further *)
Module FileToolsMore.
Import Paths Json Os OsOps OsSpec OsFacts AnswerKeyToolFacts.

Lemma read_text_world (p : path) (w : world) : snd (read_text p w) = w.
Proof.
  unfold read_text, bind, get_fs. cbn beta iota.
  destruct (files (w_fs w) !! path_str p); [reflexivity|].
  now destruct (is_dir (w_fs w) p).
Qed.

Lemma read_text_file (p : path) (w : world) (content : string) :
  files (w_fs w) !! path_str p = Some content -> read_text p w = (Ret content, w).
Proof. intros H. unfold read_text, bind, get_fs. cbn beta iota. now rewrite H. Qed.

(** The reader changes nothing. *)
Lemma reader_world (E : Env) (file_path : string) (w : world) :
  snd (FileReaderTool._run E file_path w) = w.
Proof.
  unfold FileReaderTool._run, bind, get_fs, try_except. cbn beta iota zeta.
  destruct (path_exists (w_fs w) (Path file_path)); [|reflexivity]. cbn [negb].
  pose proof (read_text_world (Path file_path) w) as Hr.
  destruct (read_text (Path file_path) w) as [[content|e] w1]; cbn [snd] in Hr; subst w1;
    [|reflexivity].
  destruct (String.eqb (suffix (Path file_path)) ".json"); [|reflexivity].
  unfold lift. now destruct (json_loads E content).
Qed.

(** The parser of answer keys changes nothing. *)
Lemma parser_world (E : Env) (answer_key_path : string) (w : world) :
  snd (AnswerKeyParserTool._run E answer_key_path w) = w.
Proof.
  unfold AnswerKeyParserTool._run, AnswerKeyParserTool.parse, bind, get_fs, try_except.
  cbn beta iota zeta.
  destruct (path_exists (w_fs w) (Path answer_key_path)); [|reflexivity]. cbn [negb].
  pose proof (read_text_world (Path answer_key_path) w) as Hr.
  destruct (read_text (Path answer_key_path) w) as [[content|e] w1]; cbn [snd] in Hr;
    subst w1; [|reflexivity].
  destruct (String.eqb (suffix (Path answer_key_path)) ".json"); [|reflexivity].
  unfold lift. now destruct (json_loads E content).
Qed.

(** The reader on a regular file. *)
Lemma reader_file (E : Env) (file_path content : string) (w : world) :
  files (w_fs w) !! path_str (Path file_path) = Some content ->
  FileReaderTool._run E file_path w
  = (Ret (if String.eqb (suffix (Path file_path)) ".json"
          then match json_loads E content with
               | Ret data => dumps false data
               | Raise e => "Error reading file: " +:+ exn_msg e
               end
          else content), w).
Proof.
  intros Hf. unfold FileReaderTool._run, bind, get_fs, try_except. cbn beta iota zeta.
  rewrite (file_exists _ _ _ Hf). cbn [negb].
  rewrite (read_text_file _ _ _ Hf).
  destruct (String.eqb (suffix (Path file_path)) ".json"); [|reflexivity].
  unfold lift. now destruct (json_loads E content).
Qed.

(** *** Creating directories *)

Lemma is_dir_added (f : fs) (p : path) :
  is_dir {| files := files f; dirs := {[ path_str p ]} ∪ dirs f |} p = true.
Proof.
  unfold is_dir. destruct (parts p); [reflexivity|]. cbn [dirs].
  apply bool_decide_eq_true_2. set_solver.
Qed.

Lemma os_mkdir_post (p : path) (w : world) :
  fst (os_mkdir p w) = Ret tt -> is_dir (w_fs (snd (os_mkdir p w))) p = true.
Proof.
  unfold os_mkdir, bind, get_fs. cbn beta iota.
  destruct (path_exists (w_fs w) p); [discriminate|].
  destruct (is_dir (w_fs w) (parent p)).
  - intros _. apply is_dir_added.
  - destruct (is_file (w_fs w) (parent p)); discriminate.
Qed.

(** After [mkdir(parents=True, exist_ok=True)] has returned, the directory
    is there. *)
Lemma mkdir_p_post (n : nat) : forall (p : path) (w : world),
  fst (mkdir_p n p w) = Ret tt -> is_dir (w_fs (snd (mkdir_p n p w))) p = true.
Proof.
  induction n as [|n IH]; intros p w; cbn [mkdir_p]; unfold try_except;
    pose proof (os_mkdir_post p w) as Hos;
    destruct (os_mkdir p w) as [[[]|e] w1]; cbn [fst snd] in *; auto;
    destruct (exn_cls e);
    try (unfold bind, get_fs; cbn beta iota;
         destruct (is_dir (w_fs w1) p) eqn:Ed; [intros _; exact Ed | discriminate]);
    try discriminate.
  unfold bind. clear Hos.
  destruct (mkdir_p n (parent p) w1) as [[[]|e'] w2]; [|discriminate].
  apply os_mkdir_post.
Qed.



End FileToolsMore.

(** ** Mappings in insertion order *)
Module DictFacts.
Import Json.

Lemma dict_get_set_eq (d : dict) (k : string) (v : json) :
  dict_get (dict_set d k v) k = Some v.
Proof.
  induction d as [|[k' v'] d IH]; cbn [dict_set dict_get].
  - now rewrite String.eqb_refl.
  - destruct (String.eqb k k') eqn:E; cbn [dict_get].
    + now rewrite String.eqb_refl.
    + now rewrite E.
Qed.

Lemma dict_get_set_ne (d : dict) (k k' : string) (v : json) :
  k' <> k -> dict_get (dict_set d k v) k' = dict_get d k'.
Proof.
  intros Hne. induction d as [|[k0 v0] d IH]; cbn [dict_set dict_get].
  - apply String.eqb_neq in Hne. now rewrite Hne.
  - destruct (String.eqb k k0) eqn:E; cbn [dict_get].
    + apply String.eqb_eq in E. subst k0.
      apply String.eqb_neq in Hne. now rewrite Hne.
    + now rewrite IH.
Qed.

Lemma dict_get_set (d : dict) (k k' : string) (v : json) :
  dict_get (dict_set d k v) k' = if String.eqb k' k then Some v else dict_get d k'.
Proof.
  destruct (String.eqb_spec k' k) as [-> | Hne];
    [apply dict_get_set_eq | now apply dict_get_set_ne].
Qed.

Lemma in_keys_set (d : dict) (k : string) (v : json) (x : string) :
  In x (map fst (dict_set d k v)) -> x = k \/ In x (map fst d).
Proof.
  induction d as [|[k' v'] d IH]; cbn [dict_set map fst In].
  - intros [<- | []]. now left.
  - destruct (String.eqb_spec k k') as [-> | Hne]; cbn [map fst In].
    + tauto.
    + intros [<- | H]; [tauto|]. destruct (IH H); tauto.
Qed.

(** An assignment keeps the keys distinct. *)
Lemma dict_set_nodup (d : dict) (k : string) (v : json) :
  List.NoDup (map fst d) -> List.NoDup (map fst (dict_set d k v)).
Proof.
  induction d as [|[k' v'] d IH]; cbn [dict_set map fst]; intros H.
  - apply List.NoDup_cons; [intros [] | apply List.NoDup_nil].
  - apply List.NoDup_cons_iff in H as [Hk' Hd].
    destruct (String.eqb_spec k k') as [-> | Hne]; cbn [map fst].
    + now apply List.NoDup_cons.
    + apply List.NoDup_cons; [|now apply IH].
      intros Hin. apply in_keys_set in Hin as [-> | Hin]; [now apply Hne | now apply Hk'].
Qed.


End DictFacts.

(** ** The lines of an answer key, further *)
Module AnswerKeyMore.
Import Json AnswerKeyParserTool AnswerKeySpec AnswerKeyFacts AnswerKeyMoreSpec DictFacts.

Lemma parse_line_entry (answers : dict) (line : string) :
  parse_line answers line
  = match line_entry line with
    | Some (q, a) => dict_set answers q (JStr a)
    | None => answers
    end.
Proof.
  unfold parse_line, line_entry.
  destruct (String.eqb (Py.strip line) EmptyString); [reflexivity|].
  now destruct (try_separators separators (Py.strip line)) as [[q a]|].
Qed.

Lemma parse_line_nodup (answers : dict) (line : string) :
  List.NoDup (map fst answers) -> List.NoDup (map fst (parse_line answers line)).
Proof.
  intros H. rewrite parse_line_entry.
  destruct (line_entry line) as [[q a]|]; [now apply dict_set_nodup | assumption].
Qed.

Lemma fold_parse_nodup (lines : list string) : forall answers,
  List.NoDup (map fst answers) -> List.NoDup (map fst (fold_left parse_line lines answers)).
Proof.
  induction lines as [|l lines IH]; intros answers H; [assumption|].
  cbn [fold_left]. now apply IH, parse_line_nodup.
Qed.

Lemma fold_parse_get (lines : list string) (q : string) : forall answers,
  dict_get (fold_left parse_line lines answers) q
  = match last_answer lines q with
    | Some a => Some (JStr a)
    | None => dict_get answers q
    end.
Proof.
  induction lines as [|l lines IH]; intros answers; [reflexivity|].
  cbn [fold_left last_answer]. rewrite IH.
  destruct (last_answer lines q); [reflexivity|].
  rewrite parse_line_entry. destruct (line_entry l) as [[q' a]|]; [|reflexivity].
  rewrite dict_get_set. now destruct (String.eqb q q').
Qed.

(** *** The accepted formats *)










End AnswerKeyMore.

(** ** The recognition tool, further *)
Module OCRMore.
Import Paths Json Os OsOps OCRTool OCRSpec OCRFacts OCRMoreSpec FileToolsMore
  AnswerKeyToolFacts.

(** With the library and the client in place, a regular file is sent to
    the service once, and the answer of the service is the answer of the
    tool. *)
Lemma run_file (E : Env) (file_path data : string) (w : world) :
  genai_import E = None -> genai_client E (getenv E "GOOGLE_API_KEY") = None ->
  files (w_fs w) !! path_str (Path file_path) = Some data ->
  let w2 := request_world E file_path data w in
  _run E file_path w
  = (Ret (match generate_content E "gemini-2.0-flash" data
                  (mime_type_of (Py.lower (suffix (Path file_path)))) prompt w2 with
          | Ret text => text
          | Raise e => error_answer e
          end), w2).
Proof.
  intros Hi Hc Hf w2. subst w2.
  unfold _run, try_except, bind, import_genai, new_client, bind, emit, ret. cbv zeta.
  rewrite Hi. cbn beta iota. rewrite Hc. cbn beta iota.
  unfold get_fs. cbn beta iota. cbn [w_fs w_log].
  rewrite (file_exists _ _ _ Hf). cbn [negb].
  unfold read_text, bind, get_fs, ret. cbn beta iota. cbn [w_fs]. rewrite Hf.
  cbn beta iota. unfold request_content, bind, emit. cbn beta iota. cbn [w_fs w_log].
  unfold request_world, request_for, error_answer.
  destruct (generate_content E _ _ _ _ _) as [text|e]; [reflexivity|].
  now destruct (exn_cls e).
Qed.

(** Every run leaves the file system alone and sends at most one request. *)
Lemma run_shape (E : Env) (file_path : string) (w : world) :
  let r := _run E file_path w in
  w_fs (snd r) = w_fs w /\
  (requests (w_log (snd r)) = requests (w_log w) \/
   exists data, files (w_fs w) !! path_str (Path file_path) = Some data /\
                requests (w_log (snd r)) = requests (w_log w) ++ [request_for file_path data]).
Proof.
  cbv zeta.
  destruct (path_exists (w_fs w) (Path file_path)) eqn:Hex.
  - unfold _run, try_except, bind, import_genai, new_client, bind, emit, ret, raise.
    cbv zeta.
    destruct (genai_import E) as [msg|]; cbn beta iota;
      [cbn [snd]; split; [reflexivity| now left]|].
    destruct (genai_client E (getenv E "GOOGLE_API_KEY")) as [e|]; cbn beta iota.
    { destruct (exn_cls e); cbn [snd w_fs w_log]; (split; [reflexivity|]); left;
        rewrite requests_app; apply app_nil_r. }
    unfold get_fs. cbn beta iota. cbn [w_fs w_log]. rewrite Hex. cbn [negb].
    unfold read_text, bind, get_fs, ret, raise. cbn beta iota. cbn [w_fs].
    destruct (files (w_fs w) !! path_str (Path file_path)) as [data|] eqn:Hf.
    + cbn beta iota. unfold request_content, bind, emit. cbn beta iota. cbn [w_fs w_log].
      assert (Hr : requests ((w_log w ++ [ClientCreated (getenv E "GOOGLE_API_KEY")])
                             ++ [request_for file_path data])
                   = requests (w_log w) ++ [request_for file_path data])
        by (rewrite !requests_app; cbn; now rewrite app_nil_r).
      destruct (generate_content E _ _ _ _ _) as [text|e]; cbn [snd w_fs w_log].
      * split; [reflexivity|]. right. now exists data.
      * destruct (exn_cls e); cbn [snd w_fs w_log]; (split; [reflexivity|]); right;
          now exists data.
    + destruct (is_dir (w_fs w) (Path file_path)); unfold os_error;
        cbn [exn_cls snd w_fs w_log];
        (split; [reflexivity|]); left; rewrite requests_app; apply app_nil_r.
  - destruct (run_missing E file_path w Hex) as (H1 & _ & _).
    split; [exact H1 | left; now apply run_missing_no_request].
Qed.

End OCRMore.

(** ** The batch, further *)
Module BatchMore.
Import Paths Json Os OsOps Main BatchSpec BatchFacts DictFacts.



(** A chapter that is no object ends the loop body with an exception
    before the crew is run. *)
Lemma process_chapter_not_dict (E : Env) (config : json) (total idx : nat)
    (chapter : json) (w : world) :
  is_dict chapter = false ->
  exists e w',
    process_chapter E config total idx chapter w = (Raise e, w') /\
    kickoffs (w_log w') = kickoffs (w_log w) /\ w_fs w' = w_fs w.
Proof.
  intros H. unfold process_chapter, bind, print, emit, json_get, raise.
  destruct chapter; try discriminate; cbn beta iota; eexists; eexists;
    (split; [reflexivity|]); cbn [w_log w_fs]; (split; [|reflexivity]);
    rewrite kickoffs_app; cbn [kickoffs flat_map app]; apply app_nil_r.
Qed.

(** The loop stops at the first chapter that is no object: the chapters
    before it have been run, the chapters after it are not. *)
Lemma process_chapters_abort (E : Env) (cfg : dict) (total : nat) (bad : json)
    (post : list json) :
  is_dict bad = false ->
  forall (pre : list json) (idx : nat) (acc : list job_result) (w : world),
    forallb is_dict pre = true ->
    exists e ks w',
      process_chapters E (JDict cfg) total idx (pre ++ bad :: post) acc w = (Raise e, w') /\
      kickoffs (w_log w') = kickoffs (w_log w) ++ ks /\
      Forall2 (run_of cfg) pre ks.
Proof.
  intros Hbad. induction pre as [|c cs IH]; intros idx acc w Hd.
  - destruct (process_chapter_not_dict E (JDict cfg) total idx bad w Hbad)
      as (e & w' & Hp & Hk & _).
    exists e, [], w'. cbn [app process_chapters]. unfold bind. rewrite Hp.
    split; [reflexivity|]. split; [now rewrite app_nil_r | constructor].
  - cbn [forallb] in Hd. apply andb_prop in Hd as [Hc Hcs].
    destruct c as [| | | |?|fields]; try discriminate.
    destruct (process_chapter_spec E cfg fields total idx w) as (k & w1 & Hp & Hk & Hr).
    destruct (IH (S idx) (acc ++ [result_of (JDict fields) (snd k)]) w1 Hcs)
      as (e & ks & w2 & Hps & Hks & Hrs).
    exists e, (k :: ks), w2. cbn [app process_chapters]. unfold bind. rewrite Hp, Hps.
    split; [reflexivity|]. split; [|now constructor].
    rewrite Hks, Hk, <- app_assoc. reflexivity.
Qed.

(** The batch up to the loop. *)
Lemma run_batch_loop (E : Env) (config_file text : string) (cfg : dict)
    (chapters : list json) (w : world) :
  config_file <> EmptyString ->
  files (w_fs w) !! path_str (Path config_file) = Some text ->
  json_loads E text = Ret (JDict cfg) ->
  dict_get cfg "chapters" = Some (JList chapters) ->
  exists w0,
    kickoffs (w_log w0) = kickoffs (w_log w) /\
    forall e w',
      process_chapters E (JDict cfg) (List.length chapters) 1 chapters [] w0
      = (Raise e, w') ->
      run_batch E config_file w = (Raise e, w').
Proof.
  intros Hne Hf Hj Hc.
  apply String.eqb_neq in Hne.
  assert (Hex : path_exists (w_fs w) (Path config_file) = true)
    by exact (AnswerKeyToolFacts.file_exists _ _ _ Hf).
  unfold run_batch, print_banner, bind, print, emit, os_path_exists, get_fs, ret,
    read_text, lift, json_get, items_of, bind, get_fs, ret.
  cbn [w_log w_fs].
  rewrite Hne, Hex. cbn [negb andb w_fs]. rewrite Hf. cbn [w_log w_fs]. rewrite Hj.
  cbn [w_log w_fs]. rewrite Hc. cbn [w_log w_fs].
  eexists. split; [|intros e w' Hp; rewrite Hp; reflexivity].
  cbn [w_log]. rewrite !kickoffs_app. cbn [kickoffs flat_map app].
  now rewrite !app_nil_r.
Qed.

(** Without the configuration file nothing is run. *)
Lemma run_batch_missing (E : Env) (config_file : string) (w : world) :
  config_file = EmptyString \/ path_exists (w_fs w) (Path config_file) = false ->
  run_batch E config_file w
  = (Ret None,
     {| w_fs := w_fs w;
        w_log := ((w_log w ++ [Printed (banner E)])
                  ++ [Printed (glyph_clipboard +:+ " Loading batch configuration from: "
                               +:+ config_file)])
                 ++ [Printed (String nl (glyph_cross +:+ " ERROR: "
                                +:+ ("Config file not found: " +:+ config_file)
                                +:+ String nl EmptyString))] |}).
Proof.
  intros H.
  assert (Hn : negb (String.eqb config_file EmptyString)
               && path_exists (w_fs w) (Path config_file) = false).
  { destruct H as [-> | ->]; [reflexivity | apply andb_false_r]. }
  unfold run_batch, print_banner, print_error, bind, print, emit, os_path_exists,
    get_fs, ret, bind.
  cbn [w_log w_fs]. rewrite Hn. reflexivity.
Qed.

End BatchMore.

(** ** A single run *)
Module MainRunFacts.
Import Paths Json Os OsOps Main MainRun BatchSpec BatchFacts.

(** The inputs of a single run, entry by entry. *)
Lemma inputs_of_entries (image_path answer_key_file : string) (chapter_number : Z)
    (chapter_name subject current_date : string) :
  inputs_of image_path answer_key_file chapter_number chapter_name subject current_date
  = [ ("image_path", JStr image_path);
      ("answer_key_file", JStr answer_key_file);
      ("chapter_number", JNum (int_text chapter_number));
      ("chapter_name", JStr chapter_name);
      ("subject", JStr subject);
      ("exam_name", JStr "GSET");
      ("current_date", JStr current_date);
      ("author", JStr "Yash Kavaiya");
      ("website", JStr "https://gsetexam.blogspot.com/");
      ("youtube",
       JStr "https://youtube.com/playlist?list=PL6gpvClXEwJXRbutffBm0bjAwKfoaNlMw");
      ("telegram", JStr "t.me/gset_exam");
      ("facebook", JStr "https://www.facebook.com/GSETEXAM/") ].
Proof. reflexivity. Qed.

Lemma kickoffs_printed (log : list event) (text : string) :
  kickoffs (log ++ [Printed text]) = kickoffs log.
Proof. rewrite kickoffs_app. cbn [kickoffs flat_map app]. apply app_nil_r. Qed.

Lemma kickoffs_kicked (log : list event) (inputs : dict) (o : outcome string) :
  kickoffs (log ++ [KickedOff inputs o]) = kickoffs log ++ [(inputs, o)].
Proof. rewrite kickoffs_app. reflexivity. Qed.

(** The guarded run of the crew: the outcome of the crew is the outcome of
    the block, the error is printed before it is raised again. *)
Lemma guarded_run (E : Env) (inputs : dict) (prefix : string) (w1 : world) :
  let r :=
    try_except
      (bind (crew_kickoff E inputs)
         (fun result => bind (print_success result) (fun _ => ret result)))
      (fun e => bind (print_error (prefix +:+ exn_msg e)) (fun _ => raise e)) w1 in
  fst r = fst (kickoff E inputs w1) /\
  w_fs (snd r) = snd (kickoff E inputs w1) /\
  kickoffs (w_log (snd r)) = kickoffs (w_log w1) ++ [(inputs, fst (kickoff E inputs w1))] /\
  forall e, fst (kickoff E inputs w1) = Raise e ->
    List.last (w_log (snd r)) (Printed EmptyString)
    = Printed (String nl (glyph_cross +:+ " ERROR: " +:+ (prefix +:+ exn_msg e)
                          +:+ String nl EmptyString)).
Proof.
  unfold try_except, bind, crew_kickoff, print_success, print_error, bind, print, emit,
    ret, raise. cbv zeta.
  destruct (kickoff E inputs w1) as [[x|e] after]; cbn [fst snd w_fs w_log].
  - split; [reflexivity|]. split; [reflexivity|]. split; [|discriminate].
    now rewrite !kickoffs_printed, kickoffs_kicked.
  - split; [reflexivity|]. split; [reflexivity|]. split.
    + now rewrite kickoffs_printed, kickoffs_kicked.
    + intros e' [= <-]. apply List.last_last.
Qed.

(** When the crew returns, the wording of the error message plays no
    part. *)
Lemma guarded_run_returns (E : Env) (inputs : dict) (p1 p2 : string) (w1 : world) (x : string) :
  fst (kickoff E inputs w1) = Ret x ->
  try_except
    (bind (crew_kickoff E inputs)
       (fun result => bind (print_success result) (fun _ => ret result)))
    (fun e => bind (print_error (p1 +:+ exn_msg e)) (fun _ => raise e)) w1
  = try_except
      (bind (crew_kickoff E inputs)
         (fun result => bind (print_success result) (fun _ => ret result)))
      (fun e => bind (print_error (p2 +:+ exn_msg e)) (fun _ => raise e)) w1.
Proof.
  intros Hk.
  assert (Hm : exists w', bind (crew_kickoff E inputs)
                            (fun result => bind (print_success result)
                                             (fun _ => ret result)) w1
                          = (Ret x, w')).
  { unfold bind, crew_kickoff, print_success, bind, print, emit, ret.
    destruct (kickoff E inputs w1) as [[y|e] after]; [|discriminate].
    injection Hk as ->. eexists. reflexivity. }
  destruct Hm as [w' Hm]. unfold try_except. now rewrite Hm.
Qed.

End MainRunFacts.

(** ** The inputs of the crew *)
Module CrewFacts.
Import Paths Json Os OsOps Crew CrewSpec DictFacts.

Lemma contains_set (d : dict) (k k' : string) (v : json) :
  contains (dict_set d k v) k' = String.eqb k' k || contains d k'.
Proof.
  unfold contains. rewrite dict_get_set. now destruct (String.eqb k' k).
Qed.

Lemma dict_get_setdefault (d : dict) (k k' : string) (v : json) :
  dict_get (setdefault d k v) k'
  = match dict_get d k' with
    | Some x => Some x
    | None => if String.eqb k' k then Some v else None
    end.
Proof.
  unfold setdefault, contains. destruct (dict_get d k) as [x|] eqn:Ek.
  - destruct (dict_get d k') eqn:Ek'; [reflexivity|].
    destruct (String.eqb_spec k' k) as [-> | _]; [congruence | reflexivity].
  - rewrite dict_get_set. destruct (String.eqb_spec k' k) as [-> | _].
    + now rewrite Ek.
    + now destruct (dict_get d k').
Qed.

Lemma contains_setdefault (d : dict) (k k' : string) (v : json) :
  contains (setdefault d k v) k' = String.eqb k' k || contains d k'.
Proof.
  unfold contains at 1. rewrite dict_get_setdefault. unfold contains.
  destruct (dict_get d k'); [now rewrite orb_true_r|].
  now destruct (String.eqb k' k).
Qed.

(** The inputs with the three defaults. *)
Lemma defaults_get (inputs : dict) (date key : string) :
  dict_get
    (setdefault
       (setdefault (setdefault inputs "exam_name" (JStr "GSET")) "current_date" (JStr date))
       "author" (JStr "Yash Kavaiya")) key
  = match dict_get inputs key with
    | Some v => Some v
    | None => default_of date key
    end.
Proof.
  rewrite !dict_get_setdefault. unfold default_of.
  destruct (dict_get inputs key); [reflexivity|].
  destruct (String.eqb key "exam_name"); [reflexivity|].
  now destruct (String.eqb key "current_date").
Qed.

(** Neither the defaults nor the file name touch a required field. *)
Lemma missing_after (inputs : dict) (date : string) (name : option json) :
  let d := setdefault
             (setdefault (setdefault inputs "exam_name" (JStr "GSET"))
                "current_date" (JStr date))
             "author" (JStr "Yash Kavaiya") in
  List.filter (fun f => negb (contains
                               match name with
                               | Some v => dict_set d "filename" v
                               | None => d
                               end f)) required_fields
  = missing_of inputs.
Proof.
  cbv zeta. unfold missing_of, required_fields. cbn [List.filter].
  destruct name as [v|]; rewrite ?contains_set, !contains_setdefault; reflexivity.
Qed.

(** [prepare_inputs] when the image path is a text. *)
Lemma prepare_inputs_text (E : Env) (inputs : dict) (p : string) (w : world) :
  dict_get inputs "image_path" = Some (JStr p) ->
  let out :=
    dict_set
      (setdefault
         (setdefault (setdefault inputs "exam_name" (JStr "GSET"))
            "current_date" (JStr (today E w)))
         "author" (JStr "Yash Kavaiya"))
      "filename" (JStr (splitext_root (basename p))) in
  match missing_of inputs with
  | [] => fst (prepare_inputs E inputs w) = Ret out /\
          w_fs (snd (prepare_inputs E inputs w)) = w_fs w
  | m => prepare_inputs E inputs w = (Raise (missing_inputs m), w)
  end.
Proof.
  intros Hp out. subst out.
  pose proof (missing_after inputs (today E w)
                (Some (JStr (splitext_root (basename p))))) as Hm.
  cbn beta iota zeta in Hm.
  unfold prepare_inputs, bind. cbv zeta. cbn beta iota.
  rewrite defaults_get, Hp. unfold path_text, ret. cbn beta iota.
  rewrite Hm.
  destruct (missing_of inputs); [|reflexivity].
  unfold bind, print, emit, ret. cbn beta iota. cbn [fst snd w_fs]. now split.
Qed.

(** [prepare_inputs] without an image path. *)
Lemma prepare_inputs_absent (E : Env) (inputs : dict) (w : world) :
  dict_get inputs "image_path" = None ->
  prepare_inputs E inputs w = (Raise (missing_inputs (missing_of inputs)), w)
  /\ In "image_path" (missing_of inputs).
Proof.
  intros Hp.
  pose proof (missing_after inputs (today E w) None) as Hm. cbn beta iota zeta in Hm.
  assert (Hin : In "image_path" (missing_of inputs)).
  { unfold missing_of, required_fields. apply List.filter_In. split; [now left|].
    unfold contains. now rewrite Hp. }
  split; [|exact Hin].
  unfold prepare_inputs, bind. cbv zeta. cbn beta iota.
  rewrite defaults_get, Hp. cbn [default_of String.eqb Ascii.eqb Bool.eqb].
  unfold ret. cbn beta iota. rewrite Hm.
  destruct (missing_of inputs); [contradiction | reflexivity].
Qed.

End CrewFacts.

(** ** The directories of the crew *)
Module DirectoryFacts.
Import Paths Json Os OsOps OsSpec OsFacts FileToolsMore Crew CrewSpec.

Lemma os_mkdir_cases (p : path) (w : world) :
  os_mkdir p w
  = if path_exists (w_fs w) p
    then (Raise (os_error OtherError "[Errno 17] File exists" p), w)
    else if is_dir (w_fs w) (parent p)
    then (Ret tt, {| w_fs := {| files := files (w_fs w);
                                dirs := {[ path_str p ]} ∪ dirs (w_fs w) |};
                     w_log := w_log w |})
    else if is_file (w_fs w) (parent p)
    then (Raise (os_error OtherError "[Errno 20] Not a directory" p), w)
    else (Raise (os_error FileNotFoundError "[Errno 2] No such file or directory" p), w).
Proof.
  unfold os_mkdir, bind, get_fs, put_fs, raise. cbn beta iota.
  destruct (path_exists (w_fs w) p); [reflexivity|].
  destruct (is_dir (w_fs w) (parent p)); [reflexivity|].
  now destruct (is_file (w_fs w) (parent p)).
Qed.

(** Directories are never removed. *)
Lemma os_mkdir_mono (p : path) (w : world) :
  dirs (w_fs w) ⊆ dirs (w_fs (snd (os_mkdir p w))).
Proof.
  rewrite os_mkdir_cases.
  destruct (path_exists (w_fs w) p); [reflexivity|].
  destruct (is_dir (w_fs w) (parent p)); [cbn [snd w_fs dirs]; set_solver|].
  now destruct (is_file (w_fs w) (parent p)).
Qed.

Lemma mkdir_p_mono (n : nat) : forall (p : path) (w : world),
  dirs (w_fs w) ⊆ dirs (w_fs (snd (mkdir_p n p w))).
Proof.
  induction n as [|n IH]; intros p w; cbn [mkdir_p]; unfold try_except;
    pose proof (os_mkdir_mono p w) as Hos;
    destruct (os_mkdir p w) as [[[]|e] w1]; cbn [snd] in *; try exact Hos;
    destruct (exn_cls e); try exact Hos;
    try (unfold bind, get_fs; cbn beta iota;
         destruct (is_dir (w_fs w1) p); exact Hos).
  unfold bind. specialize (IH (parent p) w1).
  destruct (mkdir_p n (parent p) w1) as [[[]|e'] w2]; cbn [snd] in *.
  - pose proof (os_mkdir_mono p w2). set_solver.
  - set_solver.
Qed.

Lemma makedirs_mono (name : string) (w : world) :
  dirs (w_fs w) ⊆ dirs (w_fs (snd (makedirs name w))).
Proof.
  unfold makedirs. destruct (String.eqb name EmptyString); [reflexivity|].
  apply mkdir_p_mono.
Qed.

Lemma is_dir_mono (f f' : fs) (p : path) :
  dirs f ⊆ dirs f' -> is_dir f p = true -> is_dir f' p = true.
Proof.
  unfold is_dir. destruct (parts p); [reflexivity|]. intros Hs H.
  apply bool_decide_eq_true in H. apply bool_decide_eq_true_2. set_solver.
Qed.

Lemma is_file_files (f f' : fs) (p : path) :
  files f' = files f -> is_file f' p = is_file f p.
Proof. unfold is_file. now intros ->. Qed.

(** After [makedirs] has returned, the directory is there. *)
Lemma makedirs_post (name : string) (w : world) :
  fst (makedirs name w) = Ret tt ->
  name <> EmptyString /\ is_dir (w_fs (snd (makedirs name w))) (Path name) = true.
Proof.
  unfold makedirs. destruct (String.eqb_spec name EmptyString) as [-> | Hne];
    [discriminate|].
  intros H. split; [assumption | now apply mkdir_p_post].
Qed.

(** An existing directory is accepted as it is. *)
Lemma makedirs_existing (name : string) (w : world) :
  name <> EmptyString -> is_dir (w_fs w) (Path name) = true ->
  makedirs name w = (Ret tt, w).
Proof.
  intros Hne Hd. unfold makedirs. apply String.eqb_neq in Hne. rewrite Hne.
  now apply mkdir_parents_existing.
Qed.

Lemma app_longer (a x : string) : x <> EmptyString -> a +:+ x <> a.
Proof.
  intros Hx H. apply (f_equal String.length) in H. rewrite length_app_s in H.
  destruct x; [now apply Hx | cbn [String.length] in H; lia].
Qed.

(** A directory one level below the current one can be made unless a
    regular file stands in its place or in the place of its parent. *)
Lemma mkdir_two (a b : string) (w : world) :
  let p := {| absolute := false; parts := [a; b] |} in
  is_file (w_fs w) p = false -> is_file (w_fs w) (parent p) = false ->
  fst (mkdir_p 2 p w) = Ret tt.
Proof.
  intros p Hfp Hfa. cbn [mkdir_p]. unfold try_except at 1.
  rewrite (os_mkdir_cases p w). unfold path_exists at 1. rewrite Hfp. cbn [orb].
  destruct (is_dir (w_fs w) p) eqn:Edp.
  { cbn [exn_cls os_error]. unfold bind, get_fs, ret. cbn beta iota. now rewrite Edp. }
  destruct (is_dir (w_fs w) (parent p)) eqn:Eda; [reflexivity|].
  rewrite Hfa. cbn [exn_cls os_error]. unfold bind at 1. unfold try_except.
  rewrite (os_mkdir_cases (parent p) w). unfold path_exists at 1.
  rewrite Hfa, Eda. cbn [orb].
  replace (is_dir (w_fs w) (parent (parent p))) with true by reflexivity.
  rewrite os_mkdir_cases. cbn [w_fs w_log].
  assert (Hne : path_str p <> path_str (parent p)).
  { unfold p, parent, path_str. cbn [absolute parts removelast Py.join String.append].
    apply app_longer. discriminate. }
  assert (Hex : path_exists
                  {| files := files (w_fs w);
                     dirs := {[ path_str (parent p) ]} ∪ dirs (w_fs w) |} p = false).
  { unfold path_exists. rewrite (is_file_files (w_fs w)) by reflexivity. rewrite Hfp.
    cbn [orb]. unfold is_dir in *. cbn [parts p] in *. cbn [dirs].
    apply bool_decide_eq_false in Edp. apply bool_decide_eq_false_2.
    intros Hin. apply elem_of_union in Hin as [Hin | Hin]; [|contradiction].
    apply elem_of_singleton in Hin. contradiction. }
  rewrite Hex.
  replace (is_dir {| files := files (w_fs w);
                     dirs := {[ path_str (parent p) ]} ∪ dirs (w_fs w) |} (parent p))
    with true; [reflexivity|].
  symmetry. apply is_dir_added.
Qed.

Lemma makedirs_two (name a b : string) (w : world) :
  Path name = {| absolute := false; parts := [a; b] |} ->
  clear_of_files (w_fs w) name = true ->
  fst (makedirs name w) = Ret tt.
Proof.
  intros Hp Hc. unfold clear_of_files in Hc. apply andb_prop in Hc as [H1 H2].
  apply negb_true_iff in H1, H2. rewrite Hp in H1, H2.
  unfold makedirs, mkdir_parents. rewrite Hp.
  destruct (String.eqb_spec name EmptyString) as [-> | _]; [discriminate|].
  now apply mkdir_two.
Qed.

(** *** All the directories *)

Lemma for_each_keeps (ds : list string) : keeps_files (for_each makedirs ds).
Proof.
  induction ds as [|d ds IH]; cbn [for_each]; [apply keeps_ret|].
  apply keeps_bind; [apply keeps_makedirs | intros _; exact IH].
Qed.

Lemma for_each_mono (ds : list string) : forall w,
  dirs (w_fs w) ⊆ dirs (w_fs (snd (for_each makedirs ds w))).
Proof.
  induction ds as [|d ds IH]; intros w; cbn [for_each]; [reflexivity|].
  unfold bind. pose proof (makedirs_mono d w) as Hm.
  destruct (makedirs d w) as [[[]|e] w1]; cbn [snd] in *; [|exact Hm].
  specialize (IH w1). set_solver.
Qed.

Lemma for_each_post (ds : list string) : forall w,
  fst (for_each makedirs ds w) = Ret tt ->
  forall d, In d ds ->
    d <> EmptyString /\ is_dir (w_fs (snd (for_each makedirs ds w))) (Path d) = true.
Proof.
  induction ds as [|d0 ds IH]; intros w H d Hin; [contradiction|].
  cbn [for_each] in *. unfold bind in *.
  pose proof (makedirs_post d0 w) as Hp.
  destruct (makedirs d0 w) as [[[]|e] w1]; cbn [fst snd] in *; [|discriminate].
  destruct Hin as [<- | Hin]; [|now apply IH].
  destruct (Hp eq_refl) as [Hne Hd]. split; [exact Hne|].
  eapply is_dir_mono; [apply for_each_mono | exact Hd].
Qed.

Lemma for_each_existing (ds : list string) (w : world) :
  (forall d, In d ds -> d <> EmptyString /\ is_dir (w_fs w) (Path d) = true) ->
  for_each makedirs ds w = (Ret tt, w).
Proof.
  induction ds as [|d ds IH]; intros H; [reflexivity|].
  cbn [for_each]. unfold bind.
  destruct (H d (or_introl eq_refl)) as [Hne Hd].
  rewrite (makedirs_existing d w Hne Hd). apply IH.
  intros d' Hd'. apply H. now right.
Qed.

Lemma for_each_two (ds : list string) : forall w,
  (forall d, In d ds ->
     (exists a b, Path d = {| absolute := false; parts := [a; b] |}) /\
     clear_of_files (w_fs w) d = true) ->
  fst (for_each makedirs ds w) = Ret tt.
Proof.
  induction ds as [|d ds IH]; intros w H; [reflexivity|].
  cbn [for_each]. unfold bind.
  destruct (H d (or_introl eq_refl)) as [(a & b & Hp) Hc].
  pose proof (makedirs_two d a b w Hp Hc) as Hr.
  destruct (keeps_makedirs d w) as [Hf _].
  destruct (makedirs d w) as [[[]|e] w1]; cbn [fst snd] in *; [|discriminate].
  apply IH. intros d' Hd'. destruct (H d' (or_intror Hd')) as [Hp' Hc'].
  split; [exact Hp'|]. unfold clear_of_files in *.
  now rewrite !(is_file_files (w_fs w) (w_fs w1)) by exact Hf.
Qed.

Lemma directories_two (d : string) : In d directories ->
  exists a b, Path d = {| absolute := false; parts := [a; b] |}.
Proof.
  intros H. cbn [directories In] in H.
  repeat (destruct H as [<- | H]; [eexists; eexists; reflexivity|]). contradiction.
Qed.

End DirectoryFacts.

(** X1. The Markdown converter works line by line: converting lines joined
    by newlines gives the converted lines joined by newlines. *)
Theorem markdown_line_by_line (lines : list string) :
  MarkdownToLaTeXTool._run (Py.join MoreSpec.newline lines)
  = Py.join MoreSpec.newline (map MarkdownToLaTeXTool._run lines).
Proof. apply MarkdownMore.run_join. Qed.



(** X3. On text without [*] and backtick the converter is idempotent:
    converting its own output changes nothing. *)
Theorem markdown_idempotent_without_markers (s : string) :
  MarkdownSpec.marker_free s ->
  MarkdownToLaTeXTool._run (MarkdownToLaTeXTool._run s) = MarkdownToLaTeXTool._run s.
Proof.
  revert s. apply (MarkdownFacts.by_lines
    (fun s => MarkdownSpec.marker_free s ->
       MarkdownToLaTeXTool._run (MarkdownToLaTeXTool._run s)
       = MarkdownToLaTeXTool._run s)).
  - intros l Hl [H1 H2]. apply MarkdownMore.run_line_twice.
    unfold MarkdownSpec.unmarked. now rewrite Hl, H1, H2.
  - intros l r Hl IH [H1 H2].
    rewrite has_char_app in H1, H2.
    apply orb_false_elim in H1 as [H1l H1r]. apply orb_false_elim in H2 as [H2l H2r].
    cbn [has_char] in H1r, H2r.
    apply orb_false_elim in H1r as [_ H1r]. apply orb_false_elim in H2r as [_ H2r].
    rewrite !MarkdownFacts.run_newline. f_equal; [|f_equal].
    + apply MarkdownMore.run_line_twice.
      unfold MarkdownSpec.unmarked. now rewrite Hl, H1l, H2l.
    + apply IH. now split.
Qed.

Lemma markdown_idempotent_without_markers_witness :
  MarkdownToLaTeXTool._run
    (MarkdownToLaTeXTool._run ("# Sets" +:+ String nl "- one" +:+ String nl "2. two"))
  = MarkdownToLaTeXTool._run ("# Sets" +:+ String nl "- one" +:+ String nl "2. two").
Proof.
  apply (markdown_idempotent_without_markers
           ("# Sets" +:+ String nl "- one" +:+ String nl "2. two")).
  split; reflexivity.
Defined.

(** General idempotence fails: four stars become an italic star, and the
    star left over pairs up with it on a second pass. *)
Lemma markdown_not_idempotent :
  MarkdownToLaTeXTool._run (MarkdownToLaTeXTool._run "****")
  <> MarkdownToLaTeXTool._run "****".
Proof. vm_compute. discriminate. Qed.

(** X4. When the compiler runs to its end, its exit status decides the
    answer: status 0 names the PDF, called after the [.tex] file and placed
    in the output directory; any other status hands on the compiler's error
    output unchanged.  The files are left as the compiler left them. *)
Theorem compiler_exit_status (E : Env) (dir : string) (c : ascii) (n ext : string)
    (output_dir : string) (w : world) (rc : Z) (stderr : string) (after : fs) :
  let tex_file_path := dir +:+ String "/" (String c n +:+ String "." ext) in
  has_char "/" (String c n) = false -> c <> "."%char ->
  has_char "/" ext = false -> has_char "." ext = false ->
  fst (makedirs output_dir w) = Ret tt ->
  spawn E (LaTeXCompilerTool.command_line output_dir tex_file_path)
    LaTeXCompilerTool.timeout
    (LaTeXCompilerSpec.invocation_world tex_file_path output_dir w)
  = Completed rc stderr after ->
  fst (LaTeXCompilerTool._run E tex_file_path output_dir w)
  = Ret (if (rc =? 0)%Z
         then "Successfully compiled LaTeX to PDF: "
              +:+ os_join output_dir (String c n +:+ ".pdf")
         else "LaTeX compilation failed: " +:+ stderr)
  /\ w_fs (snd (LaTeXCompilerTool._run E tex_file_path output_dir w)) = after.
Proof.
  intros tex Hn Hc He1 He2 Hd Hs.
  rewrite (LaTeXCompilerFacts.run_invocation E tex output_dir w Hd). cbv zeta.
  rewrite Hs. cbn [fst snd w_fs]. split; [|reflexivity].
  subst tex. rewrite PathFacts.basename_in_directory, PathFacts.splitext_root_ext;
    try assumption; [reflexivity|].
  rewrite has_char_app, Hn. cbn [has_char orb]. exact He1.
Qed.

Lemma compiler_exit_status_witness :
  fst (LaTeXCompilerTool._run MoreExamples.env_failing
         "output/book/main.tex" "output/book" Examples.sample_world)
  = Ret "LaTeX compilation failed: ! Undefined control sequence."
  /\ fst (LaTeXCompilerTool._run MoreExamples.env_working
         "output/book/main.tex" "output/book" Examples.sample_world)
  = Ret "Successfully compiled LaTeX to PDF: output/book/main.pdf".
Proof.
  split.
  - refine (proj1 (compiler_exit_status MoreExamples.env_failing "output/book"
                     "m" "ain" "tex" "output/book" Examples.sample_world
                     1 "! Undefined control sequence." _ _ _ _ _ _ _));
      [reflexivity | discriminate | reflexivity | reflexivity
      | vm_compute; reflexivity | reflexivity].
  - refine (proj1 (compiler_exit_status MoreExamples.env_working "output/book"
                     "m" "ain" "tex" "output/book" Examples.sample_world
                     0 EmptyString _ _ _ _ _ _ _));
      [reflexivity | discriminate | reflexivity | reflexivity
      | vm_compute; reflexivity | reflexivity].
Defined.

(** X5. A run of the compiler tool invokes [pdflatex] at most once, always
    with the output directory and the [.tex] file as arguments and a
    timeout of 120 seconds; nothing else is added to the log. *)
Theorem compiler_one_invocation (E : Env) (tex_file_path output_dir : string) (w : world) :
  let log' := w_log (snd (LaTeXCompilerTool._run E tex_file_path output_dir w)) in
  log' = w_log w \/
  log' = w_log w
         ++ [Spawned ["pdflatex"; "-output-directory"; output_dir; tex_file_path] 120].
Proof. apply LaTeXCompilerFacts.run_log. Qed.

(** X6. When the output directory cannot be created the compiler is never
    invoked and no file changes; the answer is chosen by the class of the
    error alone, so that a directory that cannot be found is reported as a
    missing [pdflatex]. *)
Theorem compiler_no_output_directory (E : Env) (tex_file_path output_dir : string)
    (w : world) (e : exn) :
  fst (makedirs output_dir w) = Raise e ->
  let r := LaTeXCompilerTool._run E tex_file_path output_dir w in
  fst r = Ret (match exn_cls e with
               | FileNotFoundError => LaTeXCompilerSpec.not_found_message
               | TimeoutExpired => LaTeXCompilerSpec.timeout_message
               | _ => "[LaTeX Compiler] Error: " +:+ exn_msg e
               end)
  /\ w_log (snd r) = w_log w
  /\ files (w_fs (snd r)) = files (w_fs w).
Proof.
  intros H r. subst r. split.
  - now apply LaTeXCompilerMore.run_no_directory_answer.
  - now apply (LaTeXCompilerFacts.run_no_directory E tex_file_path output_dir w e).
Qed.

Lemma compiler_no_output_directory_witness :
  fst (LaTeXCompilerTool._run MoreExamples.env_working "main.tex" "" Examples.sample_world)
  = Ret LaTeXCompilerSpec.not_found_message
  /\ fst (LaTeXCompilerTool._run MoreExamples.env_working "main.tex" "keys/ch1.txt/pdf"
            Examples.sample_world)
  = Ret "[LaTeX Compiler] Error: [Errno 20] Not a directory: 'keys/ch1.txt/pdf'".
Proof.
  split.
  - refine (proj1 (compiler_no_output_directory MoreExamples.env_working "main.tex" ""
                     Examples.sample_world
                     (os_error FileNotFoundError "[Errno 2] No such file or directory"
                        (Path "")) _)).
    reflexivity.
  - refine (proj1 (compiler_no_output_directory MoreExamples.env_working "main.tex"
                     "keys/ch1.txt/pdf" Examples.sample_world
                     (os_error OtherError "[Errno 20] Not a directory"
                        (Path "keys/ch1.txt/pdf")) _)).
    vm_compute. reflexivity.
Defined.

(** X7. The two reading tools of file_tool.py are read-only: whatever the
    path and the content, the file reader and the answer-key parser leave
    the files, the directories and the log as they were. *)
Theorem reading_tools_change_nothing (E : Env) (name : string) (w : world) :
  snd (FileReaderTool._run E name w) = w
  /\ snd (AnswerKeyParserTool._run E name w) = w.
Proof.
  split; [apply FileToolsMore.reader_world | apply FileToolsMore.parser_world].
Qed.



(** X9. On a regular file whose name ends in [.json] the file reader returns
    the parsed value printed again with an indentation of two and without
    escaping non-ASCII characters; when the text is no JSON, the parser's
    message comes back behind "Error reading file: ". *)
Theorem file_reader_json (E : Env) (file_path content : string) (w : world) :
  files (w_fs w) !! path_str (Path file_path) = Some content ->
  suffix (Path file_path) = ".json" ->
  fst (FileReaderTool._run E file_path w)
  = Ret (match json_loads E content with
         | Ret data => dumps false data
         | Raise e => "Error reading file: " +:+ exn_msg e
         end).
Proof.
  intros Hf Hs. rewrite (FileToolsMore.reader_file E _ _ _ Hf). now rewrite Hs.
Qed.

Lemma file_reader_json_witness :
  fst (FileReaderTool._run Examples.env "keys/ch1.json" Examples.sample_world)
  = Ret (dumps false Examples.raw_key).
Proof.
  refine (file_reader_json Examples.env "keys/ch1.json" (dumps true Examples.raw_key)
            Examples.sample_world _ _); vm_compute; reflexivity.
Defined.





(** X12. In the mapping that the line-by-line branch of the answer-key
    parser builds, every question number occurs once, and it carries the
    label of the last line that gives that number a valid answer. *)
Theorem answer_key_last_line_wins (content : string) :
  List.NoDup (map fst (AnswerKeyParserTool.parse_lines content))
  /\ forall q,
       dict_get (AnswerKeyParserTool.parse_lines content) q
       = option_map JStr
           (AnswerKeyMoreSpec.last_answer (Py.split nl (Py.strip content)) q).
Proof.
  unfold AnswerKeyParserTool.parse_lines. split.
  - apply AnswerKeyMore.fold_parse_nodup. apply List.NoDup_nil.
  - intros q. rewrite AnswerKeyMore.fold_parse_get.
    now destruct (AnswerKeyMoreSpec.last_answer _ q).
Qed.



(** X14. The recognition tool never writes: every run leaves the file
    system as it was and sends at most one request to the service, and a
    request carries the content of the file that was named. *)
Theorem ocr_reads_and_asks_once (E : Env) (file_path : string) (w : world) :
  let r := OCRTool._run E file_path w in
  w_fs (snd r) = w_fs w /\
  (OCRSpec.requests (w_log (snd r)) = OCRSpec.requests (w_log w) \/
   exists data,
     files (w_fs w) !! path_str (Path file_path) = Some data /\
     OCRSpec.requests (w_log (snd r))
     = OCRSpec.requests (w_log w)
       ++ [ContentRequested "gemini-2.0-flash" data
             (OCRTool.mime_type_of (Py.lower (suffix (Path file_path)))) OCRTool.prompt]).
Proof. apply OCRMore.run_shape. Qed.

(** X15. With the library imported and the client created, the recognition
    tool sends a regular file to the model [gemini-2.0-flash] with the MIME
    type of its extension, whatever the case of the extension, and returns
    the text of the answer unchanged; an exception of the service comes
    back as an error message. *)
Theorem ocr_existing_file (E : Env) (file_path data : string) (w : world) :
  genai_import E = None -> genai_client E (getenv E "GOOGLE_API_KEY") = None ->
  files (w_fs w) !! path_str (Path file_path) = Some data ->
  let w2 := OCRMoreSpec.request_world E file_path data w in
  snd (OCRTool._run E file_path w) = w2 /\
  fst (OCRTool._run E file_path w)
  = Ret (match generate_content E "gemini-2.0-flash" data
                 (OCRTool.mime_type_of (Py.lower (suffix (Path file_path))))
                 OCRTool.prompt w2 with
         | Ret text => text
         | Raise e => OCRMoreSpec.error_answer e
         end).
Proof.
  intros Hi Hc Hf w2. subst w2. rewrite (OCRMore.run_file E file_path data w Hi Hc Hf).
  now split.
Qed.

Lemma ocr_existing_file_witness :
  fst (OCRTool._run Examples.env "keys/ch1.txt" Examples.sample_world)
  = Ret "1. What is 2 + 2? (A) 3 (B) 4".
Proof.
  refine (proj2 (ocr_existing_file Examples.env "keys/ch1.txt" Examples.abc_lines
                   Examples.sample_world _ _ _)); reflexivity.
Defined.

(** X16. Without its configuration file the batch runs nothing: it prints
    the banner, the name of the file and the error, returns [None] and
    leaves the files as they are. *)
Theorem batch_missing_config (E : Env) (config_file : string) (w : world) :
  config_file = EmptyString \/ path_exists (w_fs w) (Path config_file) = false ->
  let r := Main.run_batch E config_file w in
  fst r = Ret None /\
  w_fs (snd r) = w_fs w /\
  BatchSpec.kickoffs (w_log (snd r)) = BatchSpec.kickoffs (w_log w) /\
  List.last (w_log (snd r)) (Printed EmptyString)
  = Printed (String nl (Main.glyph_cross +:+ " ERROR: Config file not found: "
                        +:+ config_file +:+ String nl EmptyString)).
Proof.
  intros H r. subst r. rewrite (BatchMore.run_batch_missing E config_file w H).
  cbn [fst snd w_fs w_log]. split; [reflexivity|]. split; [reflexivity|]. split.
  - rewrite !BatchFacts.kickoffs_app. cbn [BatchSpec.kickoffs flat_map app].
    now rewrite !app_nil_r.
  - rewrite List.last_last. reflexivity.
Qed.

Lemma batch_missing_config_witness :
  fst (Main.run_batch Examples.env "chapters.json" Examples.sample_world) = Ret None.
Proof.
  refine (proj1 (batch_missing_config Examples.env "chapters.json" Examples.sample_world _)).
  right. vm_compute. reflexivity.
Defined.

(** X17. Only the crew is guarded in the batch.  A chapter entry that is no
    JSON object makes [run_batch] raise: the chapters before it have been
    run, the chapters after it never are, and no result list is
    returned. *)
Theorem batch_aborts_on_malformed_chapter (E : Env) (config_file text : string)
    (cfg : dict) (pre post : list json) (bad : json) (w : world) :
  config_file <> EmptyString ->
  files (w_fs w) !! path_str (Path config_file) = Some text ->
  json_loads E text = Ret (JDict cfg) ->
  dict_get cfg "chapters" = Some (JList (pre ++ bad :: post)) ->
  forallb BatchSpec.is_dict pre = true ->
  BatchSpec.is_dict bad = false ->
  exists e ks,
    fst (Main.run_batch E config_file w) = Raise e /\
    BatchSpec.kickoffs (w_log (snd (Main.run_batch E config_file w)))
    = BatchSpec.kickoffs (w_log w) ++ ks /\
    Forall2 (BatchSpec.run_of cfg) pre ks.
Proof.
  intros Hne Hf Hj Hc Hpre Hbad.
  destruct (BatchMore.run_batch_loop E config_file text cfg _ w Hne Hf Hj Hc)
    as (w0 & Hk0 & Hrun).
  destruct (BatchMore.process_chapters_abort E cfg (List.length (pre ++ bad :: post))
              bad post Hbad pre 1 [] w0 Hpre) as (e & ks & w' & Hp & Hk & Hr).
  exists e, ks. rewrite (Hrun e w' Hp). cbn [fst snd].
  split; [reflexivity|]. split; [|exact Hr]. now rewrite Hk, Hk0.
Qed.

Lemma batch_aborts_on_malformed_chapter_witness :
  exists e ks,
    fst (Main.run_batch MoreExamples.env_mixed "mixed.json" MoreExamples.mixed_world)
    = Raise e /\
    BatchSpec.kickoffs
      (w_log (snd (Main.run_batch MoreExamples.env_mixed "mixed.json"
                     MoreExamples.mixed_world)))
    = BatchSpec.kickoffs (w_log MoreExamples.mixed_world) ++ ks /\
    Forall2 (BatchSpec.run_of MoreExamples.mixed_config) [Examples.chapter "1" "One"] ks.
Proof.
  apply (batch_aborts_on_malformed_chapter MoreExamples.env_mixed "mixed.json"
           (dumps true (JDict MoreExamples.mixed_config)) MoreExamples.mixed_config
           [Examples.chapter "1" "One"] [Examples.chapter "3" "Three"]
           (JStr "chapter two") MoreExamples.mixed_world).
  - discriminate.
  - vm_compute. reflexivity.
  - vm_compute. reflexivity.
  - reflexivity.
  - reflexivity.
  - reflexivity.
Defined.



(** X19. A single run hands on what the crew does: [run_single] runs the
    crew once, on the five arguments, the date and the defaults; it returns
    what the crew returns and raises what the crew raises, after printing
    the error.  Unlike the batch it does not turn a failure into a
    result. *)
Theorem run_single_outcome (E : Env) (image_path answer_key_file : string)
    (chapter_number : Z) (chapter_name subject : string) (w : world) :
  let r := MainRun.run_single E image_path answer_key_file chapter_number
             chapter_name subject w in
  let inputs :=
    [ ("image_path", JStr image_path);
      ("answer_key_file", JStr answer_key_file);
      ("chapter_number", JNum (MainRun.int_text chapter_number));
      ("chapter_name", JStr chapter_name);
      ("subject", JStr subject);
      ("exam_name", JStr "GSET");
      ("current_date", JStr (today E w));
      ("author", JStr "Yash Kavaiya");
      ("website", JStr "https://gsetexam.blogspot.com/");
      ("youtube",
       JStr "https://youtube.com/playlist?list=PL6gpvClXEwJXRbutffBm0bjAwKfoaNlMw");
      ("telegram", JStr "t.me/gset_exam");
      ("facebook", JStr "https://www.facebook.com/GSETEXAM/") ] in
  let crew := kickoff E inputs
                {| w_fs := w_fs w; w_log := w_log w ++ [Printed (banner E)] |} in
  fst r = fst crew /\
  w_fs (snd r) = snd crew /\
  BatchSpec.kickoffs (w_log (snd r)) = BatchSpec.kickoffs (w_log w) ++ [(inputs, fst crew)] /\
  forall e, fst crew = Raise e ->
    List.last (w_log (snd r)) (Printed EmptyString)
    = Printed (String nl (Main.glyph_cross +:+ " ERROR: An error occurred: "
                          +:+ exn_msg e +:+ String nl EmptyString)).
Proof.
  cbv zeta. rewrite <- MainRunFacts.inputs_of_entries.
  unfold MainRun.run_single. unfold bind at 1 2. unfold Main.print_banner, print, emit.
  cbn beta iota. cbn [w_fs w_log].
  destruct (MainRunFacts.guarded_run E
              (MainRun.inputs_of image_path answer_key_file chapter_number chapter_name
                 subject (today E w))
              "An error occurred: "
              {| w_fs := w_fs w; w_log := w_log w ++ [Printed (banner E)] |})
    as (H1 & H2 & H3 & H4).
  split; [exact H1|]. split; [exact H2|]. split.
  - etransitivity; [exact H3|]. cbn [w_log].
    now rewrite MainRunFacts.kickoffs_printed.
  - exact H4.
Qed.

Lemma run_single_outcome_witness :
  fst (MainRun.run_single Examples.env "input/question_sheets/ch2.png"
         "input/answer_keys/ch2.txt" 2 "Two" "General Studies" Examples.sample_world)
  = Raise (Exn OtherError "recognition failed").
Proof.
  refine (eq_trans
            (proj1 (run_single_outcome Examples.env "input/question_sheets/ch2.png"
                      "input/answer_keys/ch2.txt" 2 "Two" "General Studies"
                      Examples.sample_world)) _).
  reflexivity.
Defined.

(** X20. [run] is [run_single] on the sample chapter: the crew is run on the
    same inputs, the outcome and the files afterwards are the same; the two
    differ in the wording of the error message only. *)
Theorem run_is_run_single_on_sample (E : Env) (w : world) :
  let r := MainRun.run E w in
  let r' := MainRun.run_single E "input/question_sheets/sample_question_paper.png"
              "input/answer_keys/sample_answer_key.txt" 1 "Sample Chapter"
              "General Studies" w in
  fst r = fst r' /\
  w_fs (snd r) = w_fs (snd r') /\
  BatchSpec.kickoffs (w_log (snd r)) = BatchSpec.kickoffs (w_log (snd r')) /\
  ((exists x, fst r = Ret x) -> snd r = snd r').
Proof.
  cbv zeta.
  unfold MainRun.run, MainRun.run_single. unfold bind at 1 2 5 6.
  unfold Main.print_banner, print, emit. cbn beta iota. cbn [w_fs w_log].
  set (inputs := MainRun.inputs_of _ _ _ _ _ _).
  set (w1 := {| w_fs := w_fs w; w_log := w_log w ++ [Printed (banner E)] |}).
  destruct (MainRunFacts.guarded_run E inputs "An error occurred while running the crew: "
              w1) as (H1 & H2 & H3 & _).
  destruct (MainRunFacts.guarded_run E inputs "An error occurred: " w1)
    as (H1' & H2' & H3' & _).
  cbv zeta in H1, H2, H3, H1', H2', H3'.
  split; [etransitivity; [exact H1 | symmetry; exact H1']|].
  split; [etransitivity; [exact H2 | symmetry; exact H2']|].
  split; [etransitivity; [exact H3 | symmetry; exact H3']|].
  intros [x Hx]. assert (Hk : fst (kickoff E inputs w1) = Ret x)
    by (etransitivity; [symmetry; exact H1 | exact Hx]).
  f_equal. exact (MainRunFacts.guarded_run_returns E inputs _ _ w1 x Hk).
Qed.

Lemma run_is_run_single_on_sample_witness :
  snd (MainRun.run Examples.env Examples.sample_world)
  = snd (MainRun.run_single Examples.env "input/question_sheets/sample_question_paper.png"
           "input/answer_keys/sample_answer_key.txt" 1 "Sample Chapter"
           "General Studies" Examples.sample_world).
Proof.
  apply (proj2 (proj2 (proj2
           (run_is_run_single_on_sample Examples.env Examples.sample_world)))).
  exists "chapter written". reflexivity.
Defined.

(** X21. The validation of [prepare_inputs]: with an image path that is
    absent or a text, the inputs are accepted exactly when none of the four
    required fields is missing; otherwise a [ValueError] names the missing
    fields, in the order of the list of required fields, and nothing is
    printed. *)
Theorem prepare_inputs_validation (E : Env) (inputs : dict) (w : world) :
  CrewSpec.image_path_ok inputs ->
  match CrewSpec.missing_of inputs with
  | [] => exists out, fst (Crew.prepare_inputs E inputs w) = Ret out
  | missing =>
      Crew.prepare_inputs E inputs w
      = (Raise (Exn OtherError ("Missing required inputs: " +:+ Crew.list_repr missing)), w)
  end.
Proof.
  intros Hok. destruct (dict_get inputs "image_path") as [v|] eqn:Hp.
  - destruct (Hok v Hp) as [p ->].
    pose proof (CrewFacts.prepare_inputs_text E inputs p w Hp) as H. cbv zeta in H.
    destruct (CrewSpec.missing_of inputs); [|exact H].
    destruct H as [H _]. eexists. exact H.
  - destruct (CrewFacts.prepare_inputs_absent E inputs w Hp) as [H Hin].
    destruct (CrewSpec.missing_of inputs); [contradiction | exact H].
Qed.

Lemma prepare_inputs_validation_witness :
  Crew.prepare_inputs Examples.env
    [("subject", JStr "History"); ("image_path", JStr "sheets/ch1.png")]
    Examples.sample_world
  = (Raise (Exn OtherError
              "Missing required inputs: ['chapter_number', 'chapter_name']"),
     Examples.sample_world).
Proof.
  refine (prepare_inputs_validation Examples.env
            [("subject", JStr "History"); ("image_path", JStr "sheets/ch1.png")]
            Examples.sample_world _).
  intros v [= <-]. now exists "sheets/ch1.png".
Defined.

(** X22. What [prepare_inputs] returns, key by key: [filename] is the name
    of the image without its extension, whatever the caller gave; every
    other key keeps the caller's value, and [exam_name], [current_date] and
    [author] get their defaults only where the caller gave none. *)
Theorem prepare_inputs_result (E : Env) (inputs : dict) (p : string) (w : world) :
  dict_get inputs "image_path" = Some (JStr p) ->
  CrewSpec.missing_of inputs = [] ->
  exists out,
    fst (Crew.prepare_inputs E inputs w) = Ret out /\
    w_fs (snd (Crew.prepare_inputs E inputs w)) = w_fs w /\
    forall key,
      dict_get out key
      = if String.eqb key "filename" then Some (JStr (splitext_root (basename p)))
        else match dict_get inputs key with
             | Some v => Some v
             | None => CrewSpec.default_of (today E w) key
             end.
Proof.
  intros Hp Hm.
  pose proof (CrewFacts.prepare_inputs_text E inputs p w Hp) as H. cbv zeta in H.
  rewrite Hm in H. destruct H as [H1 H2].
  eexists. split; [exact H1|]. split; [exact H2|].
  intros key. rewrite DictFacts.dict_get_set.
  destruct (String.eqb key "filename"); [reflexivity|].
  apply CrewFacts.defaults_get.
Qed.

Lemma prepare_inputs_result_witness :
  exists out,
    fst (Crew.prepare_inputs Examples.env
           [ ("image_path", JStr "sheets/ch1.png"); ("chapter_number", JNum "1");
             ("chapter_name", JStr "Sets"); ("subject", JStr "Logic");
             ("filename", JStr "mine"); ("author", JStr "A. Nother") ]
           Examples.sample_world) = Ret out /\
    dict_get out "filename" = Some (JStr "ch1") /\
    dict_get out "author" = Some (JStr "A. Nother") /\
    dict_get out "exam_name" = Some (JStr "GSET").
Proof.
  destruct (prepare_inputs_result Examples.env
              [ ("image_path", JStr "sheets/ch1.png"); ("chapter_number", JNum "1");
                ("chapter_name", JStr "Sets"); ("subject", JStr "Logic");
                ("filename", JStr "mine"); ("author", JStr "A. Nother") ]
              "sheets/ch1.png" Examples.sample_world eq_refl eq_refl)
    as (out & H1 & _ & H2).
  exists out. split; [exact H1|].
  split; [exact (H2 "filename")|]. split; [exact (H2 "author") | exact (H2 "exam_name")].
Defined.

(** X23. The file name that [prepare_inputs] derives: for an image
    [dir/name.ext], where [name] has no slash and does not start with a dot
    and [ext] has no dot and no slash, it is [name]. *)
Theorem prepare_inputs_filename (E : Env) (inputs : dict) (dir : string) (c : ascii)
    (n ext : string) (w : world) :
  dict_get inputs "image_path"
  = Some (JStr (dir +:+ String "/" (String c n +:+ String "." ext))) ->
  CrewSpec.missing_of inputs = [] ->
  has_char "/" (String c n) = false -> c <> "."%char ->
  has_char "/" ext = false -> has_char "." ext = false ->
  exists out,
    fst (Crew.prepare_inputs E inputs w) = Ret out /\
    dict_get out "filename" = Some (JStr (String c n)).
Proof.
  intros Hp Hm Hn Hc He1 He2.
  pose proof (CrewFacts.prepare_inputs_text E inputs _ w Hp) as H. cbv zeta in H.
  rewrite Hm in H. destruct H as [H1 _].
  eexists. split; [exact H1|].
  rewrite DictFacts.dict_get_set_eq.
  rewrite PathFacts.basename_in_directory, PathFacts.splitext_root_ext;
    try assumption; [reflexivity|].
  rewrite has_char_app, Hn. cbn [has_char orb]. exact He1.
Qed.

Lemma prepare_inputs_filename_witness :
  exists out,
    fst (Crew.prepare_inputs Examples.env
           [ ("image_path", JStr "input/question_sheets/unit.2.png");
             ("chapter_number", JNum "2"); ("chapter_name", JStr "Sets");
             ("subject", JStr "Logic") ]
           Examples.sample_world) = Ret out /\
    dict_get out "filename" = Some (JStr "unit.2").
Proof.
  apply (prepare_inputs_filename Examples.env
           [ ("image_path", JStr "input/question_sheets/unit.2.png");
             ("chapter_number", JNum "2"); ("chapter_name", JStr "Sets");
             ("subject", JStr "Logic") ]
           "input/question_sheets" "u" "nit.2" "png" Examples.sample_world);
    try reflexivity.
  discriminate.
Defined.

(** X24. The directories of the crew: unless a regular file stands in the
    place of one of the five directories or of its parent,
    [_ensure_directories] returns, all five are directories afterwards, no
    directory has gone, and no regular file and nothing on the log has
    changed. *)
Theorem ensure_directories_creates (w : world) :
  (forall d, In d Crew.directories -> CrewSpec.clear_of_files (w_fs w) d = true) ->
  let r := Crew._ensure_directories w in
  fst r = Ret tt /\
  (forall d, In d Crew.directories -> is_dir (w_fs (snd r)) (Path d) = true) /\
  dirs (w_fs w) ⊆ dirs (w_fs (snd r)) /\
  files (w_fs (snd r)) = files (w_fs w) /\
  w_log (snd r) = w_log w.
Proof.
  intros H r. subst r. unfold Crew._ensure_directories.
  assert (Hr : fst (Crew.for_each makedirs Crew.directories w) = Ret tt).
  { apply DirectoryFacts.for_each_two. intros d Hd.
    split; [now apply DirectoryFacts.directories_two | now apply H]. }
  split; [exact Hr|]. split; [|split].
  - intros d Hd. now apply (DirectoryFacts.for_each_post Crew.directories w Hr d Hd).
  - apply DirectoryFacts.for_each_mono.
  - apply DirectoryFacts.for_each_keeps.
Qed.

Lemma ensure_directories_creates_witness :
  fst (Crew._ensure_directories Examples.sample_world) = Ret tt /\
  is_dir (w_fs (snd (Crew._ensure_directories Examples.sample_world)))
    (Path "output/book") = true.
Proof.
  destruct (ensure_directories_creates Examples.sample_world) as (H1 & H2 & _).
  - intros d Hd. cbn [Crew.directories In] in Hd.
    repeat (destruct Hd as [<- | Hd]; [vm_compute; reflexivity|]). contradiction.
  - split; [exact H1|]. apply H2. cbn. tauto.
Defined.

(** X25. Ensuring the directories is idempotent: once [_ensure_directories]
    has returned, running it again returns and changes nothing. *)
Theorem ensure_directories_idempotent (w : world) :
  fst (Crew._ensure_directories w) = Ret tt ->
  Crew._ensure_directories (snd (Crew._ensure_directories w))
  = (Ret tt, snd (Crew._ensure_directories w)).
Proof.
  intros H. unfold Crew._ensure_directories in *.
  apply DirectoryFacts.for_each_existing.
  intros d Hd. now apply DirectoryFacts.for_each_post.
Qed.

Lemma ensure_directories_idempotent_witness :
  Crew._ensure_directories (snd (Crew._ensure_directories Examples.sample_world))
  = (Ret tt, snd (Crew._ensure_directories Examples.sample_world)).
Proof.
  apply (ensure_directories_idempotent Examples.sample_world).
  vm_compute. reflexivity.
Defined.



(** X27. The Markdown converter neither joins nor breaks lines: the lines of
    its result are the results of the lines of its input, one for one. *)
Theorem markdown_lines_preserved (s : string) :
  Py.split nl (MarkdownToLaTeXTool._run s)
  = map MarkdownToLaTeXTool._run (Py.split nl s).
Proof. apply MarkdownMore.run_split. Qed.
